(** * Content visualiser backend: job lifecycle, strategy registry and the
      hierarchical-map renderer

    A shallow embedding of

    - [backend/app/main.py]: the job record, the in-memory job store, the
      attempt loop [_run_visualization_job], the intake handler [visualize]
      and the polling handler [get_visualization_job];
    - [backend/app/services/llm_service.py]: [generate_visualization];
    - [backend/app/services/visualizations/visualization_factory.py]: the
      strategy registry;
    - [backend/app/services/visualizations/mindmap_strategy.py] and
      [flowchart_strategy.py]: the strategies' [generate] and, for the
      mindmap, the renderer, the validator and the metadata functions.

    Conventions.  Python [int] is [Z]; [str] is [string], read as a sequence
    of code points below 256; [datetime] values are [Z] (microseconds);
    the float delays of the retry loop are exact dyadic rationals and are
    kept in [Q]; the dict [_jobs] is a [gmap string VisualizationJob];
    exceptions are values of type [Exc] and a call that may raise returns an
    [Outcome]. *)

From Stdlib Require Import ZArith QArith Qpower Ascii String DecimalString.
From stdpp Require Import gmap strings list fin_maps.

Local Open Scope string_scope.
Local Open Scope Z_scope.

(** ** Python string primitives *)

Module PyStr.

Definition code (c : ascii) : Z := Z.of_nat (nat_of_ascii c).
Definition chr (z : Z) : ascii := ascii_of_nat (Z.to_nat z).

Definition newline : ascii := chr 10.
Definition hash : ascii := chr 35.
Definition nl : string := String newline EmptyString.

Definition between (lo hi x : Z) : bool := (lo <=? x) && (x <=? hi).

(** [str.isspace] on one character, which is also the class [\s] of [re]
    for [str] patterns. *)
Definition isspace (c : ascii) : bool :=
  let n := code c in
  between 9 13 n || between 28 32 n || (n =? 133) || (n =? 160).

(** [str.lower] on one character. *)
Definition lower_char (c : ascii) : ascii :=
  let n := code c in
  if between 65 90 n || between 192 214 n || between 216 222 n
  then chr (n + 32) else c.

Fixpoint lower (s : string) : string :=
  match s with
  | EmptyString => EmptyString
  | String c r => String (lower_char c) (lower r)
  end.

(** [len(s)] *)
Definition len (s : string) : Z := Z.of_nat (String.length s).

(** truthiness of a [str] *)
Definition truthy (s : string) : bool :=
  match s with EmptyString => false | String _ _ => true end.

Fixpoint startswith (p s : string) : bool :=
  match p, s with
  | EmptyString, _ => true
  | String a p', String b s' => if Ascii.eqb a b then startswith p' s' else false
  | String _ _, EmptyString => false
  end.

(** [needle in s] *)
Fixpoint contains (needle s : string) : bool :=
  startswith needle s ||
  match s with
  | EmptyString => false
  | String _ r => contains needle r
  end.

Fixpoint lstrip (s : string) : string :=
  match s with
  | EmptyString => EmptyString
  | String c r => if isspace c then lstrip r else s
  end.

(** drops the trailing white space: a character is kept when something
    is kept after it or when it is not white space *)
Fixpoint rstrip (s : string) : string :=
  match s with
  | EmptyString => EmptyString
  | String c r =>
      match rstrip r with
      | EmptyString => if isspace c then EmptyString else String c EmptyString
      | kept => String c kept
      end
  end.

(** [s.strip()] *)
Definition strip (s : string) : string := rstrip (lstrip s).

(** [s * n] *)
Definition repeat (s : string) (n : Z) : string :=
  Nat.iter (Z.to_nat n) (String.append s) EmptyString.

(** [sep.join(parts)] *)
Fixpoint join (sep : string) (parts : list string) : string :=
  match parts with
  | [] => EmptyString
  | [p] => p
  | p :: rest => p +:+ sep +:+ join sep rest
  end.

(** [str(n)] for an [int] *)
Definition of_int (n : Z) : string := NilZero.string_of_int (Z.to_int n).

End PyStr.

(** ** Exceptions and results *)

(** The exception classes the handlers of the repository tell apart.
    [JSONDecodeError] (json) and [ValidationError] (pydantic) are subclasses
    of [ValueError]; [ValueError] and [RuntimeError] stand for these classes
    and their other subclasses; [ServerError] is google.genai's;
    [OtherError] stands for every other subclass of [Exception]
    ([TypeError], [KeyError], ...).  Exceptions outside [Exception] (the
    cancellation of the task) are not modelled. *)
Inductive ExcClass :=
  | ValueError | JSONDecodeError | ValidationError
  | RuntimeError | ServerError | OtherError.

(** The HTTP response object an exception may carry. *)
Record Response := mkResponse {
  resp_status_code : option Z;   (* getattr(resp, "status_code", None) *)
  resp_status : option Z         (* getattr(resp, "status", None) *)
}.

Record Exc := mkExc {
  exc_class : ExcClass;
  exc_text : string;                 (* str(exc) *)
  exc_status_code : option Z;        (* getattr(exc, "status_code", None) *)
  exc_response : option Response     (* getattr(exc, "response", None) *)
}.

(** [ValueError(msg)] and [RuntimeError(msg)] as the code constructs them. *)
Definition raise_ValueError (msg : string) : Exc := mkExc ValueError msg None None.
Definition raise_RuntimeError (msg : string) : Exc := mkExc RuntimeError msg None None.

(** [isinstance(exc, ValueError)] *)
Definition is_ValueError (e : Exc) : bool :=
  match exc_class e with
  | ValueError | JSONDecodeError | ValidationError => true
  | _ => false
  end.

Definition is_RuntimeError (e : Exc) : bool :=
  match exc_class e with RuntimeError => true | _ => false end.

(** visualization_strategy.py *)
Record VisualizationOptions := mkOptions {
  complexity : string;
  max_depth : Z;
  style : string
}.

Definition default_options : VisualizationOptions := mkOptions "balanced" 4 "default".

Record VisualizationResult := mkResult {
  res_type : string;
  res_content : string;
  res_metadata : list (string * Z)
}.

(** What a call gives back: a value or a raised exception. *)
Inductive Outcome (A : Type) :=
  | Returned (a : A)
  | Raised (e : Exc).
Arguments Returned {A} a.
Arguments Raised {A} e.

(** What the awaited provider call [client.aio.models.generate_content]
    gives: a response whose [.text] may be [None], or an exception. *)
Definition ProviderOutcome := Outcome (option string).

(** ** mindmap_strategy.py *)

Module Mindmap.

(** [class MindmapNode(BaseModel)]: a title and an optional list of
    children.  The induction principle that reaches the children under
    [option] and [list] is [MindmapNode_ind'] below. *)
Unset Elimination Schemes.
Inductive MindmapNode :=
  MkNode (title : string) (children : option (list MindmapNode)).
Set Elimination Schemes.

Definition title (n : MindmapNode) : string :=
  match n with MkNode t _ => t end.
Definition children (n : MindmapNode) : option (list MindmapNode) :=
  match n with MkNode _ c => c end.

(** [MindmapStrategy._json_to_markdown] *)
Fixpoint _json_to_markdown (node : MindmapNode) (max_depth current_depth : Z) : string :=
  match node with
  | MkNode node_title node_children =>
      if current_depth >=? max_depth then EmptyString
      else
        let heading_prefix := PyStr.repeat "#" (current_depth + 1) in
        let markdown_lines := [heading_prefix +:+ " " +:+ node_title] in
        let markdown_lines :=
          match node_children with
          | Some cs =>
              fold_left
                (fun lines child =>
                   let child_markdown :=
                     _json_to_markdown child max_depth (current_depth + 1) in
                   if PyStr.truthy child_markdown
                   then (lines ++ [child_markdown])%list else lines)
                cs markdown_lines
          | None => markdown_lines
          end in
        PyStr.join PyStr.nl markdown_lines
  end.

(** [re.search(r'^\s*#+\s.+', content, re.MULTILINE)]: the pattern
    anchored at the head of [s].  The classes [\s] and [#] are disjoint,
    so the greedy runs [\s*] and [#+] take all they can; [.] is any
    character but the newline. *)
Fixpoint skip_space (s : string) : string :=
  match s with
  | String c r => if PyStr.isspace c then skip_space r else s
  | EmptyString => EmptyString
  end.

Fixpoint skip_hash (s : string) : string :=
  match s with
  | String c r => if Ascii.eqb c PyStr.hash then skip_hash r else s
  | EmptyString => EmptyString
  end.

Definition heading_at (s : string) : bool :=
  match skip_space s with
  | String c r =>
      if Ascii.eqb c PyStr.hash then
        match skip_hash r with
        | String sp (String d _) => PyStr.isspace sp && negb (Ascii.eqb d PyStr.newline)
        | _ => false
        end
      else false
  | EmptyString => false
  end.

Fixpoint search_from (line_start : bool) (s : string) : bool :=
  (line_start && heading_at s) ||
  match s with
  | EmptyString => false
  | String c r => search_from (Ascii.eqb c PyStr.newline) r
  end.

Definition search_heading (content : string) : bool := search_from true content.

(** [MindmapStrategy.validate_content] *)
Definition validate_content (content : string) : bool :=
  if negb (PyStr.truthy content) || (PyStr.len (PyStr.strip content) <? 10) then false
  else if negb (search_heading content) then false
  else if PyStr.len content >? 50000 then false
  else true.

(** [MindmapStrategy._count_nodes] *)
Fixpoint _count_nodes (node : MindmapNode) : Z :=
  match node with
  | MkNode _ node_children =>
      let count := 1 in
      match node_children with
      | Some cs => fold_left (fun count child => count + _count_nodes child) cs count
      | None => count
      end
  end.

(** [MindmapStrategy._calculate_depth] *)
Fixpoint _calculate_depth (node : MindmapNode) (current_depth : Z) : Z :=
  match node with
  | MkNode _ node_children =>
      match node_children with
      | Some (c :: cs) =>
          fold_left
            (fun max_child_depth child =>
               Z.max max_child_depth (_calculate_depth child (current_depth + 1)))
            (c :: cs) 0
      | _ => current_depth
      end
  end.

End Mindmap.

(** The strategies' [generate].  The prompt is a total function of the
    question and the options and no property below depends on its text, so the
    awaited provider call enters as its outcome. *)

Module MindmapStrategy.
Import Mindmap.

Section Generate.
(** Lines 50-57 of [generate]: [re.search] for the fenced block
    ([None] when there is none), then [json.loads] and
    [MindmapNode.model_validate], which return the tree or raise
    ([JSONDecodeError], [ValidationError]).  These are library code. *)
Variable decode : string → option (Outcome MindmapNode).

(** the body of the [try] *)
Definition generate_body (options : VisualizationOptions)
    (provider : ProviderOutcome) : Outcome VisualizationResult :=
  match provider with
  | Raised e => Raised e
  | Returned None =>
      (* len(response.text) on None *)
      Raised (mkExc OtherError "object of type 'NoneType' has no len()" None None)
  | Returned (Some llm_output) =>
      match decode llm_output with
      | None =>
          Raised (raise_ValueError "LLM response did not contain a valid JSON block.")
      | Some (Raised e) => Raised e
      | Some (Returned mindmap_data) =>
          let markdown_content :=
            _json_to_markdown mindmap_data (max_depth options) 0 in
          if negb (validate_content markdown_content) then
            Raised (raise_ValueError "Generated mindmap markdown content is invalid.")
          else
            let total_nodes := _count_nodes mindmap_data in
            let actual_depth := _calculate_depth mindmap_data 1 in
            Returned (mkResult "mindmap" markdown_content
                        [("total_nodes", total_nodes);
                         ("actual_depth", actual_depth);
                         ("requested_max_depth", max_depth options)])
      end
  end.

(** the [except] clauses, in their order *)
Definition handle (e : Exc) : Exc :=
  match exc_class e with
  | ValidationError =>
      raise_ValueError ("LLM generated invalid JSON for Mindmap: " +:+ exc_text e)
  | JSONDecodeError =>
      raise_ValueError ("Failed to parse JSON from LLM response: " +:+ exc_text e)
  | _ => raise_RuntimeError ("Mindmap generation failed: " +:+ exc_text e)
  end.

(** [MindmapStrategy.generate] *)
Definition generate (question : string) (options : VisualizationOptions)
    (provider : ProviderOutcome) : Outcome VisualizationResult :=
  match generate_body options provider with
  | Returned result => Returned result
  | Raised e => Raised (handle e)
  end.
End Generate.

End MindmapStrategy.

Module FlowchartStrategy.

Section Generate.
(** Lines 43-69 of [generate]: extraction of the JSON block, decoding,
    [_json_to_mermaid] and [validate_content]; they return the result
    or raise inside the [try]. *)
Variable interpret : string → Outcome VisualizationResult.

Definition generate_body (provider : ProviderOutcome) : Outcome VisualizationResult :=
  match provider with
  | Raised e => Raised e
  | Returned None =>
      Raised (mkExc OtherError "object of type 'NoneType' has no len()" None None)
  | Returned (Some raw_llm_output) => interpret raw_llm_output
  end.

Definition handle (e : Exc) : Exc :=
  match exc_class e with
  | JSONDecodeError =>
      raise_ValueError ("Failed to parse JSON from LLM response: " +:+ exc_text e)
  | _ => raise_RuntimeError ("Flowchart generation failed: " +:+ exc_text e)
  end.

(** [FlowchartStrategy.generate] *)
Definition generate (question : string) (options : VisualizationOptions)
    (provider : ProviderOutcome) : Outcome VisualizationResult :=
  match generate_body provider with
  | Returned result => Returned result
  | Raised e => Raised (handle e)
  end.
End Generate.

End FlowchartStrategy.

(** ** visualization_factory.py *)

Module VisualizationFactory.

Inductive StrategyClass := Flowchart | Mindmap.

(** A Python dict with [str] keys, in insertion order. *)
Definition Dict (V : Type) := list (string * V).

Fixpoint dict_get {V} (k : string) (d : Dict V) : option V :=
  match d with
  | [] => None
  | (k', v) :: r => if String.eqb k k' then Some v else dict_get k r
  end.

(** [d[k] = v]: an existing key keeps its place *)
Fixpoint dict_set {V} (k : string) (v : V) (d : Dict V) : Dict V :=
  match d with
  | [] => [(k, v)]
  | (k', v') :: r =>
      if String.eqb k k' then (k, v) :: r else (k', v') :: dict_set k v r
  end.

Definition keys {V} (d : Dict V) : list string := map fst d.

(** [x in xs] for a list of [str] *)
Fixpoint list_in (x : string) (xs : list string) : bool :=
  match xs with
  | [] => false
  | y :: r => String.eqb x y || list_in x r
  end.

Definition register_strategy (type_name : string) (strategy_class : StrategyClass)
    (_strategies : Dict StrategyClass) : Dict StrategyClass :=
  dict_set (PyStr.lower type_name) strategy_class _strategies.

(** the singleton [visualization_factory = VisualizationFactory()] *)
Definition visualization_factory : Dict StrategyClass :=
  register_strategy "mindmap" Mindmap (register_strategy "flowchart" Flowchart []).

Definition get_supported_types (_strategies : Dict StrategyClass) : list string :=
  keys _strategies.

Definition create_strategy (_strategies : Dict StrategyClass) (type_name : string)
    : Outcome StrategyClass :=
  match dict_get (PyStr.lower type_name) _strategies with
  | None =>
      let supported_types := PyStr.join ", " (keys _strategies) in
      Raised (raise_ValueError
                ("Unsupported visualization type: '" +:+ type_name +:+ "'. " +:+
                 "Supported types are: " +:+ supported_types +:+ "."))
  | Some strategy_class => Returned strategy_class
  end.

End VisualizationFactory.

(** ** llm_service.py *)

Module LlmService.
Import VisualizationFactory.

Section Service.
Variable decode : string → option (Outcome Mindmap.MindmapNode).
Variable interpret : string → Outcome VisualizationResult.

(** [strategy.generate(question, options)] on an instance of the class *)
Definition strategy_generate (strategy : StrategyClass) (question : string)
    (options : VisualizationOptions) (provider : ProviderOutcome)
    : Outcome VisualizationResult :=
  match strategy with
  | Flowchart => FlowchartStrategy.generate interpret question options provider
  | Mindmap => MindmapStrategy.generate decode question options provider
  end.

(** the two [except] clauses of [generate_visualization] *)
Definition rewrap (visualization_type : string) (e : Exc) : Exc :=
  if is_ValueError e
  then raise_ValueError ("Visualization error: " +:+ exc_text e)
  else raise_RuntimeError
         ("Failed to generate visualization of type '" +:+ visualization_type
          +:+ "': " +:+ exc_text e).

(** [generate_visualization]; [provider] is what the provider answers
    if the strategy gets to call it. *)
Definition generate_visualization (question visualization_type : string)
    (options : VisualizationOptions) (provider : ProviderOutcome)
    : Outcome VisualizationResult :=
  match create_strategy visualization_factory visualization_type with
  | Raised e => Raised (rewrap visualization_type e)
  | Returned strategy =>
      match strategy_generate strategy question options provider with
      | Returned result => Returned result
      | Raised e => Raised (rewrap visualization_type e)
      end
  end.

Definition get_supported_visualization_types : list string :=
  get_supported_types visualization_factory.
End Service.

End LlmService.

(** ** main.py *)

Module Main.

Inductive JobStatus := PENDING | RUNNING | SUCCEEDED | FAILED.

Definition JobStatus_eqb (a b : JobStatus) : bool :=
  match a, b with
  | PENDING, PENDING | RUNNING, RUNNING
  | SUCCEEDED, SUCCEEDED | FAILED, FAILED => true
  | _, _ => false
  end.

Record VisualizationRequest := mkRequest {
  question : string;
  req_visualization_type : string;
  options : VisualizationOptions
}.

Record VisualizationJob := mkJob {
  id : string;
  status : JobStatus;
  visualization_type : string;
  content : option string;
  metadata : list (string * Z);
  error : option string;
  created_at : Z;
  updated_at : Z;
  expires_at : Z;
  attempts : Z
}.

Record VisualizationJobStatusResponse := mkStatusResponse {
  r_job_id : string;
  r_status : JobStatus;
  r_visualization_type : string;
  r_content : option string;
  r_metadata : list (string * Z);
  r_error : option string
}.

Record VisualizationJobCreateResponse := mkCreateResponse {
  c_job_id : string;
  c_status : JobStatus
}.

(** attribute assignments [job.f = v] *)
Definition set_status (v : JobStatus) (j : VisualizationJob) : VisualizationJob :=
  mkJob (id j) v (visualization_type j) (content j) (metadata j) (error j)
        (created_at j) (updated_at j) (expires_at j) (attempts j).
Definition set_attempts (v : Z) (j : VisualizationJob) : VisualizationJob :=
  mkJob (id j) (status j) (visualization_type j) (content j) (metadata j) (error j)
        (created_at j) (updated_at j) (expires_at j) v.
Definition set_updated_at (v : Z) (j : VisualizationJob) : VisualizationJob :=
  mkJob (id j) (status j) (visualization_type j) (content j) (metadata j) (error j)
        (created_at j) v (expires_at j) (attempts j).
Definition set_content (v : option string) (j : VisualizationJob) : VisualizationJob :=
  mkJob (id j) (status j) (visualization_type j) v (metadata j) (error j)
        (created_at j) (updated_at j) (expires_at j) (attempts j).
Definition set_metadata (v : list (string * Z)) (j : VisualizationJob) : VisualizationJob :=
  mkJob (id j) (status j) (visualization_type j) (content j) v (error j)
        (created_at j) (updated_at j) (expires_at j) (attempts j).
Definition set_error (v : option string) (j : VisualizationJob) : VisualizationJob :=
  mkJob (id j) (status j) (visualization_type j) (content j) (metadata j) v
        (created_at j) (updated_at j) (expires_at j) (attempts j).

(** The [detail] of an [HTTPException]: [visualize] gives a string,
    [get_visualization_job] a dict with the key [message]. *)
Inductive Detail :=
  | DetailStr (text : string)
  | DetailDict (fields : list (string * string)).

(** A handler either answers or raises [HTTPException(status_code, detail)]. *)
Inductive Http (A : Type) :=
  | Ok (a : A)
  | HTTPException (status_code : Z) (detail : Detail).
Arguments Ok {A} a.
Arguments HTTPException {A} status_code detail.

Definition HTTP_400_BAD_REQUEST : Z := 400.
Definition HTTP_404_NOT_FOUND : Z := 404.

(** What the attempt loop does that a poller or the provider can see, in
    order: the writes [_jobs[job_id] = job] with the record as it is then,
    the awaited calls of [generate_visualization], the awaited sleeps. *)
Inductive Event :=
  | EvStore (job_id : string) (job : VisualizationJob)
  | EvGenerate (attempt : Z)
  | EvSleep (delay : Q).

(** The state the background task threads: the store, the number of
    reads of the wall clock so far, and the events so far (oldest first).
    The local [job] is the object the store holds; between two awaits
    nothing else runs, and every await is preceded by a write of [job],
    so the store shows the value of [job] at every point where it can be
    observed. *)
Record World := mkWorld {
  jobs : gmap string VisualizationJob;
  reads : nat;
  trace : list Event
}.

Definition max_attempts : Z := 3.
Definition base_delay_seconds : Q := 3 # 2.

(** [range(lo, hi)] *)
Definition py_range (lo hi : Z) : list Z :=
  map (fun i => lo + Z.of_nat i) (seq 0 (Z.to_nat (hi - lo))).

(** [a or b] on optional ints: [a] when it is truthy *)
Definition py_or (a b : option Z) : option Z :=
  match a with
  | Some x => if x =? 0 then b else Some x
  | None => b
  end.

(** Lines 160-176: the status code of a [ServerError]. *)
Definition status_code_of (exc : Exc) : option Z :=
  let status_code := exc_status_code exc in
  let status_code :=
    match status_code with
    | Some _ => status_code
    | None =>
        match exc_response exc with
        | Some resp => py_or (resp_status_code resp) (resp_status resp)
        | None => None
        end
    end in
  match status_code with
  | Some _ => status_code
  | None =>
      let text := PyStr.lower (exc_text exc) in
      if PyStr.contains "503" text || PyStr.contains "unavailable" text
         || PyStr.contains "overloaded" text then Some 503
      else if PyStr.contains "429" text || PyStr.contains "too many requests" text
              || PyStr.contains "rate limit" text then Some 429
      else None
  end.

(** [status_code == c] for a status code that may be [None] *)
Definition status_is (status_code : option Z) (c : Z) : bool :=
  match status_code with
  | Some x => x =? c
  | None => false
  end.

(** [status_code in (503, 429)] *)
Definition is_transient (status_code : option Z) : bool :=
  status_is status_code 503 || status_is status_code 429.

(** [base_delay_seconds * (2 ** (attempt - 1))] *)
Definition backoff_delay (attempt : Z) : Q :=
  (base_delay_seconds * inject_Z (2 ^ (attempt - 1)))%Q.

(** [f"{delay:.1f}"] for a non-negative delay: the nearest tenth, ties
    to even. *)
Definition format_1f (delay : Q) : string :=
  let n := Qnum delay * 10 in
  let d := Zpos (Qden delay) in
  let fl := n / d in
  let r := n mod d in
  let tenths :=
    if 2 * r <? d then fl
    else if 2 * r >? d then fl + 1
    else if Z.even fl then fl else fl + 1 in
  PyStr.of_int (tenths / 10) +:+ "." +:+ PyStr.of_int (tenths mod 10).

Definition show_status_code (status_code : option Z) : string :=
  match status_code with Some c => PyStr.of_int c | None => "None" end.

Section Task.
(** the [n]-th value read from [datetime.utcnow()] *)
Variable utcnow : nat → Z.
(** what the awaited [generate_visualization] gives at each attempt *)
Variable generate_visualization : Z → Outcome VisualizationResult.
Variable job_id : string.

Definition now (w : World) : Z * World :=
  (utcnow (reads w), mkWorld (jobs w) (S (reads w)) (trace w)).

Definition emit (e : Event) (w : World) : World :=
  mkWorld (jobs w) (reads w) (trace w ++ [e]).

(** [job.updated_at = datetime.utcnow(); _jobs[job_id] = job] *)
Definition stamp_and_store (job : VisualizationJob) (w : World)
    : VisualizationJob * World :=
  let '(t, w) := now w in
  let job := set_updated_at t job in
  (job, emit (EvStore job_id job) (mkWorld (<[job_id := job]> (jobs w)) (reads w) (trace w))).

(** the body of the [for] loop; the list is what is left of
    [range(1, max_attempts + 1)] *)
Fixpoint attempt_loop (todo : list Z) (job : VisualizationJob) (w : World) : World :=
  match todo with
  | [] => w
  | attempt :: rest =>
      let job := set_attempts attempt (set_status RUNNING job) in
      let '(job, w) := stamp_and_store job w in
      let w := emit (EvGenerate attempt) w in
      match generate_visualization attempt with
      | Returned result =>
          let job := set_status SUCCEEDED
                       (set_metadata (res_metadata result)
                          (set_content (Some (res_content result)) job)) in
          snd (stamp_and_store job w)
      | Raised exc =>
          if is_ValueError exc || is_RuntimeError exc then
            let job := set_error (Some (exc_text exc)) (set_status FAILED job) in
            snd (stamp_and_store job w)
          else
            match exc_class exc with
            | ServerError =>
                let status_code := status_code_of exc in
                if is_transient status_code && (attempt <? max_attempts) then
                  let delay := backoff_delay attempt in
                  let job := set_status PENDING job in
                  let job :=
                    set_error
                      (Some ("Transient Gemini error (status=" +:+
                             show_status_code status_code +:+ "). Retrying in " +:+
                             format_1f delay +:+ "s.")) job in
                  let '(job, w) := stamp_and_store job w in
                  let w := emit (EvSleep delay) w in
                  attempt_loop rest job w
                else
                  let job := set_status FAILED job in
                  let job :=
                    if status_is status_code 503 then
                      set_error
                        (Some ("The Gemini model is still overloaded after multiple attempts. "
                               +:+ "Please wait a bit and try again.")) job
                    else if status_is status_code 429 then
                      set_error
                        (Some ("Gemini rate limit was hit several times in a row. "
                               +:+ "Please slow down and try again shortly.")) job
                    else
                      set_error
                        (Some ("Gemini returned an error while generating the diagram: "
                               +:+ exc_text exc)) job in
                  snd (stamp_and_store job w)
            | _ =>
                let job := set_error (Some ("Unexpected error: " +:+ exc_text exc))
                             (set_status FAILED job) in
                snd (stamp_and_store job w)
            end
      end
  end.

(** [_run_visualization_job] *)
Definition _run_visualization_job (w : World) : World :=
  match jobs w !! job_id with
  | None => w
  | Some job => attempt_loop (py_range 1 (max_attempts + 1)) job w
  end.

(** [_run_visualization_job] from its start to its first [await] (lines
    119-133): the lookup of the job, then the first four assignments of
    the first round of the loop.  A task created by [asyncio.create_task]
    runs without interruption up to there. *)
Definition until_first_await (w : World) : World :=
  match jobs w !! job_id with
  | None => w
  | Some job =>
      match py_range 1 (max_attempts + 1) with
      | [] => w
      | attempt :: _ =>
          snd (stamp_and_store (set_attempts attempt (set_status RUNNING job)) w)
      end
  end.
End Task.

(** [visualize]: [job_id] is the fresh [str(uuid.uuid4())] and [now] the
    value read from the clock.  On acceptance the handler also schedules
    [_run_visualization_job] with the request's type as sent. *)
Definition visualize (request : VisualizationRequest) (job_id : string) (now : Z)
    (_jobs : gmap string VisualizationJob)
    : Http VisualizationJobCreateResponse * gmap string VisualizationJob :=
  let supported_types := LlmService.get_supported_visualization_types in
  if negb (VisualizationFactory.list_in
             (PyStr.lower (req_visualization_type request)) supported_types) then
    (HTTPException HTTP_400_BAD_REQUEST
       (DetailStr
          ("Unsupported visualization type: '" +:+ req_visualization_type request +:+ "'. "
           +:+ "Supported types are: " +:+ PyStr.join ", " supported_types +:+ ".")),
     _jobs)
  else
    let expires_at := now + 3600 * 1000000 in
    let job := mkJob job_id PENDING (PyStr.lower (req_visualization_type request))
                     None [] None now now expires_at 0 in
    (Ok (mkCreateResponse job_id PENDING), <[job_id := job]> _jobs).

(** [get_visualization_job] *)
Definition get_visualization_job (job_id : string) (now : Z)
    (_jobs : gmap string VisualizationJob)
    : Http VisualizationJobStatusResponse * gmap string VisualizationJob :=
  match _jobs !! job_id with
  | None =>
      (HTTPException HTTP_404_NOT_FOUND
         (DetailDict
            [("message", "Visualization job '" +:+ job_id +:+ "' not found or expired.")]),
       _jobs)
  | Some job =>
      if expires_at job <? now then
        (HTTPException HTTP_404_NOT_FOUND
           (DetailDict
              [("message",
                "Visualization job '" +:+ job_id +:+ "' has expired and was removed.")]),
         delete job_id _jobs)
      else
        (Ok (mkStatusResponse (id job) (status job) (visualization_type job)
               (content job) (metadata job) (error job)), _jobs)
  end.

End Main.

(** ** The whole life of a job: intake, then the background task *)

Module App.
Import Main.

Section Lifecycle.
Variable decode : string → option (Outcome Mindmap.MindmapNode).
Variable interpret : string → Outcome VisualizationResult.
Variable utcnow : nat → Z.
(** what the provider answers during the [n]-th attempt *)
Variable provider : Z → ProviderOutcome.

(** the call [generate_visualization(question, visualization_type,
    options)] of the loop, at one attempt *)
Definition awaited_generate (request : VisualizationRequest) (attempt : Z)
    : Outcome VisualizationResult :=
  LlmService.generate_visualization decode interpret
    (question request) (req_visualization_type request) (options request)
    (provider attempt).

(** the task [visualize] schedules *)
Definition background_task (request : VisualizationRequest) (job_id : string)
    (w : World) : World :=
  _run_visualization_job utcnow (awaited_generate request) job_id w.
End Lifecycle.

End App.

(** ** Vocabulary of the statements *)

Module Obs.
Import Main.

(** number of awaited [generate_visualization] calls in a trace *)
Fixpoint generate_calls (evs : list Event) : nat :=
  match evs with
  | [] => 0%nat
  | EvGenerate _ :: r => S (generate_calls r)
  | _ :: r => generate_calls r
  end.

(** the delays slept, in order *)
Fixpoint sleeps (evs : list Event) : list Q :=
  match evs with
  | [] => []
  | EvSleep d :: r => d :: sleeps r
  | _ :: r => sleeps r
  end.

(** the successive values of the record written to the store *)
Fixpoint snapshots (evs : list Event) : list VisualizationJob :=
  match evs with
  | [] => []
  | EvStore _ j :: r => j :: snapshots r
  | _ :: r => snapshots r
  end.

(** An error the loop treats as retryable: a [ServerError] (that is not
    also a [ValueError] or [RuntimeError]) whose status code, explicit or
    guessed from the text, is 503 or 429. *)
Definition transient (exc : Exc) : bool :=
  negb (is_ValueError exc || is_RuntimeError exc) &&
  match exc_class exc with ServerError => true | _ => false end &&
  is_transient (status_code_of exc).

(** the record as the loop writes it before the call of attempt [k] *)
Definition running_job (utcnow : nat → Z) (k : Z) (job : VisualizationJob) (w : World)
    : VisualizationJob :=
  set_updated_at (utcnow (reads w)) (set_attempts k (set_status RUNNING job)).

(** The world right after attempt [k] ended the loop: the record was
    written as [running] before the call and as [final] after it. *)
Definition after_last_attempt (job_id : string) (k : Z)
    (running final : VisualizationJob) (w : World) : World :=
  mkWorld (<[job_id := final]> (<[job_id := running]> (jobs w)))
          (S (S (reads w)))
          (trace w ++ [EvStore job_id running; EvGenerate k; EvStore job_id final]).

(** The world when attempt [k] failed with a retryable error and the
    sleep is over: the record was written as [running], then as [pending]. *)
Definition after_retry (job_id : string) (k : Z)
    (running pending : VisualizationJob) (w : World) : World :=
  mkWorld (<[job_id := pending]> (<[job_id := running]> (jobs w)))
          (S (S (reads w)))
          (trace w ++ [EvStore job_id running; EvGenerate k;
                       EvStore job_id pending; EvSleep (backoff_delay k)]).

(** a finished job that expires one hour after time 0 *)
Definition finished_job : VisualizationJob :=
  mkJob "job-1" SUCCEEDED "flowchart" (Some "flowchart TD") [] None 0 5 3600000000 1.

(** a job as [visualize] creates it at time 0 *)
Definition fresh_job : VisualizationJob :=
  mkJob "job-1" PENDING "flowchart" None [] None 0 0 3600000000 0.

(** a [ServerError] that carries the status code 503 *)
Definition overloaded_503 : Exc :=
  mkExc ServerError "503 UNAVAILABLE. The model is overloaded." (Some 503) None.

(** [error] is present *)
Definition has_error (j : VisualizationJob) : bool :=
  match error j with Some _ => true | None => false end.

(** [error] is present and is not the empty string *)
Definition error_set (j : VisualizationJob) : bool :=
  match error j with Some text => PyStr.truthy text | None => false end.

(** The records a run writes, in order, each with whether a retry is
    under way when it is written: the write is the one the retry branch
    makes before it sleeps, or a retry sleep came earlier in the run.
    [retrying] says whether a retry sleep came before [evs]. *)
Fixpoint points (retrying : bool) (evs : list Event) : list (bool * VisualizationJob) :=
  match evs with
  | [] => []
  | EvStore _ j :: r =>
      (match r with EvSleep _ :: _ => true | _ => retrying end, j) :: points retrying r
  | EvSleep _ :: r => points true r
  | EvGenerate _ :: r => points retrying r
  end.

(** the job is mid-retry: back in pending or running after a retryable
    failure *)
Definition mid_retry (p : bool * VisualizationJob) : bool :=
  fst p && (JobStatus_eqb (status (snd p)) PENDING
            || JobStatus_eqb (status (snd p)) RUNNING).

(** the invariant on [error] at one point of a job's life: it is set
    exactly when the job is failed or mid-retry *)
Definition error_as_specified (p : bool * VisualizationJob) : Prop :=
  error_set (snd p) = true ↔ (status (snd p) = FAILED ∨ mid_retry p = true).

End Obs.

Module MindmapObs.
Import Mindmap.

(** every node of the tree with its depth, parents before children,
    children in order; the root is at [depth] *)
Fixpoint all_nodes (node : MindmapNode) (depth : Z) : list (Z * string) :=
  match node with
  | MkNode t c =>
      (depth, t) ::
      match c with
      | Some cs => concat (map (fun child => all_nodes child (depth + 1)) cs)
      | None => []
      end
  end.

(** number of nodes on the longest path from the root to a leaf *)
Fixpoint tree_height (node : MindmapNode) : Z :=
  match node with
  | MkNode _ c =>
      1 + match c with
          | Some cs => fold_right (fun child m => Z.max (tree_height child) m) 0 cs
          | None => 0
          end
  end.

(** the heading line of level [level] for a title *)
Definition heading_line (level : Z) (t : string) : string :=
  PyStr.repeat "#" level +:+ " " +:+ t.

(** level of a line: how many [#] it starts with *)
Fixpoint leading_hashes (s : string) : Z :=
  match s with
  | String c r => if Ascii.eqb c PyStr.hash then 1 + leading_hashes r else 0
  | EmptyString => 0
  end.

(** [text.split("\n")]: the lines of a text *)
Fixpoint split_lines (s : string) : list string :=
  match s with
  | EmptyString => [EmptyString]
  | String c r =>
      if Ascii.eqb c PyStr.newline then EmptyString :: split_lines r
      else match split_lines r with
           | h :: t => String c h :: t
           | [] => [String c EmptyString]
           end
  end.

(** the string has no newline in it *)
Fixpoint no_newline (s : string) : bool :=
  match s with
  | EmptyString => true
  | String c r => negb (Ascii.eqb c PyStr.newline) && no_newline r
  end.

(** the nodes that are not pruned: those at a depth below [max_depth] *)
Definition kept (max_depth : Z) (nodes : list (Z * string)) : list (Z * string) :=
  List.filter (fun n => fst n <? max_depth) nodes.

(** the line the renderer appends for a node at depth [fst n] *)
Definition node_line (n : Z * string) : string := heading_line (fst n + 1) (snd n).

(** the lines of the nodes that are not pruned, in order *)
Definition rendered_lines (node : MindmapNode) (max_depth depth : Z) : list string :=
  map node_line (kept max_depth (all_nodes node depth)).

(** The heading level as the specification words it:
    [min(depth + 1, the notation's maximum heading levels)], markdown
    having six heading levels. *)
Definition markdown_max_heading_levels : Z := 6.
Definition spec_heading_level (depth : Z) : Z :=
  Z.min (depth + 1) markdown_max_heading_levels.
Definition spec_node_line (n : Z * string) : string :=
  heading_line (spec_heading_level (fst n)) (snd n).

(** a chain [t1 - t2 - ... ] of single children, used in the examples *)
Fixpoint chain (titles : list string) : MindmapNode :=
  match titles with
  | [] => MkNode "leaf" None
  | [t] => MkNode t (Some [])
  | t :: r => MkNode t (Some [chain r])
  end.

(** six levels, one node per level *)
Definition six_levels : MindmapNode :=
  chain ["Rocq"; "Kernel"; "Terms"; "Inductive types"; "Positivity"; "Nesting"].

(** seven levels, one node per level *)
Definition seven_levels : MindmapNode :=
  chain ["a"; "b"; "c"; "d"; "e"; "f"; "g"].

(** six levels, one node per level; the title of the root holds a line
    break followed by the text of a level-four heading *)
Definition six_levels_with_line_break : MindmapNode :=
  chain ["Root" +:+ PyStr.nl +:+ "#### injected level-4 heading";
         "Kernel"; "Terms"; "Inductive types"; "Positivity"; "Nesting"].

End MindmapObs.

(** ** Decoded JSON values and the Python operations applied to them *)

Module Json.

(** What [json.loads] returns: [None], a [bool], an [int], a [float] (kept
    as its [repr]), a [str], a [list] or a [dict] (its items, the keys
    being distinct). *)
Unset Elimination Schemes.
Inductive JSON :=
  | JNull
  | JBool (b : bool)
  | JInt (z : Z)
  | JFloat (repr : string)
  | JStr (s : string)
  | JArr (items : list JSON)
  | JObj (fields : list (string * JSON)).
Set Elimination Schemes.

(** [type(v).__name__] *)
Definition type_name (v : JSON) : string :=
  match v with
  | JNull => "NoneType"
  | JBool _ => "bool"
  | JInt _ => "int"
  | JFloat _ => "float"
  | JStr _ => "str"
  | JArr _ => "list"
  | JObj _ => "dict"
  end.

Definition AttributeError (v : JSON) (attr : string) : Exc :=
  mkExc OtherError
    ("'" +:+ type_name v +:+ "' object has no attribute '" +:+ attr +:+ "'") None None.

Definition TypeError_not_iterable (v : JSON) : Exc :=
  mkExc OtherError ("'" +:+ type_name v +:+ "' object is not iterable") None None.

Fixpoint lookup_field (key : string) (fields : list (string * JSON)) : option JSON :=
  match fields with
  | [] => None
  | (k, v) :: r => if String.eqb key k then Some v else lookup_field key r
  end.

(** [v.get(key, default)] *)
Definition get (v : JSON) (key : string) (default : JSON) : Outcome JSON :=
  match v with
  | JObj fields =>
      Returned (match lookup_field key fields with Some x => x | None => default end)
  | _ => Raised (AttributeError v "get")
  end.

(** [v.strip()] *)
Definition strip (v : JSON) : Outcome string :=
  match v with
  | JStr s => Returned (PyStr.strip s)
  | _ => Raised (AttributeError v "strip")
  end.

(** [v.lower()] *)
Definition lower (v : JSON) : Outcome string :=
  match v with
  | JStr s => Returned (PyStr.lower s)
  | _ => Raised (AttributeError v "lower")
  end.

Fixpoint chars (s : string) : list JSON :=
  match s with
  | EmptyString => []
  | String c r => JStr (String c EmptyString) :: chars r
  end.

(** what [for x in v] goes through: the items of a list, the keys of a
    dict, the characters of a str *)
Definition iterate (v : JSON) : Outcome (list JSON) :=
  match v with
  | JArr items => Returned items
  | JObj fields => Returned (map (fun kv => JStr (fst kv)) fields)
  | JStr s => Returned (chars s)
  | _ => Raised (TypeError_not_iterable v)
  end.

End Json.

(** sequencing of calls that may raise: [x ← e; k] runs [k] on the value
    of [e] and stops at the exception [e] raises *)
#[global] Instance Outcome_bind : MBind Outcome :=
  fun A B (f : A → Outcome B) (x : Outcome A) =>
    match x with
    | Returned a => f a
    | Raised e => Raised e
    end.

(** ** flowchart_strategy.py: the renderer, the validator, the body of
    [generate] *)

Module FlowchartRender.
Import Json.

(** the double quote *)
Definition dq : string := String (PyStr.chr 34) EmptyString.

(** [ch.isalnum()] *)
Definition isalnum (c : ascii) : bool :=
  let n := PyStr.code c in
  PyStr.between 48 57 n || PyStr.between 65 90 n || PyStr.between 97 122 n
  || (n =? 170) || PyStr.between 178 179 n || (n =? 181) || PyStr.between 185 186 n
  || PyStr.between 188 190 n || PyStr.between 192 214 n || PyStr.between 216 246 n
  || PyStr.between 248 255 n.

Definition id_char (ch : ascii) : bool := isalnum ch || Ascii.eqb ch "_"%char.

(** the characters of [s] that are alphanumeric or the underscore, joined *)
Fixpoint sanitize (s : string) : string :=
  match s with
  | EmptyString => EmptyString
  | String ch r => if id_char ch then String ch (sanitize r) else sanitize r
  end.

(** [s.replace(dq, '&quot;')], [dq] being the double quote *)
Fixpoint escape_quotes (s : string) : string :=
  match s with
  | EmptyString => EmptyString
  | String ch r =>
      if Ascii.eqb ch (PyStr.chr 34) then "&quot;" +:+ escape_quotes r
      else String ch (escape_quotes r)
  end.

(** [node_shapes.get(shape_key, node_shapes["default"])] *)
Definition node_shapes (shape_key : string) : string * string :=
  if String.eqb shape_key "start" then ("([", "])")
  else if String.eqb shape_key "end" then ("((", "))")
  else if String.eqb shape_key "decision" then ("{", "}")
  else if String.eqb shape_key "inputoutput" then ("[/", "/]")
  else if String.eqb shape_key "process" then ("[", "]")
  else ("[", "]").

(** One turn of [for node in nodes]: the line appended, if any. *)
Definition node_step (node : JSON) : Outcome (option string) :=
  id_value ← get node "id" (JStr "") ;
  node_id ← strip id_value ;
  label_value ← get node "label" (JStr "") ;
  label ← strip label_value ;
  shape_value ← get node "shape" (JStr "default") ;
  shape_key ← lower shape_value ;
  if negb (PyStr.truthy node_id) then Returned None
  else
    let safe_id := sanitize node_id in
    if negb (PyStr.truthy safe_id) then Returned None
    else
      let safe_label :=
        if PyStr.truthy (escape_quotes label) then escape_quotes label else safe_id in
      let '(open_shape, close_shape) := node_shapes shape_key in
      Returned (Some (safe_id +:+ open_shape +:+ dq +:+ safe_label +:+ dq +:+ close_shape)).

(** One turn of [for edge in edges]. *)
Definition edge_step (edge : JSON) : Outcome (option string) :=
  from_value ← get edge "from" (JStr "") ;
  src ← strip from_value ;
  to_value ← get edge "to" (JStr "") ;
  dst ← strip to_value ;
  if negb (PyStr.truthy src) || negb (PyStr.truthy dst) then Returned None
  else
    let safe_src := sanitize src in
    let safe_dst := sanitize dst in
    if negb (PyStr.truthy safe_src) || negb (PyStr.truthy safe_dst) then Returned None
    else
      label_value ← get edge "label" (JStr "") ;
      label ← strip label_value ;
      if PyStr.truthy label then
        Returned (Some (safe_src +:+ " -->|" +:+ dq +:+ escape_quotes label +:+ dq
                        +:+ "| " +:+ safe_dst))
      else Returned (Some (safe_src +:+ " --> " +:+ safe_dst)).

(** a [for] loop that appends to [lines] and stops at the first exception *)
Fixpoint append_lines (step : JSON → Outcome (option string)) (items : list JSON)
    (lines : list string) : Outcome (list string) :=
  match items with
  | [] => Returned lines
  | item :: rest =>
      line ← step item ;
      append_lines step rest
        (match line with Some l => (lines ++ [l])%list | None => lines end)
  end.

Definition fallback_lines : list string :=
  ["A([" +:+ dq +:+ "Unable to build diagram" +:+ dq +:+ "])";
   "A --> B((" +:+ dq +:+ "Please refine your question" +:+ dq +:+ "))"].

Section Render.
(** [str(v)] for a decoded value that is not a [str]; what the f-string
    does with [direction] then *)
Variable py_str : JSON → string.

Definition format_value (v : JSON) : string :=
  match v with JStr s => s | _ => py_str v end.

(** the list [lines] at the end of [_json_to_mermaid] *)
Definition mermaid_lines (diagram : JSON) : Outcome (list string) :=
  direction ← get diagram "direction" (JStr "TD") ;
  nodes ← get diagram "nodes" (JArr []) ;
  edges ← get diagram "edges" (JArr []) ;
  let lines := ["flowchart " +:+ format_value direction] in
  node_items ← iterate nodes ;
  lines ← append_lines node_step node_items lines ;
  edge_items ← iterate edges ;
  lines ← append_lines edge_step edge_items lines ;
  Returned (if (length lines =? 1)%nat then (lines ++ fallback_lines)%list else lines).

(** [FlowchartStrategy._json_to_mermaid] *)
Definition _json_to_mermaid (diagram : JSON) : Outcome string :=
  lines ← mermaid_lines diagram ;
  Returned (PyStr.join PyStr.nl lines).

(** [FlowchartStrategy.validate_content] *)
Definition validate_content (content : string) : bool :=
  if negb (PyStr.truthy content) || (PyStr.len (PyStr.strip content) <? 10) then false
  else if negb (PyStr.startswith "flowchart" (PyStr.strip content)) then false
  else if PyStr.len content >? 50000 then false
  else true.

(** [re.search(r'```json\s*(.*?)\s*```', raw, re.DOTALL)]: group 1 of the
    match, [None] when there is none *)
Variable search_json_block : string → option string.
(** [json.loads]: the value, or the exception raised ([JSONDecodeError]) *)
Variable json_loads : string → Outcome JSON.

(** Lines 43-69 of [FlowchartStrategy.generate], from the raw answer to the
    result. *)
Definition interpret (raw_llm_output : string) : Outcome VisualizationResult :=
  diagram ←
    match search_json_block raw_llm_output with
    | None =>
        match json_loads raw_llm_output with
        | Returned d => Returned d
        | Raised e =>
            match exc_class e with
            | JSONDecodeError =>
                Raised (raise_ValueError
                          "LLM response did not contain a valid JSON block or raw JSON.")
            | _ => Raised e
            end
        end
    | Some group1 => json_loads (PyStr.strip group1)
    end ;
  mermaid_code ← _json_to_mermaid diagram ;
  if negb (validate_content mermaid_code) then
    Raised (raise_ValueError "Generated Mermaid flowchart content is invalid.")
  else Returned (mkResult "flowchart" mermaid_code []).

(** [FlowchartStrategy.generate], with the body above *)
Definition generate (question : string) (options : VisualizationOptions)
    (provider : ProviderOutcome) : Outcome VisualizationResult :=
  FlowchartStrategy.generate interpret question options provider.

End Render.

End FlowchartRender.

(** ** mindmap_strategy.py and prompt_templates.py: the choice of the prompt *)

Module Prompting.

(** [any(keyword in q_lower for keyword in keywords)] *)
Definition any_in (keywords : list string) (q_lower : string) : bool :=
  existsb (fun keyword => PyStr.contains keyword q_lower) keywords.

(** [MindmapStrategy._detect_domain] *)
Definition _detect_domain (question : string) : string :=
  let q_lower := PyStr.lower question in
  if any_in ["compare"; "vs"; "versus"; "difference"] q_lower then "comparison"
  else if any_in ["learn"; "explain"; "understand"; "teach"] q_lower then "learning"
  else if any_in ["process"; "workflow"; "procedure"; "steps"] q_lower then "business"
  else if any_in ["how does"; "technical"; "system"; "architecture"] q_lower then "technical"
  else "general".

(** [PromptTemplates.get_complexity_guidance] *)
Definition get_complexity_guidance (complexity : string) : string :=
  let key := PyStr.lower complexity in
  if String.eqb key "simple" then
    "Keep it high-level: 2-3 main branches, maximum 2 levels deep, 2-5 words per label."
  else if String.eqb key "balanced" then
    "Provide a balanced view: 3-5 main branches, moderate detail, 3-4 levels deep, 3-7 words per label."
  else if String.eqb key "detailed" then
    "Be comprehensive: 4-6 main branches, detailed explanations with examples, 5-6 levels deep, 4-10 words per label."
  else "Provide a balanced view with good detail.".

Section Templates.
(** the four template texts of [PromptTemplates] *)
Variables TECHNICAL_CONCEPT BUSINESS_PROCESS LEARNING_TOPIC COMPARISON : string.

(** [PromptTemplates.get_template] *)
Definition get_template (domain : string) : string :=
  let key := PyStr.lower domain in
  if String.eqb key "technical" then TECHNICAL_CONCEPT
  else if String.eqb key "business" then BUSINESS_PROCESS
  else if String.eqb key "learning" then LEARNING_TOPIC
  else if String.eqb key "comparison" then COMPARISON
  else if String.eqb key "general" then TECHNICAL_CONCEPT
  else TECHNICAL_CONCEPT.
End Templates.

End Prompting.

(** ** The service with both strategies as the repository has them *)

Module Service.

Section Concrete.
Variable decode : string → option (Outcome Mindmap.MindmapNode).
Variable py_str : Json.JSON → string.
Variable search_json_block : string → option string.
Variable json_loads : string → Outcome Json.JSON.

(** [generate_visualization] with the flowchart body of the source *)
Definition generate_visualization (question visualization_type : string)
    (options : VisualizationOptions) (provider : ProviderOutcome)
    : Outcome VisualizationResult :=
  LlmService.generate_visualization decode
    (FlowchartRender.interpret py_str search_json_block json_loads)
    question visualization_type options provider.
End Concrete.

End Service.

(** ** More vocabulary *)

Module Obs2.
Import Main.

(** the job has reached one of the two final states *)
Definition terminal (j : VisualizationJob) : bool :=
  match status j with SUCCEEDED | FAILED => true | _ => false end.

(** the fields the loop never assigns *)
Definition same_identity (a b : VisualizationJob) : Prop :=
  id a = id b ∧ visualization_type a = visualization_type b
  ∧ created_at a = created_at b ∧ expires_at a = expires_at b.

(** What holds of every value [j] the loop writes for a job that was [job]
    when the loop started: the identity is kept; content and metadata are
    those of the start unless the job succeeded, and then the content is
    present; a failed job has an error. *)
Definition written_from (job j : VisualizationJob) : Prop :=
  same_identity job j
  ∧ (status j = SUCCEEDED ∨ (content j = content job ∧ metadata j = metadata job))
  ∧ (status j = SUCCEEDED → is_Some (content j))
  ∧ (status j = FAILED → is_Some (error j)).

(** every character of the string is white space *)
Fixpoint all_space (s : string) : bool :=
  match s with
  | EmptyString => true
  | String c r => PyStr.isspace c && all_space r
  end.

(** every character of the string may stand in a node id *)
Fixpoint id_chars_only (s : string) : bool :=
  match s with
  | EmptyString => true
  | String c r => FlowchartRender.id_char c && id_chars_only r
  end.

(** the double quote occurs in the string *)
Fixpoint has_quote (s : string) : bool :=
  match s with
  | EmptyString => false
  | String c r => Ascii.eqb c (PyStr.chr 34) || has_quote r
  end.

(** the string begins with a character that is not white space *)
Definition starts_nonspace (s : string) : bool :=
  match s with
  | String c _ => negb (PyStr.isspace c)
  | EmptyString => false
  end.

End Obs2.

(** * Properties *)

(** ** Strings *)

Module PyStrFacts.
Import PyStr.

Lemma append_cons (c : ascii) (s t : string) : String c s +:+ t = String c (s +:+ t).
Proof. reflexivity. Qed.

Lemma append_nil_r (s : string) : s +:+ "" = s.
Proof. induction s as [|c s IH]; [reflexivity | now rewrite append_cons, IH]. Qed.

Lemma append_assoc (a b c : string) : (a +:+ b) +:+ c = a +:+ (b +:+ c).
Proof. induction a as [|x a IH]; [reflexivity | now rewrite !append_cons, IH]. Qed.

Lemma join_cons (sep x : string) (l : list string) :
  l ≠ [] → join sep (x :: l) = x +:+ sep +:+ join sep l.
Proof. destruct l; [congruence | reflexivity]. Qed.

Lemma join_app (sep : string) (a b : list string) :
  a ≠ [] → b ≠ [] → join sep (a ++ b) = join sep a +:+ sep +:+ join sep b.
Proof.
  induction a as [|x a IH]; intros Ha Hb; [congruence|].
  destruct a as [|y a].
  - simpl app. now rewrite join_cons.
  - change ((x :: y :: a) ++ b)%list with (x :: ((y :: a) ++ b))%list.
    rewrite join_cons by (simpl; congruence).
    rewrite IH by congruence.
    rewrite (join_cons sep x (y :: a)) by congruence.
    now rewrite !append_assoc.
Qed.

(** Replacing a run of lines by their join does not change the text. *)
Lemma join_flatten (sep : string) (a l b : list string) :
  l ≠ [] → join sep (a ++ join sep l :: b) = join sep (a ++ l ++ b).
Proof.
  intros Hl.
  assert (Hmid : join sep (join sep l :: b) = join sep (l ++ b)).
  { destruct b as [|y b].
    - now rewrite app_nil_r.
    - rewrite join_cons by congruence. now rewrite join_app by congruence. }
  destruct a as [|x a]; [exact Hmid|].
  rewrite (join_app sep (x :: a) (join sep l :: b)) by congruence.
  rewrite (join_app sep (x :: a) (l ++ b)%list)
    by first [congruence | destruct l; [congruence | simpl; congruence]].
  now rewrite Hmid.
Qed.

Lemma repeat_succ (s : string) (n : Z) :
  0 <= n → repeat s (n + 1) = s +:+ repeat s n.
Proof.
  intros Hn. unfold repeat.
  replace (Z.to_nat (n + 1)) with (S (Z.to_nat n)) by lia.
  reflexivity.
Qed.

Lemma repeat_nonpos (s : string) (n : Z) : n <= 0 → repeat s n = "".
Proof.
  intros Hn. unfold repeat. replace (Z.to_nat n) with 0%nat by lia. reflexivity.
Qed.

End PyStrFacts.

(** ** The hierarchical-map renderer and its metadata *)

Module MindmapFacts.
Import Mindmap MindmapObs PyStr PyStrFacts.

(** Induction on a tree, with the hypothesis for every child. *)
Lemma MindmapNode_ind' (P : MindmapNode → Prop)
  (Hnone : ∀ t, P (MkNode t None))
  (Hsome : ∀ t cs, Forall P cs → P (MkNode t (Some cs))) : ∀ n, P n.
Proof.
  exact (fix go (n : MindmapNode) : P n :=
           match n with
           | MkNode t None => Hnone t
           | MkNode t (Some cs) =>
               Hsome t cs
                 ((fix all (l : list MindmapNode) : Forall P l :=
                     match l with
                     | [] => @List.Forall_nil _ P
                     | x :: r => @List.Forall_cons _ P x r (go x) (all r)
                     end) cs)
           end).
Qed.

Lemma all_nodes_depth (t : MindmapNode) :
  ∀ d n, In n (all_nodes t d) → d <= fst n.
Proof.
  induction t as [t | t cs IH] using MindmapNode_ind'; intros d n Hin.
  - destruct Hin as [<- | []]. simpl. lia.
  - destruct Hin as [<- | Hin]; [simpl; lia|].
    apply in_concat in Hin as (l & Hl & Hn).
    apply in_map_iff in Hl as (c & <- & Hc).
    rewrite List.Forall_forall in IH.
    specialize (IH c Hc (d + 1) n Hn). lia.
Qed.

Lemma kept_none (md : Z) (l : list (Z * string)) :
  (∀ n, In n l → md <= fst n) → kept md l = [].
Proof.
  induction l as [|x l IH]; intros H; [reflexivity|].
  unfold kept in *. simpl.
  destruct (Z.ltb_spec (fst x) md) as [Hlt | _].
  - specialize (H x (or_introl eq_refl)). lia.
  - apply IH. intros n Hn. apply H. now right.
Qed.

Lemma rendered_lines_pruned (t : MindmapNode) (md d : Z) :
  md <= d → rendered_lines t md d = [].
Proof.
  intros Hd. unfold rendered_lines. rewrite kept_none; [reflexivity|].
  intros n Hn. apply all_nodes_depth in Hn. lia.
Qed.

Lemma rendered_lines_node (t : string) (c : option (list MindmapNode)) (md d : Z) :
  d < md →
  rendered_lines (MkNode t c) md d =
    heading_line (d + 1) t ::
    match c with
    | Some cs => concat (map (fun child => rendered_lines child md (d + 1)) cs)
    | None => []
    end.
Proof.
  intros Hd. unfold rendered_lines, kept. simpl.
  destruct (Z.ltb_spec d md) as [_ | ?]; [|lia].
  simpl. f_equal. destruct c as [cs|]; [|reflexivity].
  induction cs as [|x cs IH]; [reflexivity|].
  simpl. rewrite List.filter_app, map_app. now rewrite IH.
Qed.

Lemma heading_line_truthy (level : Z) (t : string) : truthy (heading_line level t) = true.
Proof.
  unfold heading_line, repeat.
  induction (Z.to_nat level) as [|k IH]; reflexivity.
Qed.

Lemma rendered_lines_truthy (t : MindmapNode) (md d : Z) :
  truthy (join nl (rendered_lines t md d)) =
    match rendered_lines t md d with [] => false | _ => true end.
Proof.
  unfold rendered_lines.
  destruct (kept md (all_nodes t d)) as [|n l]; [reflexivity|].
  simpl map. generalize (map node_line l). intros rest.
  pose proof (heading_line_truthy (fst n + 1) (snd n)) as H.
  unfold node_line.
  destruct (heading_line (fst n + 1) (snd n)) as [|c r]; [discriminate|].
  destruct rest; [reflexivity|].
  rewrite join_cons by congruence. now rewrite append_cons.
Qed.

(** The loop over the children appends the text of every child that is
    not pruned; joined, this is the text of the lines of those children. *)
Lemma children_loop (md d : Z) (cs : list MindmapNode) :
  Forall (fun c => ∀ d', _json_to_markdown c md d' = join nl (rendered_lines c md d')) cs →
  ∀ acc, acc ≠ [] →
    join nl
      (fold_left
         (fun lines child =>
            let child_markdown := _json_to_markdown child md (d + 1) in
            if truthy child_markdown then (lines ++ [child_markdown])%list else lines)
         cs acc)
    = join nl (acc ++ concat (map (fun c => rendered_lines c md (d + 1)) cs)).
Proof.
  induction 1 as [|c cs Hc _ IH]; intros acc Hacc.
  - simpl. now rewrite app_nil_r.
  - cbn [fold_left map concat]. cbv zeta. rewrite Hc, rendered_lines_truthy.
    destruct (rendered_lines c md (d + 1)) as [|l ls] eqn:E.
    + now rewrite IH.
    + rewrite IH by (destruct acc; simpl; congruence).
      rewrite <- app_assoc. cbn [app].
      rewrite join_flatten by congruence.
      reflexivity.
Qed.

(** The rendered text is the lines of the nodes at a depth below
    [max_depth], one line per node, joined by newlines. *)
Lemma json_to_markdown_lines (t : MindmapNode) :
  ∀ md d, _json_to_markdown t md d = join nl (rendered_lines t md d).
Proof.
  induction t as [t | t cs IH] using MindmapNode_ind'; intros md d.
  - cbn [_json_to_markdown].
    destruct (Z.geb_spec d md) as [Hge | Hlt].
    + now rewrite rendered_lines_pruned by lia.
    + now rewrite rendered_lines_node by lia.
  - cbn [_json_to_markdown].
    destruct (Z.geb_spec d md) as [Hge | Hlt].
    + now rewrite rendered_lines_pruned by lia.
    + rewrite rendered_lines_node by lia. cbv zeta.
      rewrite (children_loop md d cs); [reflexivity | | congruence].
      eapply Forall_impl; [exact IH|]. intros c Hc d'. apply Hc.
Qed.

Lemma leading_hashes_heading (level : Z) (t : string) :
  0 <= level → leading_hashes (heading_line level t) = level.
Proof.
  intros H. unfold heading_line, repeat.
  rewrite <- (Z2Nat.id level H) at 2.
  induction (Z.to_nat level) as [|k IH]; [reflexivity|].
  change (Nat.iter (S k) (String.append "#") "")
    with (String hash (Nat.iter k (String.append "#") "")).
  rewrite append_cons.
  change (leading_hashes (String hash ?x)) with (1 + leading_hashes x).
  rewrite IH. lia.
Qed.

Lemma no_newline_app (a b : string) :
  no_newline (a +:+ b) = no_newline a && no_newline b.
Proof.
  induction a as [|c a IH]; [reflexivity|].
  rewrite append_cons. cbn [no_newline]. rewrite IH. now rewrite andb_assoc.
Qed.

Lemma no_newline_heading (level : Z) (t : string) :
  no_newline (heading_line level t) = no_newline t.
Proof.
  unfold heading_line, repeat. rewrite no_newline_app.
  assert (H : no_newline (Nat.iter (Z.to_nat level) (String.append "#") "") = true).
  { induction (Z.to_nat level) as [|k IH]; [reflexivity|].
    change (Nat.iter (S k) (String.append "#") "")
      with (String hash (Nat.iter k (String.append "#") "")).
    cbn [no_newline]. now rewrite IH. }
  rewrite H. reflexivity.
Qed.

Lemma split_lines_one (s : string) : no_newline s = true → split_lines s = [s].
Proof.
  induction s as [|c s IH]; [reflexivity|].
  cbn [no_newline split_lines]. intros [Hc Hs]%andb_prop.
  apply negb_true_iff in Hc. rewrite Hc, (IH Hs). reflexivity.
Qed.

Lemma split_lines_first (s rest : string) :
  no_newline s = true → split_lines (s +:+ nl +:+ rest) = s :: split_lines rest.
Proof.
  induction s as [|c s IH].
  - intros _. change ("" +:+ nl +:+ rest) with (String newline rest).
    cbn [split_lines]. now rewrite Ascii.eqb_refl.
  - cbn [no_newline]. intros [Hc Hs]%andb_prop.
    apply negb_true_iff in Hc. rewrite append_cons. cbn [split_lines].
    rewrite Hc, (IH Hs). reflexivity.
Qed.

(** Splitting the join of lines without newlines gives the lines back. *)
Lemma split_lines_join (l : list string) :
  l ≠ [] → Forall (fun s => no_newline s = true) l → split_lines (join nl l) = l.
Proof.
  induction l as [|x l IH]; [congruence|]. intros _ Hall.
  apply Forall_cons in Hall as [Hx Hl].
  destruct l as [|y l]; [now apply split_lines_one|].
  rewrite join_cons by congruence.
  rewrite split_lines_first by assumption.
  now rewrite IH by (congruence || assumption).
Qed.

(** When no title has a newline in it and the root is not pruned, the
    lines of the rendered text are the heading lines of the kept nodes. *)
Lemma rendered_text_lines (t : MindmapNode) (md : Z) :
  0 < md →
  Forall (fun n => no_newline (snd n) = true) (all_nodes t 0) →
  split_lines (_json_to_markdown t md 0) = map node_line (kept md (all_nodes t 0)).
Proof.
  intros Hmd Hall. rewrite json_to_markdown_lines. unfold rendered_lines.
  apply split_lines_join.
  - destruct t as [tt c]. unfold kept. cbn [all_nodes List.filter fst].
    destruct (Z.ltb_spec 0 md); [|lia]. discriminate.
  - apply List.Forall_forall. intros line Hline.
    apply in_map_iff in Hline as (n & <- & Hn).
    unfold kept in Hn. apply List.filter_In in Hn as [Hn _].
    rewrite List.Forall_forall in Hall. unfold node_line.
    rewrite no_newline_heading. now apply Hall.
Qed.

Lemma kept_depth (md : Z) (l : list (Z * string)) (n : Z * string) :
  In n (kept md l) ↔ In n l ∧ fst n < md.
Proof.
  unfold kept. rewrite List.filter_In. now rewrite Z.ltb_lt.
Qed.

(** [_count_nodes] counts every node of the tree. *)
Lemma count_nodes_all (t : MindmapNode) :
  ∀ d, _count_nodes t = Z.of_nat (length (all_nodes t d)).
Proof.
  induction t as [t | t cs IH] using MindmapNode_ind'; intros d; [reflexivity|].
  cbn [_count_nodes all_nodes length].
  assert (H : ∀ acc, fold_left (fun count child => count + _count_nodes child) cs acc
                = acc + Z.of_nat (length (concat (map (fun c => all_nodes c (d + 1)) cs)))).
  { induction IH as [|c cs Hc _ IHcs]; intros acc; [simpl; lia|].
    cbn [fold_left map concat]. rewrite IHcs, length_app, (Hc (d + 1)). lia. }
  rewrite H. lia.
Qed.

Lemma tree_height_pos (t : MindmapNode) : 1 <= tree_height t.
Proof.
  destruct t as [t [cs|]]; cbn [tree_height]; [|lia].
  assert (0 <= fold_right (fun child m => Z.max (tree_height child) m) 0 cs); [|lia].
  induction cs; simpl; lia.
Qed.

(** [_calculate_depth], started at [d], adds to [d - 1] the height of
    the tree. *)
Lemma calculate_depth_height (t : MindmapNode) :
  ∀ d, 0 <= d → _calculate_depth t d = d - 1 + tree_height t.
Proof.
  induction t as [t | t cs IH] using MindmapNode_ind'; intros d Hd.
  - simpl. lia.
  - destruct cs as [|c cs]; [simpl; lia|].
    cbn [_calculate_depth tree_height].
    remember (c :: cs) as l eqn:El.
    assert (Hne : l ≠ []) by (subst; congruence). clear El.
    assert (H : ∀ acc, 0 <= acc →
              fold_left (fun m child => Z.max m (_calculate_depth child (d + 1))) l acc
              = Z.max acc (d + fold_right (fun child m => Z.max (tree_height child) m) 0 l)
              ∨ l = []).
    { clear Hne. induction IH as [|x l Hx _ IHl]; intros acc Hacc; [now right|].
      left. cbn [fold_left fold_right]. rewrite (Hx (d + 1)) by lia.
      pose proof (tree_height_pos x).
      destruct (IHl (Z.max acc (d + 1 - 1 + tree_height x))) as [-> | ->]; [lia| |].
      - lia.
      - simpl. lia. }
    destruct (H 0) as [-> | ?]; [lia| |congruence].
    assert (1 <= fold_right (fun child m => Z.max (tree_height child) m) 0 l).
    { destruct l as [|x l]; [congruence|]. simpl. pose proof (tree_height_pos x). lia. }
    lia.
Qed.

End MindmapFacts.

Module MindmapProps.
Import Mindmap MindmapObs MindmapFacts PyStr.

(** C8, as the specification words it, fails: the renderer writes a
    title as it is, so a title with a line break in it brings lines of its
    own into the text.  This tree has six levels; rendered with
    [max_depth = 3] its text has a line that starts with four [#], it
    passes [validate_content], and [generate] returns it with
    [actual_depth = 6]. *)
Lemma C8_line_break_in_title_gives_deeper_heading :
  tree_height six_levels_with_line_break = 6
  ∧ _calculate_depth six_levels_with_line_break 1 = 6
  ∧ split_lines (_json_to_markdown six_levels_with_line_break 3 0)
    = ["# Root"; "#### injected level-4 heading"; "## Kernel"; "### Terms"]
  ∧ map leading_hashes (split_lines (_json_to_markdown six_levels_with_line_break 3 0))
    = [1; 4; 2; 3]
  ∧ Exists (fun line => 3 < leading_hashes line)
           (split_lines (_json_to_markdown six_levels_with_line_break 3 0))
  ∧ validate_content (_json_to_markdown six_levels_with_line_break 3 0) = true
  ∧ MindmapStrategy.generate (fun _ => Some (Returned six_levels_with_line_break))
      "What is Rocq?" (mkOptions "balanced" 3 "default") (Returned (Some "{}"))
    = Returned (mkResult "mindmap"
                  (join nl ["# Root"; "#### injected level-4 heading";
                            "## Kernel"; "### Terms"])
                  [("total_nodes", 6); ("actual_depth", 6); ("requested_max_depth", 3)]).
Proof.
  assert (Hlines : split_lines (_json_to_markdown six_levels_with_line_break 3 0)
                   = ["# Root"; "#### injected level-4 heading"; "## Kernel"; "### Terms"])
    by (vm_compute; reflexivity).
  split; [vm_compute; reflexivity|]. split; [vm_compute; reflexivity|].
  split; [exact Hlines|]. rewrite Hlines.
  split; [vm_compute; reflexivity|].
  split; [apply Exists_cons_tl, Exists_cons_hd; vm_compute; reflexivity|].
  split; vm_compute; reflexivity.
Qed.

(** C8, amended.  A tree with six levels rendered with [max_depth = 3]:
    the text is the newline-join of the heading lines of the nodes at
    depths 0, 1 and 2, one per node, so every node at depth 3 or more is
    absent and no node's heading has more than three [#]; when no title
    has a line break in it, these are all the lines of the text, so no
    line has more than three [#].  [_count_nodes] still counts every
    node of the tree and [_calculate_depth] is 6; and when the rendered
    text passes [validate_content], [generate] returns it with
    [total_nodes] and [actual_depth] computed on the whole tree,
    [actual_depth] being 6. *)
Theorem C8_pruned_render_full_metadata (t : MindmapNode) :
  tree_height t = 6 →
  _json_to_markdown t 3 0 = join nl (map node_line (kept 3 (all_nodes t 0)))
  ∧ Forall (fun n => 0 <= fst n < 3 ∧ leading_hashes (node_line n) = fst n + 1)
           (kept 3 (all_nodes t 0))
  ∧ (Forall (fun n => no_newline (snd n) = true) (all_nodes t 0) →
     Forall (fun line => 1 <= leading_hashes line <= 3)
            (split_lines (_json_to_markdown t 3 0)))
  ∧ _count_nodes t = Z.of_nat (length (all_nodes t 0))
  ∧ _calculate_depth t 1 = 6
  ∧ ∀ decode question options text,
      max_depth options = 3 →
      decode text = Some (Returned t) →
      validate_content (_json_to_markdown t 3 0) = true →
      MindmapStrategy.generate decode question options (Returned (Some text))
      = Returned (mkResult "mindmap" (_json_to_markdown t 3 0)
                    [("total_nodes", Z.of_nat (length (all_nodes t 0)));
                     ("actual_depth", 6);
                     ("requested_max_depth", 3)]).
Proof.
  intros Hh. repeat split.
  - apply json_to_markdown_lines.
  - apply List.Forall_forall. intros n Hn.
    apply kept_depth in Hn as [Hin Hlt].
    apply all_nodes_depth in Hin.
    split; [lia|]. apply leading_hashes_heading. lia.
  - intros Hall. rewrite rendered_text_lines by (lia || assumption).
    apply List.Forall_forall. intros line Hline.
    apply in_map_iff in Hline as (n & <- & Hn).
    apply kept_depth in Hn as [Hin Hlt].
    apply all_nodes_depth in Hin.
    unfold node_line. rewrite leading_hashes_heading by lia. lia.
  - apply count_nodes_all.
  - rewrite calculate_depth_height by lia. lia.
  - intros decode question options text Hmd Hdec Hval.
    unfold MindmapStrategy.generate, MindmapStrategy.generate_body.
    rewrite Hdec, Hmd, Hval. cbn [negb].
    rewrite (count_nodes_all t 0), calculate_depth_height by lia.
    rewrite Hh. reflexivity.
Qed.

Lemma C8_pruned_render_full_metadata_witness :
  tree_height six_levels = 6
  ∧ Forall (fun n => no_newline (snd n) = true) (all_nodes six_levels 0)
  ∧ Forall (fun line => 1 <= leading_hashes line <= 3)
           (split_lines (_json_to_markdown six_levels 3 0))
  ∧ _calculate_depth six_levels 1 = 6
  ∧ _count_nodes six_levels = 6
  ∧ MindmapStrategy.generate (fun _ => Some (Returned six_levels)) "What is Rocq?"
      (mkOptions "balanced" 3 "default") (Returned (Some "{}"))
    = Returned (mkResult "mindmap"
                  (join nl ["# Rocq"; "## Kernel"; "### Terms"])
                  [("total_nodes", 6); ("actual_depth", 6); ("requested_max_depth", 3)]).
Proof.
  assert (Htitles : Forall (fun n => no_newline (snd n) = true) (all_nodes six_levels 0))
    by (vm_compute; repeat constructor).
  destruct (C8_pruned_render_full_metadata six_levels eq_refl)
    as (Hr & _ & Hl & Hc & Hd & Hg).
  split; [reflexivity|]. split; [exact Htitles|]. split; [exact (Hl Htitles)|].
  split; [exact Hd|]. split; [exact Hc|].
  exact (Hg (fun _ => Some (Returned six_levels)) "What is Rocq?"
            (mkOptions "balanced" 3 "default") "{}" eq_refl eq_refl eq_refl).
Defined.

(** C9, as the specification words it, fails: in a chain of seven nodes
    rendered with [max_depth = 7] the node at depth 6 is not pruned and
    its line starts with seven [#], not with [min(6 + 1, 6) = 6]. *)
Lemma C9_heading_level_not_clamped :
  In (6, "g") (kept 7 (all_nodes seven_levels 0))
  ∧ node_line (6, "g") = "####### g"
  ∧ leading_hashes (node_line (6, "g")) = 7
  ∧ spec_heading_level 6 = 6
  ∧ _json_to_markdown seven_levels 7 0
    = join nl ["# a"; "## b"; "### c"; "#### d"; "##### e"; "###### f"; "####### g"]
  ∧ _json_to_markdown seven_levels 7 0
    ≠ join nl (map spec_node_line (kept 7 (all_nodes seven_levels 0))).
Proof.
  split; [vm_compute; tauto|].
  repeat split; try reflexivity.
  vm_compute. discriminate.
Qed.

(** C9, amended.  For every tree whose titles have no line break in
    them and every positive [max_depth], the lines of the rendered text are
    exactly the heading lines of the nodes at a depth below [max_depth],
    one line per node, in depth-first order (last part); the line of a node
    at depth [d] starts with exactly [d + 1] characters [#] followed by a
    space and the title, so its level is at most [max_depth] and it is not
    clamped to six.  Without the condition on the titles the text is still
    the newline-join of one such heading per kept node (first part), but
    the lines of a title with a line break are then lines of the text
    too. *)
Theorem C9_one_heading_per_kept_node (t : MindmapNode) (md : Z) :
  _json_to_markdown t md 0 = join nl (map node_line (kept md (all_nodes t 0)))
  ∧ Forall (fun n => In n (all_nodes t 0)
                     ∧ 0 <= fst n < md
                     ∧ node_line n = PyStr.repeat "#" (fst n + 1) +:+ " " +:+ snd n
                     ∧ leading_hashes (node_line n) = fst n + 1
                     ∧ leading_hashes (node_line n) <= md)
           (kept md (all_nodes t 0))
  ∧ Forall (fun n => fst n < md → In n (kept md (all_nodes t 0))) (all_nodes t 0)
  ∧ (0 < md → Forall (fun n => no_newline (snd n) = true) (all_nodes t 0) →
     split_lines (_json_to_markdown t md 0) = map node_line (kept md (all_nodes t 0))).
Proof.
  split; [apply json_to_markdown_lines|]. split; [|split; [|apply rendered_text_lines]].
  - apply List.Forall_forall. intros n Hn.
    apply kept_depth in Hn as [Hin Hlt].
    pose proof (all_nodes_depth _ _ _ Hin) as Hd.
    assert (Hl : leading_hashes (node_line n) = fst n + 1)
      by (apply leading_hashes_heading; lia).
    rewrite Hl.
    repeat split; first [assumption | lia | reflexivity].
  - apply List.Forall_forall. intros n Hn Hlt. apply kept_depth. now split.
Qed.

Lemma C9_one_heading_per_kept_node_witness :
  split_lines (_json_to_markdown six_levels 3 0)
  = map node_line (kept 3 (all_nodes six_levels 0))
  ∧ Forall (fun n => leading_hashes (node_line n) = fst n + 1)
           (kept 3 (all_nodes six_levels 0)).
Proof.
  assert (Hmd : 0 < 3) by lia.
  assert (Htitles : Forall (fun n => no_newline (snd n) = true) (all_nodes six_levels 0))
    by (vm_compute; repeat constructor).
  destruct (C9_one_heading_per_kept_node six_levels 3) as (_ & Hk & _ & Hl).
  split; [exact (Hl Hmd Htitles)|].
  eapply Forall_impl; [exact Hk|]. intros n H. apply H.
Defined.

(** C10.  [max_depth] is any integer.  When it is zero or negative, the
    renderer returns the empty string for every tree, [validate_content]
    rejects the empty string (its stripped length is below 10), and
    [generate] raises whatever the provider answers and whatever is
    decoded; for a decoded tree the exception is the [RuntimeError] that
    wraps the validation failure. *)
Theorem C10_non_positive_max_depth_always_raises (md : Z) (t : MindmapNode) :
  md <= 0 →
  max_depth (mkOptions "balanced" md "default") = md
  ∧ _json_to_markdown t md 0 = ""
  ∧ validate_content "" = false
  ∧ PyStr.len (PyStr.strip (_json_to_markdown t md 0)) < 10
  ∧ (∀ decode question options provider,
       max_depth options = md →
       ∃ e, MindmapStrategy.generate decode question options provider = Raised e)
  ∧ (∀ decode question options text,
       max_depth options = md →
       decode text = Some (Returned t) →
       MindmapStrategy.generate decode question options (Returned (Some text))
       = Raised (raise_RuntimeError
                   "Mindmap generation failed: Generated mindmap markdown content is invalid.")).
Proof.
  intros Hmd.
  assert (Hempty : ∀ t', _json_to_markdown t' md 0 = "").
  { intros [t' c]. cbn [_json_to_markdown].
    destruct (Z.geb_spec 0 md); [reflexivity | lia]. }
  split; [reflexivity|]. split; [apply Hempty|]. split; [reflexivity|].
  split; [rewrite Hempty; reflexivity|]. split.
  - intros decode question options provider Hopt.
    unfold MindmapStrategy.generate, MindmapStrategy.generate_body.
    destruct provider as [[text|]|e]; [|eauto..].
    destruct (decode text) as [[t'|e]|]; [|eauto..].
    rewrite Hopt, Hempty. cbn. eauto.
  - intros decode question options text Hopt Hdec.
    unfold MindmapStrategy.generate, MindmapStrategy.generate_body.
    rewrite Hdec, Hopt, Hempty. reflexivity.
Qed.

Lemma C10_non_positive_max_depth_always_raises_witness :
  _json_to_markdown six_levels 0 0 = ""
  ∧ MindmapStrategy.generate (fun _ => Some (Returned six_levels)) "What is Rocq?"
      (mkOptions "balanced" 0 "default") (Returned (Some "{}"))
    = Raised (raise_RuntimeError
                "Mindmap generation failed: Generated mindmap markdown content is invalid.").
Proof.
  assert (H : 0 <= 0) by lia.
  destruct (C10_non_positive_max_depth_always_raises 0 six_levels H)
    as (_ & Hr & _ & _ & _ & Hg).
  split; [exact Hr|].
  exact (Hg (fun _ => Some (Returned six_levels)) "What is Rocq?"
            (mkOptions "balanced" 0 "default") "{}" eq_refl eq_refl).
Defined.

End MindmapProps.

(** ** The strategy registry and the intake handler *)

Module FactoryFacts.
Import VisualizationFactory Main.

Lemma dict_get_keys {V} (k : string) (d : Dict V) :
  list_in k (keys d) = match dict_get k d with Some _ => true | None => false end.
Proof.
  induction d as [|[k' v] d IH]; [reflexivity|].
  cbn [keys map fst list_in dict_get]. fold (keys d).
  destruct (String.eqb k k'); [reflexivity | exact IH].
Qed.

Lemma create_strategy_raises (_strategies : Dict StrategyClass) (type_name : string) :
  list_in (PyStr.lower type_name) (get_supported_types _strategies) = false →
  ∃ e, create_strategy _strategies type_name = Raised e ∧ exc_class e = ValueError.
Proof.
  unfold get_supported_types, create_strategy. rewrite dict_get_keys.
  destruct (dict_get (PyStr.lower type_name) _strategies); [discriminate|].
  intros _. eexists. split; reflexivity.
Qed.

Lemma create_strategy_returns (_strategies : Dict StrategyClass) (type_name : string) :
  list_in (PyStr.lower type_name) (get_supported_types _strategies) = true →
  ∃ strategy_class, create_strategy _strategies type_name = Returned strategy_class.
Proof.
  unfold get_supported_types, create_strategy. rewrite dict_get_keys.
  destruct (dict_get (PyStr.lower type_name) _strategies); [eauto | discriminate].
Qed.

Lemma visualize_rejects (request : VisualizationRequest) (job_id : string) (now : Z)
    (_jobs : gmap string VisualizationJob) :
  list_in (PyStr.lower (req_visualization_type request))
          LlmService.get_supported_visualization_types = false →
  ∃ detail,
    visualize request job_id now _jobs = (HTTPException HTTP_400_BAD_REQUEST detail, _jobs).
Proof.
  intros H. unfold visualize. rewrite H. cbn [negb]. eexists. reflexivity.
Qed.

Lemma visualize_accepts (request : VisualizationRequest) (job_id : string) (now : Z)
    (_jobs : gmap string VisualizationJob) :
  list_in (PyStr.lower (req_visualization_type request))
          LlmService.get_supported_visualization_types = true →
  visualize request job_id now _jobs =
    (Ok (mkCreateResponse job_id PENDING),
     <[job_id := mkJob job_id PENDING (PyStr.lower (req_visualization_type request))
                   None [] None now now (now + 3600 * 1000000) 0]> _jobs).
Proof.
  intros H. unfold visualize. rewrite H. reflexivity.
Qed.

(** C5, as worded, fails: ["Flowchart"] is not one of the supported type
    names, yet the registry creates the flowchart strategy for it and the
    intake handler stores a job for it. *)
Lemma C5_mixed_case_name_is_accepted :
  list_in "Flowchart" (get_supported_types visualization_factory) = false
  ∧ create_strategy visualization_factory "Flowchart" = Returned Flowchart
  ∧ fst (visualize (mkRequest "How does X work?" "Flowchart" default_options)
           "job-1" 0 ∅)
    = Ok (mkCreateResponse "job-1" PENDING)
  ∧ snd (visualize (mkRequest "How does X work?" "Flowchart" default_options)
           "job-1" 0 ∅) !! "job-1"
    = Some (mkJob "job-1" PENDING "flowchart" None [] None 0 0 3600000000 0)
  ∧ snd (visualize (mkRequest "How does X work?" "Flowchart" default_options)
           "job-1" 0 ∅) ≠ ∅.
Proof.
  split; [reflexivity|]. split; [reflexivity|].
  rewrite visualize_accepts by reflexivity. cbn [fst snd].
  split; [reflexivity|]. split; [apply lookup_insert_eq|].
  apply insert_non_empty.
Qed.

(** C5, amended.  The registry and the intake handler compare the
    lower-cased type name.  For every type name whose lower-cased form is
    not a supported type, [create_strategy] raises [ValueError], and
    [visualize] raises the 400 [HTTPException] and leaves the job store as
    it was. *)
Theorem C5_unsupported_type_rejected (type_name : string) :
  list_in (PyStr.lower type_name) (get_supported_types visualization_factory) = false →
  (∃ e, create_strategy visualization_factory type_name = Raised e
        ∧ exc_class e = ValueError)
  ∧ ∀ question options job_id now (_jobs : gmap string VisualizationJob),
      ∃ detail,
        visualize (mkRequest question type_name options) job_id now _jobs
        = (HTTPException 400 detail, _jobs).
Proof.
  intros H. split; [now apply create_strategy_raises|].
  intros question options job_id now _jobs.
  now apply visualize_rejects.
Qed.

Lemma C5_unsupported_type_rejected_witness :
  (∃ e, create_strategy visualization_factory "PieChart" = Raised e
        ∧ exc_class e = ValueError)
  ∧ ∃ detail,
      visualize (mkRequest "How does X work?" "PieChart" default_options) "job-1" 0 ∅
      = (HTTPException 400 detail, ∅).
Proof.
  destruct (C5_unsupported_type_rejected "PieChart" eq_refl) as [Hc Hv].
  split; [exact Hc|].
  exact (Hv "How does X work?" default_options "job-1" 0 ∅).
Defined.

End FactoryFacts.

(** ** Polling and expiry *)

Module PollingFacts.
Import Main.

(** C7.  When the record of [job_id] is in the store and its [expires_at]
    is before the time of the poll, [get_visualization_job] raises the 404
    [HTTPException] and returns the store without that record.  A second
    poll, at any time, raises 404 again and the record is still absent.
    Should the background task write the record back between the two polls
    (it never changes [expires_at]), a second poll that is not earlier than
    the first raises 404 as well and removes the record again. *)
Theorem C7_expired_job_is_purged (job_id : string) (now1 now2 : Z)
    (_jobs : gmap string VisualizationJob) (job : VisualizationJob) :
  _jobs !! job_id = Some job →
  expires_at job < now1 →
  (∃ detail, fst (get_visualization_job job_id now1 _jobs) = HTTPException 404 detail)
  ∧ snd (get_visualization_job job_id now1 _jobs) = delete job_id _jobs
  ∧ snd (get_visualization_job job_id now1 _jobs) !! job_id = None
  ∧ (∃ detail,
       get_visualization_job job_id now2 (snd (get_visualization_job job_id now1 _jobs))
       = (HTTPException 404 detail, delete job_id _jobs))
  ∧ ∀ job',
      expires_at job' = expires_at job → now1 <= now2 →
      (∃ detail,
         fst (get_visualization_job job_id now2
                (<[job_id := job']> (snd (get_visualization_job job_id now1 _jobs))))
         = HTTPException 404 detail)
      ∧ snd (get_visualization_job job_id now2
               (<[job_id := job']> (snd (get_visualization_job job_id now1 _jobs))))
          !! job_id = None.
Proof.
  intros Hjob Hexp.
  assert (H1 : ∃ detail, get_visualization_job job_id now1 _jobs
                         = (HTTPException 404 detail, delete job_id _jobs)).
  { unfold get_visualization_job. rewrite Hjob.
    destruct (Z.ltb_spec (expires_at job) now1); [|lia]. eexists. reflexivity. }
  destruct H1 as [d1 H1]. rewrite H1. cbn [fst snd].
  split; [eauto|]. split; [reflexivity|]. split; [apply lookup_delete_eq|]. split.
  - unfold get_visualization_job. rewrite lookup_delete_eq. eexists. reflexivity.
  - intros job' Hsame Hle.
    unfold get_visualization_job. rewrite lookup_insert_eq.
    destruct (Z.ltb_spec (expires_at job') now2); [|lia].
    cbn [fst snd]. split; [eauto|]. apply lookup_delete_eq.
Qed.

Lemma C7_expired_job_is_purged_witness :
  (∃ detail,
     fst (get_visualization_job "job-1" 3600000001 {["job-1" := Obs.finished_job]})
     = HTTPException 404 detail)
  ∧ ∃ detail,
      get_visualization_job "job-1" 3600000002
        (snd (get_visualization_job "job-1" 3600000001 {["job-1" := Obs.finished_job]}))
      = (HTTPException 404 detail, delete "job-1" {["job-1" := Obs.finished_job]}).
Proof.
  assert (Hexp : expires_at Obs.finished_job < 3600000001) by (cbn; lia).
  destruct (C7_expired_job_is_purged "job-1" 3600000001 3600000002
              {["job-1" := Obs.finished_job]} Obs.finished_job
              (lookup_singleton_eq _ _) Hexp)
    as (H1 & _ & _ & H2 & _).
  split; [exact H1 | exact H2].
Defined.

End PollingFacts.

(** ** The attempt loop *)

Module LoopFacts.
Import Main Obs.

Lemma generate_calls_app (a b : list Event) :
  generate_calls (a ++ b) = (generate_calls a + generate_calls b)%nat.
Proof. induction a as [|[] a IH]; simpl; congruence. Qed.

Lemma sleeps_app (a b : list Event) : sleeps (a ++ b) = (sleeps a ++ sleeps b)%list.
Proof. induction a as [|[] a IH]; simpl; congruence. Qed.

Lemma snapshots_app (a b : list Event) :
  snapshots (a ++ b) = (snapshots a ++ snapshots b)%list.
Proof. induction a as [|[] a IH]; simpl; congruence. Qed.

Section Loop.
Variable utcnow : nat → Z.
Variable gen : Z → Outcome VisualizationResult.
Variable job_id : string.

Abbreviation loop := (attempt_loop utcnow gen job_id).

Ltac step_loop :=
  cbn [attempt_loop];
  cbv beta iota zeta
      delta [stamp_and_store now emit fst snd jobs reads trace
             after_last_attempt after_retry running_job].

Ltac tidy_trace := rewrite <- ?app_assoc; cbn [app].

(** Attempt [k] succeeds: the record is written as succeeded, with the
    content and the metadata of the result, and the loop is over.  The
    [error] field is left as it was. *)
Lemma attempt_succeeds (k : Z) (rest : list Z) (job : VisualizationJob) (w : World)
    (result : VisualizationResult) :
  gen k = Returned result →
  ∃ final,
    loop (k :: rest) job w = after_last_attempt job_id k (running_job utcnow k job w) final w
    ∧ status final = SUCCEEDED
    ∧ content final = Some (res_content result)
    ∧ metadata final = res_metadata result
    ∧ error final = error job
    ∧ attempts final = k
    ∧ expires_at final = expires_at job.
Proof.
  intros Hgen. step_loop. rewrite Hgen. step_loop. tidy_trace.
  eexists. split; [reflexivity|]. repeat split.
Qed.

(** Attempt [k] fails with an error that is not retryable: the record is
    written as failed with a message that ends with the text of the error,
    and the loop is over. *)
Lemma attempt_fails_for_good (k : Z) (rest : list Z) (job : VisualizationJob) (w : World)
    (exc : Exc) :
  gen k = Raised exc →
  transient exc = false →
  ∃ final prefix,
    loop (k :: rest) job w = after_last_attempt job_id k (running_job utcnow k job w) final w
    ∧ status final = FAILED
    ∧ error final = Some (prefix +:+ exc_text exc)
    ∧ content final = content job
    ∧ attempts final = k
    ∧ expires_at final = expires_at job.
Proof.
  intros Hgen Htr. step_loop. rewrite Hgen.
  unfold transient in Htr.
  destruct (is_ValueError exc || is_RuntimeError exc) eqn:Hvr.
  - step_loop. tidy_trace. eexists. exists "". split; [reflexivity|]. repeat split.
  - cbn [negb andb] in Htr.
    destruct (exc_class exc) eqn:Hc;
      try (step_loop; tidy_trace; eexists; eexists; split; [reflexivity|]; repeat split).
    cbn [andb] in Htr. rewrite Htr. cbn [andb].
    unfold is_transient in Htr. apply orb_false_elim in Htr as [H503 H429].
    rewrite H503, H429.
    step_loop. tidy_trace. eexists; eexists; split; [reflexivity|]; repeat split.
Qed.

(** Attempt [k] fails with a retryable error and no attempt is left: the
    record is written as failed, with the message for an overloaded model
    (503) or for the rate limit (429). *)
Lemma attempt_exhausts_retries (k : Z) (rest : list Z) (job : VisualizationJob) (w : World)
    (exc : Exc) :
  gen k = Raised exc →
  transient exc = true →
  max_attempts <= k →
  ∃ final,
    loop (k :: rest) job w = after_last_attempt job_id k (running_job utcnow k job w) final w
    ∧ status final = FAILED
    ∧ error final =
        Some (if status_is (status_code_of exc) 503
              then "The Gemini model is still overloaded after multiple attempts. "
                   +:+ "Please wait a bit and try again."
              else "Gemini rate limit was hit several times in a row. "
                   +:+ "Please slow down and try again shortly.")
    ∧ attempts final = k
    ∧ expires_at final = expires_at job.
Proof.
  intros Hgen Htr Hk. step_loop. rewrite Hgen.
  unfold transient in Htr.
  apply andb_prop in Htr as [Htr Hst]. apply andb_prop in Htr as [Hvr Hc].
  apply negb_true_iff in Hvr. rewrite Hvr.
  destruct (exc_class exc); try discriminate.
  rewrite Hst. destruct (Z.ltb_spec k max_attempts) as [?|_]; [lia|].
  cbn [andb].
  unfold is_transient in Hst.
  destruct (status_is (status_code_of exc) 503) eqn:H503.
  - step_loop. tidy_trace. eexists. split; [reflexivity|]. repeat split.
  - cbn [orb] in Hst. rewrite Hst.
    step_loop. tidy_trace. eexists. split; [reflexivity|]. repeat split.
Qed.

(** Attempt [k] fails with a retryable error and attempts are left: the
    record is written as pending with the transient message, the task
    sleeps [backoff_delay k], and the loop goes on with the next attempt. *)
Lemma attempt_is_retried (k : Z) (rest : list Z) (job : VisualizationJob) (w : World)
    (exc : Exc) :
  gen k = Raised exc →
  transient exc = true →
  k < max_attempts →
  ∃ pending,
    loop (k :: rest) job w
    = loop rest pending (after_retry job_id k (running_job utcnow k job w) pending w)
    ∧ status pending = PENDING
    ∧ error pending =
        Some ("Transient Gemini error (status=" +:+ show_status_code (status_code_of exc)
              +:+ "). Retrying in " +:+ format_1f (backoff_delay k) +:+ "s.")
    ∧ attempts pending = k
    ∧ expires_at pending = expires_at job.
Proof.
  intros Hgen Htr Hk. step_loop. rewrite Hgen.
  unfold transient in Htr.
  apply andb_prop in Htr as [Htr Hst]. apply andb_prop in Htr as [Hvr Hc].
  apply negb_true_iff in Hvr. rewrite Hvr.
  destruct (exc_class exc); try discriminate.
  rewrite Hst. destruct (Z.ltb_spec k max_attempts) as [_|?]; [|lia].
  cbn [andb]. step_loop. tidy_trace.
  eexists. split; [reflexivity|]. repeat split.
Qed.

(** Every attempt either ends the loop or is a retried transient failure. *)
Lemma attempt_outcomes (k : Z) (rest : list Z) (job : VisualizationJob) (w : World) :
  (∃ final,
     loop (k :: rest) job w
     = after_last_attempt job_id k (running_job utcnow k job w) final w
     ∧ attempts final = k ∧ expires_at final = expires_at job)
  ∨ (k < max_attempts
     ∧ ∃ exc pending,
         gen k = Raised exc ∧ transient exc = true
         ∧ loop (k :: rest) job w
           = loop rest pending (after_retry job_id k (running_job utcnow k job w) pending w)
         ∧ attempts pending = k ∧ expires_at pending = expires_at job).
Proof.
  destruct (gen k) as [result | exc] eqn:Hgen.
  - left. destruct (attempt_succeeds k rest job w result Hgen) as (f & -> & H).
    exists f. intuition.
  - destruct (transient exc) eqn:Htr.
    + destruct (Z.lt_ge_cases k max_attempts) as [Hk | Hk].
      * right. split; [exact Hk|].
        destruct (attempt_is_retried k rest job w exc Hgen Htr Hk) as (p & -> & H).
        exists exc, p. intuition.
      * left. destruct (attempt_exhausts_retries k rest job w exc Hgen Htr Hk)
          as (f & -> & H).
        exists f. intuition.
    + left. destruct (attempt_fails_for_good k rest job w exc Hgen Htr)
        as (f & prefix & -> & H).
      exists f. intuition.
Qed.

(** What a run of the loop over the attempts [todo] adds to the trace:
    at most one call per attempt; every value written carries an attempt
    number of [todo] and the [expires_at] of the start; the sleeps are the
    backoff delays of the first attempts, all below [max_attempts]; the
    store changes at [job_id] only, where it holds the last value written. *)
Lemma loop_events (todo : list Z) :
  ∀ job w,
    ∃ (evs : list Event) (n : nat),
      trace (loop todo job w) = (trace w ++ evs)%list
      ∧ (generate_calls evs <= length todo)%nat
      ∧ Forall (fun j => In (attempts j) todo ∧ expires_at j = expires_at job)
               (snapshots evs)
      ∧ sleeps evs = map backoff_delay (take n todo)
      ∧ Forall (fun k => k < max_attempts) (take n todo)
      ∧ (∀ other, other ≠ job_id → jobs (loop todo job w) !! other = jobs w !! other)
      ∧ jobs (loop todo job w) !! job_id
        = match last (snapshots evs) with
          | Some j => Some j
          | None => jobs w !! job_id
          end.
Proof.
  induction todo as [|k rest IH]; intros job w.
  - exists [], 0%nat. cbn. rewrite app_nil_r. repeat split; auto.
  - destruct (attempt_outcomes k rest job w)
      as [(f & -> & Hat & Hex) | (Hk & exc & p & _ & _ & -> & Hat & Hex)].
    + exists [EvStore job_id (running_job utcnow k job w); EvGenerate k; EvStore job_id f],
             0%nat.
      unfold after_last_attempt. cbn [trace jobs snapshots generate_calls sleeps take map].
      repeat split.
      * cbn. lia.
      * repeat constructor; cbn; auto.
      * constructor.
      * intros other Hne. now rewrite !lookup_insert_ne by congruence.
      * cbn. apply lookup_insert_eq.
    + destruct (IH p (after_retry job_id k (running_job utcnow k job w) p w))
        as (evs & n & Htr & Hgc & Hsn & Hsl & Hlt & Hoth & Hjob).
      exists ([EvStore job_id (running_job utcnow k job w); EvGenerate k;
               EvStore job_id p; EvSleep (backoff_delay k)] ++ evs)%list, (S n).
      rewrite Htr. unfold after_retry at 1. cbn [trace].
      rewrite generate_calls_app, snapshots_app, sleeps_app.
      cbn [generate_calls snapshots sleeps app take map length].
      repeat split.
      * now rewrite <- app_assoc.
      * lia.
      * constructor; [cbn; auto|]. constructor; [split; [left; congruence | congruence]|].
        eapply Forall_impl; [exact Hsn|].
        cbn beta. intros j [Hin He]. split; [right; exact Hin | congruence].
      * now rewrite Hsl.
      * constructor; assumption.
      * intros other Hne. rewrite Hoth by assumption.
        unfold after_retry. cbn [jobs]. now rewrite !lookup_insert_ne by congruence.
      * rewrite Hjob. rewrite !last_cons.
        destruct (last (snapshots evs)); [reflexivity|].
        unfold after_retry. cbn [jobs]. apply lookup_insert_eq.
Qed.

End Loop.

Lemma py_range_attempts : py_range 1 (max_attempts + 1) = [1; 2; 3].
Proof. reflexivity. Qed.

End LoopFacts.

Module LoopProps.
Import Main Obs LoopFacts.

(** The errors that are not retryable: the [ValueError]s and
    [RuntimeError]s, the [ServerError]s whose status code is neither 503
    nor 429, and every other exception. *)
Lemma transient_false_iff (exc : Exc) :
  transient exc = false ↔
  is_ValueError exc = true ∨ is_RuntimeError exc = true
  ∨ exc_class exc = OtherError
  ∨ (exc_class exc = ServerError ∧ is_transient (status_code_of exc) = false).
Proof.
  unfold transient, is_ValueError, is_RuntimeError.
  destruct (exc_class exc), (is_transient (status_code_of exc)); cbn;
    intuition congruence.
Qed.

(** What [_run_visualization_job] adds to the trace and does to the store. *)
Lemma run_events (utcnow : nat → Z) (gen : Z → Outcome VisualizationResult)
    (job_id : string) (w : World) :
  ∃ (evs : list Event) (n : nat),
    trace (_run_visualization_job utcnow gen job_id w) = (trace w ++ evs)%list
    ∧ (generate_calls evs <= 3)%nat
    ∧ Forall (fun j => In (attempts j) [1; 2; 3]) (snapshots evs)
    ∧ sleeps evs = map backoff_delay (take n [1; 2; 3])
    ∧ Forall (fun k => k < max_attempts) (take n [1; 2; 3])
    ∧ (∀ other, other ≠ job_id →
         jobs (_run_visualization_job utcnow gen job_id w) !! other = jobs w !! other)
    ∧ jobs (_run_visualization_job utcnow gen job_id w) !! job_id
      = match last (snapshots evs) with
        | Some j => Some j
        | None => jobs w !! job_id
        end.
Proof.
  unfold _run_visualization_job. rewrite py_range_attempts.
  destruct (jobs w !! job_id) as [job|] eqn:Hjob.
  - destruct (loop_events utcnow gen job_id [1; 2; 3] job w)
      as (evs & n & H1 & H2 & H3 & H4 & H5 & H6 & H7).
    exists evs, n. repeat split; try assumption.
    + eapply Forall_impl; [exact H3|]. now intros j [H _].
    + rewrite H7. now destruct (last (snapshots evs)).
  - exists [], 0%nat. rewrite app_nil_r. cbn. repeat split; auto.
Qed.

(** C2.  In every run of the background task, whatever the awaited
    [generate_visualization] gives at each attempt, the call is made at
    most three times and every value of the record the task writes has
    [attempts] between 1 and 3; the store holds the last value written;
    and the record [visualize] creates has [attempts = 0]. *)
Theorem C2_at_most_three_attempts (utcnow : nat → Z)
    (gen : Z → Outcome VisualizationResult) (job_id : string) (w : World) :
  (∃ evs : list Event,
     trace (_run_visualization_job utcnow gen job_id w) = (trace w ++ evs)%list
     ∧ (generate_calls evs <= 3)%nat
     ∧ Forall (fun j => 1 <= attempts j <= 3) (snapshots evs)
     ∧ jobs (_run_visualization_job utcnow gen job_id w) !! job_id
       = match last (snapshots evs) with
         | Some j => Some j
         | None => jobs w !! job_id
         end)
  ∧ ∀ request now (m : gmap string VisualizationJob),
      match fst (visualize request job_id now m) with
      | Ok _ => ∃ j, snd (visualize request job_id now m) !! job_id = Some j
                     ∧ attempts j = 0
      | HTTPException _ _ => snd (visualize request job_id now m) = m
      end.
Proof.
  split.
  - destruct (run_events utcnow gen job_id w) as (evs & n & H1 & H2 & H3 & _ & _ & _ & H7).
    exists evs. repeat split; try assumption.
    eapply Forall_impl; [exact H3|]. cbn. intros j Hj. lia.
  - intros request now m. unfold visualize.
    destruct (negb _); cbn [fst snd]; [reflexivity|].
    eexists. split; [apply lookup_insert_eq | reflexivity].
Qed.

(** C3.  When attempt [k] fails with an error that is not retryable (a
    [ValueError] or [RuntimeError], which is what the strategies raise for
    unparseable or invalid content, or any error that is not a 503/429
    [ServerError]), the loop writes the record as failed on that attempt,
    with a message that ends with the text of the error, and stops: the
    trace ends with that write, so exactly one call was made from attempt
    [k] on, whatever attempts were left. *)
Theorem C3_non_retryable_failure_is_final (utcnow : nat → Z)
    (gen : Z → Outcome VisualizationResult) (job_id : string)
    (k : Z) (rest : list Z) (job : VisualizationJob) (w : World) (exc : Exc) :
  gen k = Raised exc →
  transient exc = false →
  ∃ final prefix,
    attempt_loop utcnow gen job_id (k :: rest) job w
    = after_last_attempt job_id k (running_job utcnow k job w) final w
    ∧ status final = FAILED
    ∧ error final = Some (prefix +:+ exc_text exc)
    ∧ attempts final = k
    ∧ jobs (attempt_loop utcnow gen job_id (k :: rest) job w) !! job_id = Some final
    ∧ generate_calls (trace (attempt_loop utcnow gen job_id (k :: rest) job w))
      = S (generate_calls (trace w))
    ∧ sleeps (trace (attempt_loop utcnow gen job_id (k :: rest) job w)) = sleeps (trace w).
Proof.
  intros Hgen Htr.
  destruct (attempt_fails_for_good utcnow gen job_id k rest job w exc Hgen Htr)
    as (final & prefix & Heq & Hst & Herr & _ & Hat & _).
  exists final, prefix. rewrite Heq. unfold after_last_attempt. cbn [jobs trace].
  rewrite generate_calls_app, sleeps_app. cbn [generate_calls sleeps].
  repeat split; try assumption.
  - apply lookup_insert_eq.
  - lia.
  - now rewrite app_nil_r.
Qed.

Lemma C3_non_retryable_failure_is_final_witness :
  ∃ final,
    jobs (attempt_loop (fun n => Z.of_nat n)
            (fun _ => Raised (raise_ValueError
                                "Visualization error: Generated Mermaid flowchart content is invalid."))
            "job-1" [1; 2; 3] fresh_job (mkWorld {["job-1" := fresh_job]} 0 []))
      !! "job-1" = Some final
    ∧ status final = FAILED
    ∧ attempts final = 1.
Proof.
  destruct (C3_non_retryable_failure_is_final (fun n => Z.of_nat n)
              (fun _ => Raised (raise_ValueError
                                  "Visualization error: Generated Mermaid flowchart content is invalid."))
              "job-1" 1 [2; 3] fresh_job (mkWorld {["job-1" := fresh_job]} 0 [])
              _ eq_refl eq_refl)
    as (final & prefix & Heq & Hst & Herr & Hat & Hjob & _).
  exists final. split; [exact Hjob|]. split; [exact Hst | exact Hat].
Defined.

(** The same run, evaluated: one call, and the record as it is left. *)
Example validation_failure_on_first_attempt :
  trace (attempt_loop (fun n => Z.of_nat n)
           (fun _ => Raised (raise_ValueError
                               "Visualization error: Generated Mermaid flowchart content is invalid."))
           "job-1" [1; 2; 3] fresh_job (mkWorld {["job-1" := fresh_job]} 0 []))
  = [EvStore "job-1"
       (mkJob "job-1" RUNNING "flowchart" None [] None 0 0 3600000000 1);
     EvGenerate 1;
     EvStore "job-1"
       (mkJob "job-1" FAILED "flowchart" None []
          (Some "Visualization error: Generated Mermaid flowchart content is invalid.")
          0 1 3600000000 1)].
Proof. reflexivity. Qed.

Lemma backoff_delay_increases (k : Z) :
  1 <= k → (backoff_delay k < backoff_delay (k + 1))%Q.
Proof.
  intros Hk. unfold backoff_delay, base_delay_seconds, Qlt, Qmult, inject_Z.
  cbn [Qnum Qden].
  replace (k + 1 - 1) with (Z.succ (k - 1)) by lia.
  rewrite Z.pow_succ_r by lia.
  assert (0 < 2 ^ (k - 1)) by (apply Z.pow_pos_nonneg; lia).
  lia.
Qed.

Lemma backoff_delay_power (k : Z) :
  1 <= k → (backoff_delay k == base_delay_seconds * (2 # 1) ^ (k - 1))%Q.
Proof.
  intros Hk. unfold backoff_delay.
  rewrite Zpower_Qpower by lia. reflexivity.
Qed.

(** C6.  In every run of the background task the delays slept are, in
    order, the first ones of [backoff_delay 1; backoff_delay 2]: the sleep
    after the failure of attempt [k] lasts [base_delay_seconds * 2^(k-1)],
    which is 1.5 s after attempt 1 and 3 s after attempt 2, and the delay
    grows strictly with [k].  And a retryable failure of an attempt below
    [max_attempts] is indeed followed by that sleep and by the next
    attempt. *)
Theorem C6_backoff_doubles (utcnow : nat → Z)
    (gen : Z → Outcome VisualizationResult) (job_id : string) (w : World) :
  (∃ (evs : list Event) (n : nat),
     trace (_run_visualization_job utcnow gen job_id w) = (trace w ++ evs)%list
     ∧ sleeps evs = take n [backoff_delay 1; backoff_delay 2])
  ∧ (backoff_delay 1 == 3 # 2)%Q
  ∧ (backoff_delay 2 == 3 # 1)%Q
  ∧ (∀ k, 1 <= k →
       (backoff_delay k == base_delay_seconds * (2 # 1) ^ (k - 1))%Q
       ∧ (backoff_delay k < backoff_delay (k + 1))%Q)
  ∧ ∀ k rest job exc,
      gen k = Raised exc → transient exc = true → k < max_attempts →
      ∃ pending,
        attempt_loop utcnow gen job_id (k :: rest) job w
        = attempt_loop utcnow gen job_id rest pending
            (after_retry job_id k (running_job utcnow k job w) pending w)
        ∧ sleeps (trace (after_retry job_id k (running_job utcnow k job w) pending w))
          = (sleeps (trace w) ++ [backoff_delay k])%list.
Proof.
  split; [|split; [reflexivity|split; [reflexivity|split]]].
  - destruct (run_events utcnow gen job_id w) as (evs & n & H1 & _ & _ & H4 & H5 & _).
    exists evs, n. split; [exact H1|]. rewrite H4.
    destruct n as [|[|[|n]]]; try reflexivity.
    exfalso. cbn in H5.
    apply Forall_cons in H5 as [_ H5]. apply Forall_cons in H5 as [_ H5].
    apply Forall_cons in H5 as [H5 _]. unfold max_attempts in H5. lia.
  - intros k Hk. split; [now apply backoff_delay_power | now apply backoff_delay_increases].
  - intros k rest job exc Hgen Htr Hk.
    destruct (attempt_is_retried utcnow gen job_id k rest job w exc Hgen Htr Hk)
      as (pending & Heq & _).
    exists pending. split; [exact Heq|].
    unfold after_retry. cbn [trace]. rewrite sleeps_app. reflexivity.
Qed.

(** A provider error that reaches the loop as a 503 [ServerError] at every
    attempt: three calls, the sleeps 1.5 s and 3 s, then failed. *)
Example overloaded_until_exhausted :
  let w := _run_visualization_job (fun n => Z.of_nat n) (fun _ => Raised overloaded_503)
             "job-1" (mkWorld {["job-1" := fresh_job]} 0 []) in
  generate_calls (trace w) = 3%nat
  ∧ sleeps (trace w) = [backoff_delay 1; backoff_delay 2]
  ∧ map status (snapshots (trace w))
    = [RUNNING; PENDING; RUNNING; PENDING; RUNNING; FAILED]
  ∧ map attempts (snapshots (trace w)) = [1; 1; 2; 2; 3; 3].
Proof.
  cbv zeta. unfold _run_visualization_job. cbn [jobs].
  rewrite lookup_singleton_eq. repeat split; reflexivity.
Qed.

End LoopProps.

(** ** The loop behind the repository's [generate_visualization] *)

Module AppProps.
Import Main Obs LoopFacts App.

Lemma transient_rewrap (visualization_type : string) (e : Exc) :
  transient (LlmService.rewrap visualization_type e) = false.
Proof. unfold LlmService.rewrap. destruct (is_ValueError e); reflexivity. Qed.

(** [generate_visualization] raises nothing but the [ValueError] and the
    [RuntimeError] of its two [except] clauses. *)
Lemma generate_visualization_raises
    (decode : string → option (Outcome Mindmap.MindmapNode))
    (interpret : string → Outcome VisualizationResult)
    (question visualization_type : string) (options : VisualizationOptions)
    (provider : ProviderOutcome) (exc : Exc) :
  LlmService.generate_visualization decode interpret question visualization_type
    options provider = Raised exc →
  (exc_class exc = ValueError ∨ exc_class exc = RuntimeError) ∧ transient exc = false.
Proof.
  unfold LlmService.generate_visualization.
  destruct (VisualizationFactory.create_strategy _ _) as [strategy | e0].
  - destruct (LlmService.strategy_generate _ _ _ _ _ _) as [result | e1];
      [discriminate|].
    intros [= <-]. split; [|apply transient_rewrap].
    unfold LlmService.rewrap. destruct (is_ValueError e1); cbn; auto.
  - intros [= <-]. split; [|apply transient_rewrap].
    unfold LlmService.rewrap. destruct (is_ValueError e0); cbn; auto.
Qed.

(** Both strategies turn an exception of the provider call that is not a
    JSON or schema error, a [ServerError] in particular, into a
    [RuntimeError]. *)
Lemma strategy_wraps_server_error
    (decode : string → option (Outcome Mindmap.MindmapNode))
    (interpret : string → Outcome VisualizationResult)
    (strategy : VisualizationFactory.StrategyClass)
    (question : string) (options : VisualizationOptions) (exc : Exc) :
  exc_class exc = ServerError →
  ∃ prefix,
    LlmService.strategy_generate decode interpret strategy question options (Raised exc)
    = Raised (raise_RuntimeError (prefix +:+ exc_text exc)).
Proof.
  intros Hc. destruct strategy; cbn.
  - unfold FlowchartStrategy.generate, FlowchartStrategy.generate_body,
      FlowchartStrategy.handle. rewrite Hc. eexists. reflexivity.
  - unfold MindmapStrategy.generate, MindmapStrategy.generate_body,
      MindmapStrategy.handle. rewrite Hc. eexists. reflexivity.
Qed.

Lemma awaited_generate_provider_raises
    (decode : string → option (Outcome Mindmap.MindmapNode))
    (interpret : string → Outcome VisualizationResult)
    (request : VisualizationRequest) (attempt : Z) (exc : Exc) :
  exc_class exc = ServerError →
  ∃ e, awaited_generate decode interpret (fun _ => Raised exc) request attempt = Raised e
       ∧ transient e = false.
Proof.
  intros Hc. unfold awaited_generate, LlmService.generate_visualization.
  destruct (VisualizationFactory.create_strategy _ _) as [strategy | e0].
  - destruct (strategy_wraps_server_error decode interpret strategy (question request)
                (options request) exc Hc) as [prefix ->].
    eexists. split; [reflexivity | apply transient_rewrap].
  - eexists. split; [reflexivity | apply transient_rewrap].
Qed.

(** C1 on the code.  The provider raises a [ServerError] (overload, rate
    limit, any status code and text) during the first attempt.  Whatever
    the request, the loop receives it as a [ValueError] or [RuntimeError]:
    it makes one call, never sleeps, never writes the record as pending,
    and leaves the job failed with [attempts = 1]. *)
Theorem C1_provider_server_error_is_not_retried
    (decode : string → option (Outcome Mindmap.MindmapNode))
    (interpret : string → Outcome VisualizationResult)
    (utcnow : nat → Z) (text : string) (status_code : option Z)
    (response : option Response) (request : VisualizationRequest)
    (job_id : string) (job : VisualizationJob)
    (m : gmap string VisualizationJob) (r : nat) :
  let exc := mkExc ServerError text status_code response in
  let w := background_task decode interpret utcnow (fun _ => Raised exc) request job_id
             (mkWorld (<[job_id := job]> m) r []) in
  generate_calls (trace w) = 1%nat
  ∧ sleeps (trace w) = []
  ∧ map status (snapshots (trace w)) = [RUNNING; FAILED]
  ∧ ∃ final message,
      jobs w !! job_id = Some final
      ∧ status final = FAILED ∧ attempts final = 1 ∧ error final = Some message.
Proof.
  cbv zeta. unfold background_task, _run_visualization_job. cbn [jobs].
  rewrite lookup_insert_eq, py_range_attempts.
  destruct (awaited_generate_provider_raises decode interpret request 1
              (mkExc ServerError text status_code response) eq_refl)
    as (e & Hgen & Htr).
  destruct (attempt_fails_for_good utcnow _ job_id 1 [2; 3] job
              (mkWorld (<[job_id := job]> m) r []) e Hgen Htr)
    as (final & prefix & -> & Hst & Herr & _ & Hat & _).
  unfold after_last_attempt. cbn [jobs trace app generate_calls sleeps snapshots map].
  rewrite Hst. repeat split.
  exists final, (prefix +:+ exc_text e).
  split; [apply lookup_insert_eq|]. auto.
Qed.

(** The run for a flowchart request when the provider answers 503. *)
Example flowchart_overload_fails_at_once :
  trace (background_task (fun _ => None) (fun _ => Raised (raise_ValueError ""))
           (fun n => Z.of_nat n) (fun _ => Raised overloaded_503)
           (mkRequest "How does X work?" "flowchart" default_options) "job-1"
           (mkWorld {["job-1" := fresh_job]} 0 []))
  = [EvStore "job-1"
       (mkJob "job-1" RUNNING "flowchart" None [] None 0 0 3600000000 1);
     EvGenerate 1;
     EvStore "job-1"
       (mkJob "job-1" FAILED "flowchart" None []
          (Some ("Failed to generate visualization of type 'flowchart': "
                 +:+ "Flowchart generation failed: "
                 +:+ "503 UNAVAILABLE. The model is overloaded."))
          0 1 3600000000 1)].
Proof.
  unfold background_task, _run_visualization_job. cbn [jobs].
  rewrite lookup_singleton_eq. reflexivity.
Qed.

(** The loop taken alone, with an awaited call that is not the
    repository's: had attempt 1 failed with a 503 [ServerError] and attempt
    2 succeeded, the job would end succeeded with its [error] still the
    transient message written before the sleep.  The repository's
    [generate_visualization] never raises a [ServerError], so no run of the
    program gets there. *)
Remark retry_then_success_in_the_loop_alone (utcnow : nat → Z) (text : string)
    (result : VisualizationResult) (job_id : string) (job : VisualizationJob)
    (m : gmap string VisualizationJob) (r : nat) :
  let gen := fun attempt : Z =>
               if attempt =? 1 then Raised (mkExc ServerError text (Some 503) None)
               else Returned result in
  let w := _run_visualization_job utcnow gen job_id
             (mkWorld (<[job_id := job]> m) r []) in
  generate_calls (trace w) = 2%nat
  ∧ ∃ final,
      jobs w !! job_id = Some final
      ∧ status final = SUCCEEDED
      ∧ content final = Some (res_content result)
      ∧ attempts final = 2
      ∧ error final = Some "Transient Gemini error (status=503). Retrying in 1.5s.".
Proof.
  cbv zeta. unfold _run_visualization_job. cbn [jobs].
  rewrite lookup_insert_eq, py_range_attempts.
  set (gen := fun attempt : Z =>
                if attempt =? 1 then Raised (mkExc ServerError text (Some 503) None)
                else Returned result).
  destruct (attempt_is_retried utcnow gen job_id 1 [2; 3] job
              (mkWorld (<[job_id := job]> m) r [])
              (mkExc ServerError text (Some 503) None) eq_refl eq_refl eq_refl)
    as (pending & -> & _ & Herr & _).
  destruct (attempt_succeeds utcnow gen job_id 2 [3] pending
              (after_retry job_id 1
                 (running_job utcnow 1 job (mkWorld (<[job_id := job]> m) r []))
                 pending (mkWorld (<[job_id := job]> m) r []))
              result eq_refl)
    as (final & -> & Hst & Hco & _ & Her & Hat & _).
  unfold after_last_attempt, after_retry.
  cbn [jobs trace app generate_calls]. split; [reflexivity|].
  exists final. split; [apply lookup_insert_eq|].
  repeat split; try assumption.
  rewrite Her, Herr. reflexivity.
Qed.

(** Behind the repository's [generate_visualization], which lets no
    [ServerError] through, a job created by [visualize] has an [error] at
    the points where it is failed and only there. *)
Lemma composed_error_iff_failed
    (decode : string → option (Outcome Mindmap.MindmapNode))
    (interpret : string → Outcome VisualizationResult)
    (utcnow : nat → Z) (provider : Z → ProviderOutcome)
    (request : VisualizationRequest) (job_id : string) (job : VisualizationJob)
    (m : gmap string VisualizationJob) (r : nat) :
  error job = None →
  Forall (fun j => has_error j = true ↔ status j = FAILED)
         (snapshots (trace (background_task decode interpret utcnow provider request job_id
                              (mkWorld (<[job_id := job]> m) r [])))).
Proof.
  intros Hnone. unfold background_task, _run_visualization_job. cbn [jobs].
  rewrite lookup_insert_eq, py_range_attempts.
  assert (Hrun : has_error (running_job utcnow 1 job (mkWorld (<[job_id := job]> m) r []))
                 = true ↔
                 status (running_job utcnow 1 job (mkWorld (<[job_id := job]> m) r []))
                 = FAILED).
  { unfold has_error. cbn. rewrite Hnone. split; discriminate. }
  destruct (awaited_generate decode interpret provider request 1) as [result | e] eqn:Hgen.
  - destruct (attempt_succeeds utcnow _ job_id 1 [2; 3] job
                (mkWorld (<[job_id := job]> m) r []) result Hgen)
      as (final & -> & Hst & _ & _ & Her & _).
    unfold after_last_attempt. cbn [trace app snapshots].
    constructor; [exact Hrun|]. constructor; [|constructor].
    unfold has_error. rewrite Her, Hnone, Hst. split; discriminate.
  - apply generate_visualization_raises in Hgen as Hcl. destruct Hcl as [_ Htr].
    destruct (attempt_fails_for_good utcnow _ job_id 1 [2; 3] job
                (mkWorld (<[job_id := job]> m) r []) e Hgen Htr)
      as (final & prefix & -> & Hst & Her & _).
    unfold after_last_attempt. cbn [trace app snapshots].
    constructor; [exact Hrun|]. constructor; [|constructor].
    unfold has_error. rewrite Her, Hst. split; reflexivity.
Qed.

Lemma truthy_app (a b : string) :
  PyStr.truthy (a +:+ b) = PyStr.truthy a || PyStr.truthy b.
Proof. destruct a; [destruct b|]; reflexivity. Qed.

(** The message of an exception [generate_visualization] raises is never
    empty: it begins with the text of one of the two [except] clauses. *)
Lemma generate_visualization_raises_text
    (decode : string → option (Outcome Mindmap.MindmapNode))
    (interpret : string → Outcome VisualizationResult)
    (question visualization_type : string) (options : VisualizationOptions)
    (provider : ProviderOutcome) (exc : Exc) :
  LlmService.generate_visualization decode interpret question visualization_type
    options provider = Raised exc →
  PyStr.truthy (exc_text exc) = true.
Proof.
  assert (Hre : ∀ e, PyStr.truthy (exc_text (LlmService.rewrap visualization_type e)) = true).
  { intros e. unfold LlmService.rewrap. destruct (is_ValueError e); reflexivity. }
  unfold LlmService.generate_visualization.
  destruct (VisualizationFactory.create_strategy _ _) as [strategy | e0].
  - destruct (LlmService.strategy_generate _ _ _ _ _ _) as [result | e1];
      [discriminate|].
    intros [= <-]. apply Hre.
  - intros [= <-]. apply Hre.
Qed.

(** The points of a run of the loop alone in which every attempt fails
    with a 503 [ServerError]: from the first retry on, the job is mid-retry
    until it is failed, and [error] is set at exactly those points. *)
Example points_of_an_exhausted_run :
  let w := _run_visualization_job (fun n => Z.of_nat n) (fun _ => Raised overloaded_503)
             "job-1" (mkWorld {["job-1" := fresh_job]} 0 []) in
  map (fun p => (status (snd p), mid_retry p, error_set (snd p))) (points false (trace w))
  = [(RUNNING, false, false); (PENDING, true, true); (RUNNING, true, true);
     (PENDING, true, true); (RUNNING, true, true); (FAILED, false, true)].
Proof.
  cbv zeta. unfold _run_visualization_job. cbn [jobs].
  rewrite lookup_singleton_eq. reflexivity.
Qed.

(** three points: the record as created, as running, and one more *)
Ltac three_points Hcreated Hrunning :=
  constructor; [exact Hcreated|]; constructor; [exact Hrunning|];
  constructor; [|constructor].

(** C4.  A job is created by [visualize] and then worked on by the task
    [visualize] schedules.  The points of its life are the record as
    created and every record the task writes (the last one is what the
    store holds at the end).  At each of them [error] is set (present and
    not empty) exactly when the job is failed or mid-retry; a succeeded job
    has [error = None]; and [error] is never the empty string.  This holds
    whatever the provider answers, because behind the repository's
    [generate_visualization] the task never retries. *)
Theorem C4_error_set_iff_failed_or_mid_retry
    (decode : string → option (Outcome Mindmap.MindmapNode))
    (interpret : string → Outcome VisualizationResult)
    (utcnow : nat → Z) (provider : Z → ProviderOutcome)
    (request : VisualizationRequest) (job_id : string) (now : Z)
    (m : gmap string VisualizationJob) (r : nat)
    (response : VisualizationJobCreateResponse) :
  fst (visualize request job_id now m) = Ok response →
  let w0 := mkWorld (snd (visualize request job_id now m)) r [] in
  let w := background_task decode interpret utcnow provider request job_id w0 in
  ∃ created final,
    jobs w0 !! job_id = Some created
    ∧ jobs w !! job_id = Some final
    ∧ map snd (points false (trace w)) = snapshots (trace w)
    ∧ last (snapshots (trace w)) = Some final
    ∧ Forall error_as_specified ((false, created) :: points false (trace w))
    ∧ Forall (fun p => status (snd p) = SUCCEEDED → error (snd p) = None)
             ((false, created) :: points false (trace w))
    ∧ Forall (fun p => has_error (snd p) = error_set (snd p))
             ((false, created) :: points false (trace w)).
Proof.
  intros Hok. cbv zeta.
  assert (Hin : VisualizationFactory.list_in (PyStr.lower (req_visualization_type request))
                  LlmService.get_supported_visualization_types = true).
  { unfold visualize in Hok.
    destruct (VisualizationFactory.list_in _ _); [reflexivity | discriminate]. }
  rewrite (FactoryFacts.visualize_accepts request job_id now m Hin). cbn [snd jobs].
  set (created := mkJob job_id PENDING (PyStr.lower (req_visualization_type request))
                    None [] None now now (now + 3600 * 1000000) 0).
  set (w0 := mkWorld (<[job_id := created]> m) r []).
  assert (Hcreated : error_as_specified (false, created)
                     ∧ (status created = SUCCEEDED → error created = None)
                     ∧ has_error created = error_set created).
  { split; [|split; [discriminate | reflexivity]].
    unfold error_as_specified. cbn. split; [discriminate | intros [?|?]; discriminate]. }
  assert (Hrunning : error_as_specified (false, running_job utcnow 1 created w0)
                     ∧ (status (running_job utcnow 1 created w0) = SUCCEEDED
                        → error (running_job utcnow 1 created w0) = None)
                     ∧ has_error (running_job utcnow 1 created w0)
                       = error_set (running_job utcnow 1 created w0)).
  { split; [|split; [discriminate | reflexivity]].
    unfold error_as_specified. cbn. split; [discriminate | intros [?|?]; discriminate]. }
  destruct Hcreated as (Hc1 & Hc2 & Hc3). destruct Hrunning as (Hr1 & Hr2 & Hr3).
  assert (Hlook : jobs w0 !! job_id = Some created) by apply lookup_insert_eq.
  unfold background_task, _run_visualization_job.
  rewrite ?Hlook, py_range_attempts.
  destruct (awaited_generate decode interpret provider request 1) as [result | e] eqn:Hgen.
  - destruct (attempt_succeeds utcnow _ job_id 1 [2; 3] created w0 result Hgen)
      as (final & -> & Hst & _ & _ & Her & _).
    assert (Hnone : error final = None) by (rewrite Her; reflexivity).
    exists created, final. unfold after_last_attempt.
    cbn [jobs trace app points snapshots map snd last].
    split; [apply lookup_insert_eq|]. split; [apply lookup_insert_eq|].
    split; [reflexivity|]. split; [reflexivity|].
    split; [|split].
    + three_points Hc1 Hr1.
      unfold error_as_specified, error_set, mid_retry. cbn [fst snd andb].
      rewrite Hnone, Hst. split; [discriminate | intros [?|?]; discriminate].
    + three_points Hc2 Hr2. cbn [snd]. intros _. exact Hnone.
    + three_points Hc3 Hr3. cbn [snd].
      unfold has_error, error_set. rewrite Hnone. reflexivity.
  - apply generate_visualization_raises in Hgen as Hcl. destruct Hcl as [_ Htr].
    apply generate_visualization_raises_text in Hgen as Htext.
    destruct (attempt_fails_for_good utcnow _ job_id 1 [2; 3] created w0 e Hgen Htr)
      as (final & prefix & -> & Hst & Her & _).
    assert (Hset : error_set final = true).
    { unfold error_set. rewrite Her, truthy_app, Htext. apply orb_true_r. }
    exists created, final. unfold after_last_attempt.
    cbn [jobs trace app points snapshots map snd last].
    split; [apply lookup_insert_eq|]. split; [apply lookup_insert_eq|].
    split; [reflexivity|]. split; [reflexivity|].
    split; [|split].
    + three_points Hc1 Hr1.
      unfold error_as_specified. cbn [snd]. rewrite Hset, Hst. split; auto.
    + three_points Hc2 Hr2. cbn [snd]. rewrite Hst. discriminate.
    + three_points Hc3 Hr3. cbn [snd].
      rewrite Hset. unfold has_error. rewrite Her. reflexivity.
Qed.

Lemma C4_error_set_iff_failed_or_mid_retry_witness :
  let request := mkRequest "How does X work?" "flowchart" default_options in
  let w0 := mkWorld (snd (visualize request "job-1" 0 ∅)) 0 [] in
  let w := background_task (fun _ => None) (fun _ => Raised (raise_ValueError ""))
             (fun n => Z.of_nat n) (fun _ => Raised overloaded_503) request "job-1" w0 in
  ∃ created final,
    jobs w0 !! "job-1" = Some created
    ∧ jobs w !! "job-1" = Some final
    ∧ map snd (points false (trace w)) = snapshots (trace w)
    ∧ last (snapshots (trace w)) = Some final
    ∧ Forall error_as_specified ((false, created) :: points false (trace w))
    ∧ Forall (fun p => status (snd p) = SUCCEEDED → error (snd p) = None)
             ((false, created) :: points false (trace w))
    ∧ Forall (fun p => has_error (snd p) = error_set (snd p))
             ((false, created) :: points false (trace w)).
Proof.
  exact (C4_error_set_iff_failed_or_mid_retry
           (fun _ => None) (fun _ => Raised (raise_ValueError ""))
           (fun n => Z.of_nat n) (fun _ => Raised overloaded_503)
           (mkRequest "How does X work?" "flowchart" default_options) "job-1" 0 ∅ 0%nat
           (mkCreateResponse "job-1" PENDING) eq_refl).
Defined.

End AppProps.

(** ** The flow-diagram renderer *)

Module FlowchartFacts.
Import FlowchartRender Obs2 PyStr PyStrFacts.
Import Json(JSON, JNull, JBool, JInt, JFloat, JStr, JArr, JObj).

Lemma id_char_not_space (c : ascii) : id_char c = true → isspace c = false.
Proof. destruct c as [[] [] [] [] [] [] [] []]; vm_compute; congruence. Qed.

Lemma id_char_not_quote (c : ascii) : id_char c = true → Ascii.eqb c (chr 34) = false.
Proof. destruct c as [[] [] [] [] [] [] [] []]; vm_compute; congruence. Qed.

Lemma sanitize_id_chars (s : string) : id_chars_only (sanitize s) = true.
Proof.
  induction s as [|c s IH]; [reflexivity|].
  cbn [sanitize]. destruct (id_char c) eqn:Hc; [|exact IH].
  cbn [id_chars_only]. now rewrite Hc, IH.
Qed.

Lemma sanitize_fixed (s : string) : id_chars_only s = true → sanitize s = s.
Proof.
  induction s as [|c s IH]; [reflexivity|].
  cbn [id_chars_only sanitize]. intros [Hc Hs]%andb_prop.
  now rewrite Hc, IH.
Qed.

Lemma id_chars_no_quote (s : string) : id_chars_only s = true → has_quote s = false.
Proof.
  induction s as [|c s IH]; [reflexivity|].
  cbn [id_chars_only has_quote]. intros [Hc Hs]%andb_prop.
  now rewrite (id_char_not_quote c Hc), IH.
Qed.

Lemma id_chars_starts_nonspace (s : string) :
  id_chars_only s = true → truthy s = true → starts_nonspace s = true.
Proof.
  destruct s as [|c s]; [discriminate|].
  cbn [id_chars_only starts_nonspace]. intros [Hc _]%andb_prop _.
  now rewrite (id_char_not_space c Hc).
Qed.

Lemma has_quote_app (a b : string) : has_quote (a +:+ b) = has_quote a || has_quote b.
Proof.
  induction a as [|c a IH]; [reflexivity|].
  rewrite append_cons. cbn [has_quote]. rewrite IH. now rewrite orb_assoc.
Qed.

Lemma escape_quotes_no_quote (s : string) : has_quote (escape_quotes s) = false.
Proof.
  induction s as [|c s IH]; [reflexivity|].
  cbn [escape_quotes]. destruct (Ascii.eqb c (chr 34)) eqn:Hc.
  - rewrite has_quote_app, IH. reflexivity.
  - cbn [has_quote]. now rewrite Hc, IH.
Qed.

Lemma escape_quotes_fixed (s : string) : has_quote s = false → escape_quotes s = s.
Proof.
  induction s as [|c s IH]; [reflexivity|].
  cbn [has_quote escape_quotes]. intros [Hc Hs]%orb_false_elim.
  now rewrite Hc, IH.
Qed.

Lemma starts_nonspace_app (a b : string) :
  starts_nonspace a = true → starts_nonspace (a +:+ b) = true.
Proof. destruct a as [|c a]; [discriminate|]. now rewrite append_cons. Qed.

Ltac run_bind :=
  cbv beta iota delta [mbind Outcome_bind].

(** X1.  A line the node loop appends has the form
    [id open dq label dq close]: the id is not empty and made of
    alphanumeric characters and underscores only, the label is not empty
    and has no double quote in it, and the delimiters are one of the five
    pairs of the shape table. *)
Theorem node_line_is_well_formed (node : JSON) (line : string) :
  node_step node = Returned (Some line) →
  ∃ safe_id safe_label open_shape close_shape,
    line = safe_id +:+ open_shape +:+ dq +:+ safe_label +:+ dq +:+ close_shape
    ∧ truthy safe_id = true
    ∧ id_chars_only safe_id = true
    ∧ truthy safe_label = true
    ∧ has_quote safe_label = false
    ∧ In (open_shape, close_shape)
         [("([", "])"); ("((", "))"); ("{", "}"); ("[/", "/]"); ("[", "]")].
Proof.
  unfold node_step. run_bind.
  destruct (Json.get node "id" (JStr "")) as [id_value|]; [|discriminate].
  destruct (Json.strip id_value) as [node_id|]; [|discriminate].
  destruct (Json.get node "label" (JStr "")) as [label_value|]; [|discriminate].
  destruct (Json.strip label_value) as [label|]; [|discriminate].
  destruct (Json.get node "shape" (JStr "default")) as [shape_value|]; [|discriminate].
  destruct (Json.lower shape_value) as [shape_key|]; [|discriminate].
  destruct (truthy node_id); cbn [negb]; [|discriminate].
  destruct (truthy (sanitize node_id)) eqn:Hid; cbn [negb]; [|discriminate].
  destruct (node_shapes shape_key) as [open_shape close_shape] eqn:Hshape.
  intros [= <-].
  exists (sanitize node_id),
         (if truthy (escape_quotes label) then escape_quotes label else sanitize node_id),
         open_shape, close_shape.
  split; [reflexivity|]. split; [exact Hid|]. split; [apply sanitize_id_chars|].
  split; [destruct (truthy (escape_quotes label)) eqn:E; [exact E | exact Hid]|].
  split.
  - destruct (truthy (escape_quotes label));
      [apply escape_quotes_no_quote | apply id_chars_no_quote, sanitize_id_chars].
  - unfold node_shapes in Hshape.
    repeat match type of Hshape with
           | (if ?b then _ else _) = _ => destruct b
           end;
      injection Hshape as <- <-; cbn; tauto.
Qed.

Lemma node_line_is_well_formed_witness :
  ∃ safe_id safe_label open_shape close_shape,
    "A1([" +:+ dq +:+ "Say &quot;hi&quot;" +:+ dq +:+ "])"
    = safe_id +:+ open_shape +:+ dq +:+ safe_label +:+ dq +:+ close_shape
    ∧ truthy safe_id = true
    ∧ id_chars_only safe_id = true
    ∧ truthy safe_label = true
    ∧ has_quote safe_label = false
    ∧ In (open_shape, close_shape)
         [("([", "])"); ("((", "))"); ("{", "}"); ("[/", "/]"); ("[", "]")].
Proof.
  apply (node_line_is_well_formed
           (JObj [("id", JStr " A-1! ");
                  ("label", JStr ("Say " +:+ dq +:+ "hi" +:+ dq));
                  ("shape", JStr "START")])).
  reflexivity.
Defined.


Lemma node_step_starts (node : JSON) (line : string) :
  node_step node = Returned (Some line) → starts_nonspace line = true.
Proof.
  unfold node_step. run_bind.
  destruct (Json.get node "id" (JStr "")) as [id_value|]; [|discriminate].
  destruct (Json.strip id_value) as [node_id|]; [|discriminate].
  destruct (Json.get node "label" (JStr "")) as [label_value|]; [|discriminate].
  destruct (Json.strip label_value) as [label|]; [|discriminate].
  destruct (Json.get node "shape" (JStr "default")) as [shape_value|]; [|discriminate].
  destruct (Json.lower shape_value) as [shape_key|]; [|discriminate].
  destruct (truthy node_id); cbn [negb]; [|discriminate].
  destruct (truthy (sanitize node_id)) eqn:Hid; cbn [negb]; [|discriminate].
  destruct (node_shapes shape_key) as [open_shape close_shape].
  intros [= <-].
  apply starts_nonspace_app, id_chars_starts_nonspace;
    [apply sanitize_id_chars | exact Hid].
Qed.

Lemma edge_step_starts (edge : JSON) (line : string) :
  edge_step edge = Returned (Some line) → starts_nonspace line = true.
Proof.
  unfold edge_step. run_bind.
  destruct (Json.get edge "from" (JStr "")) as [from_value|]; [|discriminate].
  destruct (Json.strip from_value) as [src|]; [|discriminate].
  destruct (Json.get edge "to" (JStr "")) as [to_value|]; [|discriminate].
  destruct (Json.strip to_value) as [dst|]; [|discriminate].
  destruct (negb (truthy src) || negb (truthy dst)); [discriminate|].
  destruct (truthy (sanitize src)) eqn:Hsrc; cbn [negb orb]; [|discriminate].
  destruct (negb (truthy (sanitize dst))); [discriminate|].
  destruct (Json.get edge "label" (JStr "")) as [label_value|]; [|discriminate].
  destruct (Json.strip label_value) as [label|]; [|discriminate].
  destruct (truthy label); intros [= <-];
    apply starts_nonspace_app, id_chars_starts_nonspace;
    first [apply sanitize_id_chars | exact Hsrc].
Qed.

(** A loop appends at most one line per item, each a line of its step. *)
Lemma append_lines_inv (step : JSON → Outcome (option string)) (P : string → Prop) :
  (∀ item l, step item = Returned (Some l) → P l) →
  ∀ items lines out,
    append_lines step items lines = Returned out →
    ∃ new, out = (lines ++ new)%list ∧ Forall P new
           ∧ (length new <= length items)%nat.
Proof.
  intros Hstep. induction items as [|item items IH]; intros lines out.
  - intros [= <-]. exists []. rewrite app_nil_r. repeat split; auto.
  - cbn [append_lines]. run_bind.
    destruct (step item) as [[l|]|] eqn:Hitem; [| |discriminate].
    + intros H. apply IH in H as (new & -> & Hall & Hlen).
      exists (l :: new). rewrite <- app_assoc. repeat split.
      * constructor; [now apply (Hstep item)|exact Hall].
      * cbn. lia.
    + intros H. apply IH in H as (new & -> & Hall & Hlen).
      exists new. repeat split; [exact Hall | cbn; lia].
Qed.

Section RenderFacts.
Variable py_str : JSON → string.

(** Whenever the renderer returns, its lines are the header and at least
    one more line, and every line after the header begins with a
    character that is not white space. *)
Lemma mermaid_lines_inv (diagram : JSON) (lines : list string) :
  mermaid_lines py_str diagram = Returned lines →
  ∃ direction body,
    Json.get diagram "direction" (JStr "TD") = Returned direction
    ∧ lines = ("flowchart " +:+ format_value py_str direction) :: body
    ∧ body ≠ []
    ∧ Forall (fun l => starts_nonspace l = true) body.
Proof.
  unfold mermaid_lines. run_bind.
  destruct (Json.get diagram "direction" (JStr "TD")) as [direction|]; [|discriminate].
  destruct (Json.get diagram "nodes" (JArr [])) as [nodes|]; [|discriminate].
  destruct (Json.get diagram "edges" (JArr [])) as [edges|]; [|discriminate].
  destruct (Json.iterate nodes) as [node_items|]; [|discriminate].
  destruct (append_lines node_step node_items _) as [lines1|] eqn:H1; [|discriminate].
  destruct (Json.iterate edges) as [edge_items|]; [|discriminate].
  destruct (append_lines edge_step edge_items lines1) as [lines2|] eqn:H2; [|discriminate].
  apply (append_lines_inv node_step _ node_step_starts) in H1 as (new1 & -> & Hn1 & _).
  apply (append_lines_inv edge_step _ edge_step_starts) in H2 as (new2 & -> & Hn2 & _).
  replace ((["flowchart " +:+ format_value py_str direction] ++ new1) ++ new2)%list
    with (("flowchart " +:+ format_value py_str direction) :: (new1 ++ new2))%list
    by (now rewrite <- app_assoc).
  assert (Hall : Forall (fun l => starts_nonspace l = true) (new1 ++ new2)%list)
    by (apply Forall_app; now split).
  destruct (new1 ++ new2)%list as [|b body].
  - cbn. intros [= <-]. exists direction, fallback_lines.
    repeat split; [discriminate|]. repeat constructor.
  - cbn [length Nat.eqb]. destruct (length body); intros [= <-];
      exists direction, (b :: body); repeat split; (discriminate || exact Hall).
Qed.

End RenderFacts.

Lemma rstrip_nonspace (c : ascii) (r : string) :
  isspace c = false → rstrip (String c r) = String c (rstrip r).
Proof. intros H. cbn [rstrip]. rewrite H. now destruct (rstrip r). Qed.

Lemma rstrip_empty_iff (s : string) : rstrip s = "" ↔ all_space s = true.
Proof.
  induction s as [|c s IH]; [easy|].
  cbn [rstrip all_space]. destruct (rstrip s) eqn:E.
  - destruct (isspace c); cbn [andb]; [|easy].
    split; [intros _; now apply IH | reflexivity].
  - split; [discriminate|]. intros [_ H]%andb_prop.
    apply IH in H. discriminate.
Qed.

Lemma all_space_app (a b : string) : all_space (a +:+ b) = all_space a && all_space b.
Proof.
  induction a as [|c a IH]; [reflexivity|].
  rewrite append_cons. cbn [all_space]. rewrite IH. now rewrite andb_assoc.
Qed.

Lemma starts_nonspace_not_all_space (s : string) :
  starts_nonspace s = true → all_space s = false.
Proof.
  destruct s as [|c s]; [discriminate|]. cbn. intros H%negb_true_iff. now rewrite H.
Qed.

Lemma all_space_join (l : list string) :
  l ≠ [] → Forall (fun s => starts_nonspace s = true) l → all_space (join nl l) = false.
Proof.
  destruct l as [|x l]; [congruence|]. intros _ H.
  apply Forall_cons in H as [Hx _].
  apply starts_nonspace_not_all_space in Hx.
  destruct l as [|y l]; [exact Hx|].
  rewrite join_cons by congruence. rewrite all_space_app, Hx. reflexivity.
Qed.

Lemma len_app (a b : string) : len (a +:+ b) = len a + len b.
Proof.
  unfold len. induction a as [|c a IH]; [reflexivity|].
  rewrite append_cons. cbn [String.length]. lia.
Qed.

Lemma lstrip_len (s : string) : len (lstrip s) <= len s.
Proof.
  unfold len. induction s as [|c s IH]; [reflexivity|].
  cbn [lstrip]. destruct (isspace c); cbn [String.length]; lia.
Qed.

Lemma rstrip_len (s : string) : len (rstrip s) <= len s.
Proof.
  unfold len. induction s as [|c s IH]; [reflexivity|].
  cbn [rstrip]. destruct (rstrip s); [destruct (isspace c)|];
    cbn [String.length] in *; lia.
Qed.

Lemma strip_len (s : string) : len (strip s) <= len s.
Proof. unfold strip. pose proof (rstrip_len (lstrip s)). pose proof (lstrip_len s). lia. Qed.

(** A text that begins with [flowchart] and has a character that is not
    white space after it is rejected only for its length. *)
Lemma validate_prefixed (rest : string) :
  all_space rest = false →
  validate_content ("flowchart" +:+ rest)
  = negb (len ("flowchart" +:+ rest) >? 50000).
Proof.
  intros Hrest.
  assert (Hstrip : strip ("flowchart" +:+ rest) = "flowchart" +:+ rstrip rest).
  { unfold strip.
    change ("flowchart" +:+ rest)
      with (String "f" (String "l" (String "o" (String "w" (String "c"
             (String "h" (String "a" (String "r" (String "t" rest))))))))).
    cbn [lstrip].
    change (isspace "f") with false. cbv iota.
    now rewrite !rstrip_nonspace by reflexivity. }
  unfold validate_content. rewrite Hstrip.
  assert (Hne : rstrip rest ≠ "").
  { intros H. apply rstrip_empty_iff in H. congruence. }
  assert (Hlen : 1 <= len (rstrip rest)).
  { destruct (rstrip rest); [congruence|]. unfold len. cbn [String.length]. lia. }
  rewrite len_app. change (len "flowchart") with 9.
  change (truthy ("flowchart" +:+ rest)) with true. cbn [negb orb].
  destruct (Z.ltb_spec (9 + len (rstrip rest)) 10); [lia|].
  change (startswith "flowchart" ("flowchart" +:+ rstrip rest)) with true.
  cbn [negb]. now destruct (_ >? _).
Qed.

Lemma validate_rendered (header_tail : string) (body : list string) :
  body ≠ [] →
  Forall (fun l => starts_nonspace l = true) body →
  validate_content (join nl (("flowchart " +:+ header_tail) :: body))
  = negb (len (join nl (("flowchart " +:+ header_tail) :: body)) >? 50000).
Proof.
  intros Hne Hall. rewrite join_cons by assumption.
  change ("flowchart " +:+ header_tail) with ("flowchart" +:+ (" " +:+ header_tail)).
  rewrite append_assoc. apply validate_prefixed.
  rewrite !all_space_app, (all_space_join body) by assumption.
  now rewrite !andb_false_r.
Qed.

End FlowchartFacts.

Module FlowchartProps.
Import FlowchartRender FlowchartFacts Obs2 PyStr PyStrFacts.
Import Json(JSON, JNull, JBool, JInt, JFloat, JStr, JArr, JObj).

Lemma append_lines_none (step : JSON → Outcome (option string)) (items : list JSON)
    (lines : list string) :
  Forall (fun item => step item = Returned None) items →
  append_lines step items lines = Returned lines.
Proof.
  induction 1 as [|item items Hitem _ IH]; [reflexivity|].
  cbn [append_lines]. run_bind. now rewrite Hitem.
Qed.

Lemma append_lines_raises (step : JSON → Outcome (option string))
    (before : list JSON) (bad : JSON) (after : list JSON) (e : Exc) :
  Forall (fun item => ∃ o, step item = Returned o) before →
  step bad = Raised e →
  ∀ lines, append_lines step (before ++ bad :: after) lines = Raised e.
Proof.
  intros Hbefore Hbad.
  induction Hbefore as [|item items [o Hitem] _ IH]; intros lines.
  - cbn [app append_lines]. run_bind. now rewrite Hbad.
  - cbn [app append_lines]. run_bind. rewrite Hitem. apply IH.
Qed.

Lemma strip_id_chars (s : string) : id_chars_only s = true → strip s = s.
Proof.
  intros H. unfold strip.
  assert (Hl : lstrip s = s).
  { destruct s as [|c s]; [reflexivity|].
    cbn [id_chars_only] in H. apply andb_prop in H as [Hc _].
    cbn [lstrip]. now rewrite (id_char_not_space c Hc). }
  rewrite Hl. clear Hl.
  induction s as [|c s IH]; [reflexivity|].
  cbn [id_chars_only] in H. apply andb_prop in H as [Hc Hs].
  rewrite rstrip_nonspace by now apply id_char_not_space.
  now rewrite IH.
Qed.

Section Props.
Variable py_str : JSON → string.

(** X2.  Whatever the diagram, a text the renderer returns is the header
    line [flowchart <direction>] followed by at least one more line, and
    [validate_content] rejects it only when it is longer than 50000
    characters. *)
Theorem rendered_flowchart_rejected_only_for_size (diagram : JSON) (text : string) :
  _json_to_mermaid py_str diagram = Returned text →
  ∃ direction body,
    Json.get diagram "direction" (JStr "TD") = Returned direction
    ∧ text = join nl (("flowchart " +:+ format_value py_str direction) :: body)
    ∧ body ≠ []
    ∧ validate_content text = negb (len text >? 50000).
Proof.
  unfold _json_to_mermaid. run_bind.
  destruct (mermaid_lines py_str diagram) as [lines|] eqn:Hl; [|discriminate].
  intros [= <-].
  apply mermaid_lines_inv in Hl as (direction & body & Hd & -> & Hne & Hall).
  exists direction, body. repeat split; try assumption.
  now apply validate_rendered.
Qed.

(** X3.  When none of the nodes and none of the edges gives a line (each
    is skipped: empty id, id without any alphanumeric character or
    underscore, edge with such an end), the text is the header followed by
    the two lines of the fallback diagram. *)
Theorem flowchart_fallback (fields : list (string * JSON)) (nodes edges : list JSON) :
  Json.get (JObj fields) "nodes" (JArr []) = Returned (JArr nodes) →
  Json.get (JObj fields) "edges" (JArr []) = Returned (JArr edges) →
  Forall (fun node => node_step node = Returned None) nodes →
  Forall (fun edge => edge_step edge = Returned None) edges →
  ∃ direction,
    Json.get (JObj fields) "direction" (JStr "TD") = Returned direction
    ∧ _json_to_mermaid py_str (JObj fields)
      = Returned (join nl (("flowchart " +:+ format_value py_str direction)
                           :: fallback_lines)).
Proof.
  intros Hn He Hnodes Hedges. eexists. split; [reflexivity|].
  unfold _json_to_mermaid, mermaid_lines. run_bind.
  cbn [Json.get] in *. injection Hn as ->. injection He as ->.
  cbn [Json.iterate].
  rewrite (append_lines_none node_step nodes _ Hnodes).
  rewrite (append_lines_none edge_step edges _ Hedges).
  reflexivity.
Qed.

(** X4.  A node that raises (its id, label or shape is not a string, or
    the node is not an object) makes the whole rendering raise that
    exception, wherever it stands among nodes that are fine: no node is
    skipped for being malformed. *)
Theorem malformed_node_fails_rendering (fields : list (string * JSON))
    (before : list JSON) (bad : JSON) (after : list JSON) (e : Exc) :
  Json.get (JObj fields) "nodes" (JArr []) = Returned (JArr (before ++ bad :: after)) →
  Forall (fun node => ∃ o, node_step node = Returned o) before →
  node_step bad = Raised e →
  _json_to_mermaid py_str (JObj fields) = Raised e.
Proof.
  intros Hn Hbefore Hbad.
  unfold _json_to_mermaid, mermaid_lines. run_bind.
  cbn [Json.get] in *. injection Hn as ->.
  cbn [Json.iterate].
  now rewrite (append_lines_raises node_step before bad after e Hbefore Hbad).
Qed.

(** X5.  A diagram with one node and no edge, the id being a non-empty
    word of alphanumeric characters and underscores and the label a
    non-empty text without double quote and without white space around it,
    renders as [flowchart TD], a newline, and [id["label"]]. *)
Theorem single_node_flowchart (node_id label : string) :
  truthy node_id = true →
  id_chars_only node_id = true →
  truthy label = true →
  strip label = label →
  has_quote label = false →
  _json_to_mermaid py_str
    (JObj [("nodes", JArr [JObj [("id", JStr node_id); ("label", JStr label)]])])
  = Returned ("flowchart TD" +:+ nl +:+ node_id +:+ "[" +:+ dq +:+ label +:+ dq +:+ "]").
Proof.
  intros Hid Hchars Hlabel Hstrip Hquote.
  unfold _json_to_mermaid, mermaid_lines. run_bind.
  cbn [Json.get Json.lookup_field String.eqb Ascii.eqb Bool.eqb Json.iterate
       append_lines format_value].
  unfold node_step. run_bind.
  cbn [Json.get Json.lookup_field String.eqb Ascii.eqb Bool.eqb Json.strip Json.lower].
  rewrite (strip_id_chars node_id Hchars), Hstrip, Hid.
  rewrite (sanitize_fixed node_id Hchars), Hid.
  rewrite (escape_quotes_fixed label Hquote), Hlabel.
  reflexivity.
Qed.

End Props.

Lemma rendered_flowchart_rejected_only_for_size_witness :
  ∃ direction body,
    Json.get (JObj [("direction", JStr "LR")]) "direction" (JStr "TD") = Returned direction
    ∧ join nl ("flowchart LR" :: fallback_lines)
      = join nl (("flowchart " +:+ format_value (fun _ => "") direction) :: body)
    ∧ body ≠ []
    ∧ validate_content (join nl ("flowchart LR" :: fallback_lines))
      = negb (len (join nl ("flowchart LR" :: fallback_lines)) >? 50000).
Proof.
  apply (rendered_flowchart_rejected_only_for_size (fun _ => "")
           (JObj [("direction", JStr "LR")])).
  reflexivity.
Defined.

Lemma flowchart_fallback_witness :
  ∃ direction,
    Json.get (JObj [("nodes", JArr [JObj [("id", JStr "!?")]; JObj []]);
                    ("edges", JArr [JObj [("from", JStr "A"); ("to", JStr "--")]])])
      "direction" (JStr "TD") = Returned direction
    ∧ _json_to_mermaid (fun _ => "")
        (JObj [("nodes", JArr [JObj [("id", JStr "!?")]; JObj []]);
               ("edges", JArr [JObj [("from", JStr "A"); ("to", JStr "--")]])])
      = Returned (join nl (("flowchart " +:+ format_value (fun _ => "") direction)
                           :: fallback_lines)).
Proof.
  apply (flowchart_fallback (fun _ => "") _
           [JObj [("id", JStr "!?")]; JObj []]
           [JObj [("from", JStr "A"); ("to", JStr "--")]]);
    repeat constructor.
Defined.

Lemma malformed_node_fails_rendering_witness :
  _json_to_mermaid (fun _ => "")
    (JObj [("nodes", JArr [JObj [("id", JStr "A")]; JObj [("id", JInt 7)];
                           JObj [("id", JStr "B")]])])
  = Raised (Json.AttributeError (JInt 7) "strip").
Proof.
  apply (malformed_node_fails_rendering (fun _ => "") _
           [JObj [("id", JStr "A")]] (JObj [("id", JInt 7)]) [JObj [("id", JStr "B")]]).
  - reflexivity.
  - repeat constructor. eexists. reflexivity.
  - reflexivity.
Defined.

Lemma single_node_flowchart_witness :
  _json_to_mermaid (fun _ => "")
    (JObj [("nodes", JArr [JObj [("id", JStr "A1"); ("label", JStr "Start here")]])])
  = Returned ("flowchart TD" +:+ nl +:+ "A1" +:+ "[" +:+ dq +:+ "Start here" +:+ dq +:+ "]").
Proof.
  apply (single_node_flowchart (fun _ => "") "A1" "Start here"); reflexivity.
Defined.

(** X26.  A line the edge loop appends is [src --> dst] or
    [src -->|dq label dq| dst]: both ends are non-empty words of
    alphanumeric characters and underscores, and the label, present when
    the stripped label of the edge is not empty, has no double quote in
    it.  The ends are not compared with the ids of the nodes. *)
Theorem edge_line_is_well_formed (edge : JSON) (line : string) :
  edge_step edge = Returned (Some line) →
  ∃ safe_src safe_dst,
    truthy safe_src = true ∧ id_chars_only safe_src = true
    ∧ truthy safe_dst = true ∧ id_chars_only safe_dst = true
    ∧ (line = safe_src +:+ " --> " +:+ safe_dst
       ∨ ∃ safe_label,
           has_quote safe_label = false
           ∧ line = safe_src +:+ " -->|" +:+ dq +:+ safe_label +:+ dq +:+ "| " +:+ safe_dst).
Proof.
  unfold edge_step. run_bind.
  destruct (Json.get edge "from" (JStr "")) as [from_value|]; [|discriminate].
  destruct (Json.strip from_value) as [src|]; [|discriminate].
  destruct (Json.get edge "to" (JStr "")) as [to_value|]; [|discriminate].
  destruct (Json.strip to_value) as [dst|]; [|discriminate].
  destruct (negb (truthy src) || negb (truthy dst)); [discriminate|].
  destruct (truthy (sanitize src)) eqn:Hsrc; cbn [negb orb]; [|discriminate].
  destruct (truthy (sanitize dst)) eqn:Hdst; cbn [negb]; [|discriminate].
  destruct (Json.get edge "label" (JStr "")) as [label_value|]; [|discriminate].
  destruct (Json.strip label_value) as [label|]; [|discriminate].
  destruct (truthy label); intros [= <-];
    exists (sanitize src), (sanitize dst);
    (split; [exact Hsrc|]); (split; [apply sanitize_id_chars|]);
    (split; [exact Hdst|]); (split; [apply sanitize_id_chars|]).
  - right. exists (escape_quotes label). split; [apply escape_quotes_no_quote | reflexivity].
  - left. reflexivity.
Qed.

Lemma edge_line_is_well_formed_witness :
  ∃ safe_src safe_dst,
    truthy safe_src = true ∧ id_chars_only safe_src = true
    ∧ truthy safe_dst = true ∧ id_chars_only safe_dst = true
    ∧ ("A1 -->|" +:+ dq +:+ "yes" +:+ dq +:+ "| B_2" = safe_src +:+ " --> " +:+ safe_dst
       ∨ ∃ safe_label,
           has_quote safe_label = false
           ∧ "A1 -->|" +:+ dq +:+ "yes" +:+ dq +:+ "| B_2"
             = safe_src +:+ " -->|" +:+ dq +:+ safe_label +:+ dq +:+ "| " +:+ safe_dst).
Proof.
  apply (edge_line_is_well_formed
           (JObj [("from", JStr "A-1"); ("to", JStr " B_2 "); ("label", JStr "yes")])).
  reflexivity.
Defined.

End FlowchartProps.

(** ** [FlowchartStrategy.generate] with its body *)

Module FlowchartGenerateProps.
Import FlowchartRender FlowchartFacts Obs2 PyStr PyStrFacts.
Import Json(JSON, JNull, JBool, JInt, JFloat, JStr, JArr, JObj).

Section Props.
Variable py_str : JSON → string.
Variable search_json_block : string → option string.
Variable json_loads : string → Outcome JSON.

(** X6.  An answer that cannot be decoded as JSON ends in two different
    errors.  Without a fenced block, the [ValueError] raised in the body is
    caught by the last [except] clause and leaves [generate] as a
    [RuntimeError]; with a fenced block whose content does not decode, the
    [JSONDecodeError] leaves it as a [ValueError] that carries the
    decoder's message. *)
Theorem undecodable_answer_errors (question : string) (options : VisualizationOptions)
    (raw : string) (e : Exc) :
  exc_class e = JSONDecodeError →
  json_loads (match search_json_block raw with
              | None => raw
              | Some group1 => strip group1
              end) = Raised e →
  generate py_str search_json_block json_loads question options (Returned (Some raw))
  = Raised (match search_json_block raw with
            | None =>
                raise_RuntimeError
                  ("Flowchart generation failed: "
                   +:+ "LLM response did not contain a valid JSON block or raw JSON.")
            | Some _ =>
                raise_ValueError ("Failed to parse JSON from LLM response: " +:+ exc_text e)
            end).
Proof.
  intros Hc Hloads.
  unfold generate, FlowchartStrategy.generate, FlowchartStrategy.generate_body, interpret.
  run_bind.
  destruct (search_json_block raw) as [group1|]; rewrite Hloads.
  - unfold FlowchartStrategy.handle. now rewrite Hc.
  - rewrite Hc. reflexivity.
Qed.

Lemma flowchart_result_type (question : string) (options : VisualizationOptions)
    (provider : ProviderOutcome) (result : VisualizationResult) :
  FlowchartStrategy.generate (interpret py_str search_json_block json_loads)
    question options provider = Returned result →
  res_type result = "flowchart".
Proof.
  unfold FlowchartStrategy.generate, FlowchartStrategy.generate_body, interpret.
  run_bind.
  destruct provider as [[raw|]|]; [|discriminate..].
  destruct (match search_json_block raw with
            | Some group1 => json_loads (strip group1)
            | None => _
            end) as [diagram|]; [|discriminate].
  destruct (_json_to_mermaid py_str diagram) as [mermaid_code|]; [|discriminate].
  destruct (negb (validate_content mermaid_code)); [discriminate|].
  now intros [= <-].
Qed.

(** X7.  A result [generate] returns has the type [flowchart], no
    metadata, and a content that begins with [flowchart ], passes
    [validate_content] and has at most 50000 characters. *)
Theorem flowchart_result_shape (question : string) (options : VisualizationOptions)
    (provider : ProviderOutcome) (result : VisualizationResult) :
  generate py_str search_json_block json_loads question options provider
  = Returned result →
  res_type result = "flowchart"
  ∧ res_metadata result = []
  ∧ startswith "flowchart " (res_content result) = true
  ∧ validate_content (res_content result) = true
  ∧ len (res_content result) <= 50000.
Proof.
  unfold generate, FlowchartStrategy.generate, FlowchartStrategy.generate_body, interpret.
  run_bind.
  destruct provider as [[raw|]|]; [|discriminate..].
  destruct (match search_json_block raw with
            | Some group1 => json_loads (strip group1)
            | None => _
            end) as [diagram|]; [|discriminate].
  unfold _json_to_mermaid. run_bind.
  destruct (mermaid_lines py_str diagram) as [lines|] eqn:Hl; [|discriminate].
  apply mermaid_lines_inv in Hl as (direction & body & _ & -> & Hne & Hall).
  pose proof (validate_rendered (format_value py_str direction) body Hne Hall) as Hval.
  assert (Hstart : startswith "flowchart "
                     (join nl (("flowchart " +:+ format_value py_str direction) :: body))
                   = true).
  { rewrite join_cons by assumption. reflexivity. }
  revert Hval Hstart.
  generalize (join nl (("flowchart " +:+ format_value py_str direction) :: body)).
  intros text Hval Hstart.
  destruct (validate_content text) eqn:Hv; cbn [negb]; [|discriminate].
  intros [= <-]. cbn [res_type res_metadata res_content].
  repeat split; try assumption.
  symmetry in Hval. apply negb_true_iff in Hval.
  destruct (Z.gtb_spec (len text) 50000); [discriminate | lia].
Qed.


End Props.

Lemma undecodable_answer_errors_witness :
  generate (fun _ => "") (fun _ => None)
    (fun _ => Raised (mkExc JSONDecodeError "Expecting value: line 1 column 1 (char 0)"
                            None None))
    "How does X work?" default_options (Returned (Some "I cannot answer that."))
  = Raised (raise_RuntimeError
              ("Flowchart generation failed: "
               +:+ "LLM response did not contain a valid JSON block or raw JSON.")).
Proof.
  apply (undecodable_answer_errors (fun _ => "") (fun _ => None)
           (fun _ => Raised (mkExc JSONDecodeError
                                   "Expecting value: line 1 column 1 (char 0)" None None))
           "How does X work?" default_options "I cannot answer that."
           (mkExc JSONDecodeError "Expecting value: line 1 column 1 (char 0)" None None));
    reflexivity.
Defined.

Lemma flowchart_result_shape_witness :
  res_type (mkResult "flowchart" (join nl ("flowchart TD" :: fallback_lines)) [])
  = "flowchart"
  ∧ res_metadata (mkResult "flowchart" (join nl ("flowchart TD" :: fallback_lines)) []) = []
  ∧ startswith "flowchart "
      (res_content (mkResult "flowchart" (join nl ("flowchart TD" :: fallback_lines)) []))
    = true
  ∧ validate_content
      (res_content (mkResult "flowchart" (join nl ("flowchart TD" :: fallback_lines)) []))
    = true
  ∧ len (res_content (mkResult "flowchart" (join nl ("flowchart TD" :: fallback_lines)) []))
    <= 50000.
Proof.
  apply (flowchart_result_shape (fun _ => "") (fun _ => None) (fun _ => Returned (JObj []))
           "How does X work?" default_options (Returned (Some "{}"))).
  reflexivity.
Defined.

End FlowchartGenerateProps.

(** ** More on the hierarchical-map strategy *)

Module MindmapMore.
Import Mindmap MindmapObs MindmapFacts Obs2 PyStr PyStrFacts.

Lemma concat_map_nil {A B} (f : A → list B) (l : list A) :
  (∀ x, f x = []) → concat (map f l) = [].
Proof. intros H. induction l as [|x l IH]; [reflexivity|]. cbn. now rewrite H, IH. Qed.

Lemma kept_all (md : Z) (l : list (Z * string)) :
  (∀ n, In n l → fst n < md) → kept md l = l.
Proof.
  induction l as [|x l IH]; intros H; [reflexivity|].
  unfold kept in *. cbn [List.filter].
  destruct (Z.ltb_spec (fst x) md) as [_|Hge].
  - f_equal. apply IH. intros n Hn. apply H. now right.
  - specialize (H x (or_introl eq_refl)). lia.
Qed.

Lemma children_height_bound (c : MindmapNode) (cs : list MindmapNode) :
  In c cs → tree_height c <= fold_right (fun child m => Z.max (tree_height child) m) 0 cs.
Proof.
  induction cs as [|x cs IH]; [easy|].
  intros [-> | Hin]; cbn [fold_right]; [lia|]. specialize (IH Hin). lia.
Qed.

(** every node is at a depth below the depth of the root plus the height *)
Lemma all_nodes_depth_lt (t : MindmapNode) :
  ∀ d n, In n (all_nodes t d) → fst n < d + tree_height t.
Proof.
  induction t as [t | t cs IH] using MindmapNode_ind'; intros d n Hin.
  - destruct Hin as [<- | []]. cbn. lia.
  - destruct Hin as [<- | Hin]; [pose proof (tree_height_pos (MkNode t (Some cs))); cbn [fst]; lia|].
    apply in_concat in Hin as (l & Hl & Hn).
    apply in_map_iff in Hl as (c & <- & Hc).
    rewrite List.Forall_forall in IH.
    specialize (IH c Hc (d + 1) n Hn).
    pose proof (children_height_bound c cs Hc).
    cbn [tree_height]. lia.
Qed.

Lemma tree_height_le_nodes (t : MindmapNode) :
  ∀ d, tree_height t <= Z.of_nat (length (all_nodes t d)).
Proof.
  induction t as [t | t cs IH] using MindmapNode_ind'; intros d; [cbn; lia|].
  cbn [tree_height all_nodes length].
  assert (H : fold_right (fun child m => Z.max (tree_height child) m) 0 cs
              <= Z.of_nat (length (concat (map (fun c => all_nodes c (d + 1)) cs)))).
  { induction IH as [|c cs Hc _ IHcs]; [cbn; lia|].
    cbn [fold_right map concat]. rewrite length_app. specialize (Hc (d + 1)). lia. }
  lia.
Qed.

Lemma rendered_first_line (t : MindmapNode) (md : Z) :
  0 < md →
  ∃ rest, _json_to_markdown t md 0 = join nl (heading_line 1 (title t) :: rest).
Proof.
  intros Hmd. rewrite json_to_markdown_lines. destruct t as [tt c].
  rewrite rendered_lines_node by lia. eexists. reflexivity.
Qed.

Lemma heading_at_start (c : ascii) (rest : string) :
  heading_at (String hash (String " " (String c rest))) = negb (Ascii.eqb c newline).
Proof. reflexivity. Qed.

(** X8.  The text rendered for a tree whose root title begins with a
    character other than the newline, with a positive [max_depth], always
    has the heading [validate_content] looks for: the validator rejects
    such a text only for its length (fewer than 10 characters once
    stripped, or more than 50000). *)
Theorem rendered_mindmap_rejected_only_for_length (t : MindmapNode) (md : Z)
    (c : ascii) (r : string) :
  0 < md →
  title t = String c r →
  c ≠ newline →
  search_heading (_json_to_markdown t md 0) = true
  ∧ validate_content (_json_to_markdown t md 0)
    = negb (len (strip (_json_to_markdown t md 0)) <? 10)
      && negb (len (_json_to_markdown t md 0) >? 50000).
Proof.
  intros Hmd Ht Hc.
  destruct (rendered_first_line t md Hmd) as [rest ->]. rewrite Ht.
  assert (Hshape : ∃ tail, join nl (heading_line 1 (String c r) :: rest)
                           = String hash (String " " (String c tail))).
  { destruct rest as [|x rest].
    - exists r. reflexivity.
    - rewrite join_cons by congruence. eexists. reflexivity. }
  destruct Hshape as [tail ->].
  assert (Hs : search_heading (String hash (String " " (String c tail))) = true).
  { unfold search_heading. cbn [search_from]. rewrite heading_at_start.
    apply Ascii.eqb_neq in Hc. now rewrite Hc. }
  split; [exact Hs|].
  unfold validate_content. rewrite Hs. cbn [truthy negb orb].
  destruct (_ <? 10); [reflexivity|]. cbn [negb andb]. now destruct (_ >? 50000).
Qed.

Lemma rendered_mindmap_rejected_only_for_length_witness :
  search_heading (_json_to_markdown six_levels 2 0) = true
  ∧ validate_content (_json_to_markdown six_levels 2 0)
    = negb (len (strip (_json_to_markdown six_levels 2 0)) <? 10)
      && negb (len (_json_to_markdown six_levels 2 0) >? 50000).
Proof.
  assert (H : 0 < 2) by lia.
  apply (rendered_mindmap_rejected_only_for_length six_levels 2 "R" "ocq" H eq_refl).
  discriminate.
Defined.

Lemma render_depth_one (t : MindmapNode) :
  _json_to_markdown t 1 0 = heading_line 1 (title t).
Proof.
  rewrite json_to_markdown_lines. destruct t as [tt c].
  rewrite rendered_lines_node by lia.
  destruct c as [cs|]; [|reflexivity].
  rewrite concat_map_nil; [reflexivity|].
  intros x. apply rendered_lines_pruned. lia.
Qed.

(** X9.  With [max_depth = 1] only the root is rendered, as [# title]; a
    root title of fewer than 8 characters gives a text of fewer than 10,
    which [validate_content] rejects, and [generate] raises although the
    answer decoded to a tree. *)
Theorem short_root_title_is_rejected
    (decode : string → option (Outcome MindmapNode))
    (question : string) (options : VisualizationOptions) (text : string)
    (t : MindmapNode) :
  max_depth options = 1 →
  decode text = Some (Returned t) →
  len (title t) < 8 →
  _json_to_markdown t 1 0 = "# " +:+ title t
  ∧ MindmapStrategy.generate decode question options (Returned (Some text))
    = Raised (raise_RuntimeError
                "Mindmap generation failed: Generated mindmap markdown content is invalid.").
Proof.
  intros Hmd Hdec Hlen. split; [apply render_depth_one|].
  unfold MindmapStrategy.generate, MindmapStrategy.generate_body.
  rewrite Hdec, Hmd, render_depth_one.
  assert (Hv : validate_content (heading_line 1 (title t)) = false).
  { unfold validate_content.
    pose proof (FlowchartFacts.strip_len (heading_line 1 (title t))) as Hs.
    change (heading_line 1 (title t)) with ("# " +:+ title t) in *.
    rewrite FlowchartFacts.len_app in Hs. change (len "# ") with 2 in Hs.
    destruct (Z.ltb_spec (len (strip ("# " +:+ title t))) 10); [|lia].
    now rewrite orb_true_r. }
  rewrite Hv. reflexivity.
Qed.

Lemma short_root_title_is_rejected_witness :
  _json_to_markdown (MkNode "Rocq" (Some [MkNode "Kernel" None])) 1 0 = "# " +:+ "Rocq"
  ∧ MindmapStrategy.generate
      (fun _ => Some (Returned (MkNode "Rocq" (Some [MkNode "Kernel" None]))))
      "What is Rocq?" (mkOptions "simple" 1 "default") (Returned (Some "{}"))
    = Raised (raise_RuntimeError
                "Mindmap generation failed: Generated mindmap markdown content is invalid.").
Proof.
  assert (H : len (title (MkNode "Rocq" (Some [MkNode "Kernel" None]))) < 8)
    by (vm_compute; reflexivity).
  exact (short_root_title_is_rejected
           (fun _ => Some (Returned (MkNode "Rocq" (Some [MkNode "Kernel" None]))))
           "What is Rocq?" (mkOptions "simple" 1 "default") "{}"
           (MkNode "Rocq" (Some [MkNode "Kernel" None])) eq_refl eq_refl H).
Defined.

(** X10.  When [max_depth] is at least the depth [_calculate_depth]
    reports, nothing is pruned: the text has one heading line for every
    node of the tree, [_count_nodes] of them, and is the same for every
    such [max_depth]. *)
Theorem no_pruning_at_full_depth (t : MindmapNode) (md : Z) :
  _calculate_depth t 1 <= md →
  kept md (all_nodes t 0) = all_nodes t 0
  ∧ _json_to_markdown t md 0 = join nl (map node_line (all_nodes t 0))
  ∧ Z.of_nat (length (map node_line (all_nodes t 0))) = _count_nodes t
  ∧ _json_to_markdown t md 0 = _json_to_markdown t (_calculate_depth t 1) 0.
Proof.
  intros Hmd. rewrite calculate_depth_height in * by lia.
  assert (Hk : ∀ md', tree_height t <= md' → kept md' (all_nodes t 0) = all_nodes t 0).
  { intros md' H. apply kept_all. intros n Hn. apply all_nodes_depth_lt in Hn. lia. }
  split; [apply Hk; lia|]. split; [|split].
  - rewrite json_to_markdown_lines. unfold rendered_lines. now rewrite Hk by lia.
  - rewrite length_map. symmetry. apply count_nodes_all.
  - rewrite !json_to_markdown_lines. unfold rendered_lines. now rewrite !Hk by lia.
Qed.

Lemma no_pruning_at_full_depth_witness :
  _json_to_markdown six_levels 9 0 = _json_to_markdown six_levels (_calculate_depth six_levels 1) 0
  ∧ Z.of_nat (length (map node_line (all_nodes six_levels 0))) = _count_nodes six_levels.
Proof.
  assert (H : _calculate_depth six_levels 1 <= 9) by (vm_compute; discriminate).
  destruct (no_pruning_at_full_depth six_levels 9 H) as (_ & _ & Hc & He).
  split; [exact He | exact Hc].
Defined.

(** X11.  The metadata of every result of the mindmap strategy is
    consistent: [actual_depth] is at least 1 and at most [total_nodes],
    and [requested_max_depth] is the [max_depth] of the options and is
    positive. *)
Theorem mindmap_metadata_is_consistent
    (decode : string → option (Outcome MindmapNode))
    (question : string) (options : VisualizationOptions) (provider : ProviderOutcome)
    (result : VisualizationResult) :
  MindmapStrategy.generate decode question options provider = Returned result →
  ∃ total_nodes actual_depth,
    res_metadata result = [("total_nodes", total_nodes);
                           ("actual_depth", actual_depth);
                           ("requested_max_depth", max_depth options)]
    ∧ 1 <= actual_depth <= total_nodes
    ∧ 1 <= max_depth options
    ∧ res_type result = "mindmap"
    ∧ validate_content (res_content result) = true.
Proof.
  unfold MindmapStrategy.generate, MindmapStrategy.generate_body.
  destruct provider as [[text|]|]; [|discriminate..].
  destruct (decode text) as [[t|]|]; [|discriminate..].
  destruct (validate_content _) eqn:Hv; cbn [negb]; [|discriminate].
  intros [= <-]. cbn [res_metadata res_type res_content].
  exists (_count_nodes t), (_calculate_depth t 1).
  split; [reflexivity|]. split; [|split; [|split; [reflexivity | exact Hv]]].
  - rewrite calculate_depth_height by lia. rewrite (count_nodes_all t 0).
    pose proof (tree_height_pos t). pose proof (tree_height_le_nodes t 0). lia.
  - destruct (Z.lt_ge_cases 0 (max_depth options)) as [|Hle]; [lia|].
    exfalso. destruct t as [tt c]. cbn [_json_to_markdown] in Hv.
    destruct (Z.geb_spec 0 (max_depth options)); [discriminate | lia].
Qed.

Lemma mindmap_metadata_is_consistent_witness :
  ∃ total_nodes actual_depth,
    res_metadata (mkResult "mindmap" (join nl ["# Rocq"; "## Kernel"; "### Terms"])
                    [("total_nodes", 6); ("actual_depth", 6); ("requested_max_depth", 3)])
    = [("total_nodes", total_nodes); ("actual_depth", actual_depth);
       ("requested_max_depth", max_depth (mkOptions "balanced" 3 "default"))]
    ∧ 1 <= actual_depth <= total_nodes
    ∧ 1 <= max_depth (mkOptions "balanced" 3 "default")
    ∧ res_type (mkResult "mindmap" (join nl ["# Rocq"; "## Kernel"; "### Terms"])
                  [("total_nodes", 6); ("actual_depth", 6); ("requested_max_depth", 3)])
      = "mindmap"
    ∧ validate_content
        (res_content (mkResult "mindmap" (join nl ["# Rocq"; "## Kernel"; "### Terms"])
                        [("total_nodes", 6); ("actual_depth", 6);
                         ("requested_max_depth", 3)]))
      = true.
Proof.
  apply (mindmap_metadata_is_consistent (fun _ => Some (Returned six_levels))
           "What is Rocq?" (mkOptions "balanced" 3 "default") (Returned (Some "{}"))).
  reflexivity.
Defined.

End MindmapMore.

(** ** The choice of the prompt *)

Module PromptProps.
Import Prompting PyStr.

Lemma lower_char_idempotent (c : ascii) : lower_char (lower_char c) = lower_char c.
Proof. destruct c as [[] [] [] [] [] [] [] []]; vm_compute; reflexivity. Qed.

Lemma lower_idempotent (s : string) : lower (lower s) = lower s.
Proof.
  induction s as [|c s IH]; [reflexivity|].
  cbn [lower]. now rewrite lower_char_idempotent, IH.
Qed.

(** X12.  Every domain [_detect_domain] can answer is a key of the
    template table: the template used for a question is the comparison
    template when a comparison keyword occurs in the lower-cased question,
    else the learning template for a learning keyword, else the business
    template for a process keyword, and the technical template in every
    other case (technical keyword or none). *)
Theorem template_of_question (TECHNICAL_CONCEPT BUSINESS_PROCESS LEARNING_TOPIC
    COMPARISON question : string) :
  get_template TECHNICAL_CONCEPT BUSINESS_PROCESS LEARNING_TOPIC COMPARISON
    (_detect_domain question)
  = if any_in ["compare"; "vs"; "versus"; "difference"] (lower question) then COMPARISON
    else if any_in ["learn"; "explain"; "understand"; "teach"] (lower question)
    then LEARNING_TOPIC
    else if any_in ["process"; "workflow"; "procedure"; "steps"] (lower question)
    then BUSINESS_PROCESS
    else TECHNICAL_CONCEPT.
Proof.
  unfold _detect_domain.
  repeat match goal with
         | |- context [if any_in ?k ?q then _ else _] => destruct (any_in k q)
         end; reflexivity.
Qed.

(** X13.  The choice of the prompt ignores the letter case: the question,
    the complexity and the domain name give the same domain, guidance and
    template as their lower-cased forms. *)
Theorem prompt_choice_ignores_case (TECHNICAL_CONCEPT BUSINESS_PROCESS LEARNING_TOPIC
    COMPARISON question complexity domain : string) :
  _detect_domain (lower question) = _detect_domain question
  ∧ get_complexity_guidance (lower complexity) = get_complexity_guidance complexity
  ∧ get_template TECHNICAL_CONCEPT BUSINESS_PROCESS LEARNING_TOPIC COMPARISON (lower domain)
    = get_template TECHNICAL_CONCEPT BUSINESS_PROCESS LEARNING_TOPIC COMPARISON domain.
Proof.
  unfold _detect_domain, get_complexity_guidance, get_template.
  now rewrite !lower_idempotent.
Qed.

End PromptProps.

(** ** More on the registry *)

Module FactoryMore.
Import VisualizationFactory Main FactoryFacts.

Lemma dict_get_set_same {V} (k : string) (v : V) (d : Dict V) :
  dict_get k (dict_set k v d) = Some v.
Proof.
  induction d as [|[k' v'] d IH]; cbn [dict_set dict_get].
  - now rewrite String.eqb_refl.
  - destruct (String.eqb k k') eqn:E; cbn [dict_get]; rewrite ?String.eqb_refl, ?E; auto.
Qed.

Lemma dict_get_set_other {V} (k k' : string) (v : V) (d : Dict V) :
  k ≠ k' → dict_get k' (dict_set k v d) = dict_get k' d.
Proof.
  intros Hne. induction d as [|[k0 v0] d IH]; cbn [dict_set dict_get].
  - apply String.eqb_neq in Hne. rewrite String.eqb_sym. now rewrite Hne.
  - destruct (String.eqb k k0) eqn:E; cbn [dict_get].
    + apply String.eqb_eq in E as <-.
      assert (String.eqb k' k = false) as -> by (apply String.eqb_neq; congruence).
      reflexivity.
    + now rewrite IH.
Qed.

Lemma keys_dict_set {V} (k : string) (v : V) (d : Dict V) :
  keys (dict_set k v d) = if list_in k (keys d) then keys d else (keys d ++ [k])%list.
Proof.
  induction d as [|[k' v'] d IH]; [reflexivity|].
  cbn [dict_set keys map fst list_in]. fold (keys d).
  destruct (String.eqb k k') eqn:E; cbn [orb map fst].
  - apply String.eqb_eq in E as ->. reflexivity.
  - fold (keys (dict_set k v d)). rewrite IH. now destruct (list_in k (keys d)).
Qed.

Lemma list_in_In (x : string) (xs : list string) : list_in x xs = true ↔ In x xs.
Proof.
  induction xs as [|y xs IH]; [easy|].
  cbn [list_in In]. rewrite orb_true_iff, IH, String.eqb_eq. intuition.
Qed.

(** X14.  Registration and creation round trip, whatever the letter case:
    after [register_strategy name cls], [create_strategy] returns [cls]
    for every name with the same lower-cased form, and for every other
    name it returns exactly what it returned before. *)
Theorem register_then_create (_strategies : Dict StrategyClass) (name : string)
    (cls : StrategyClass) (asked : string) :
  (PyStr.lower asked = PyStr.lower name →
   create_strategy (register_strategy name cls _strategies) asked = Returned cls)
  ∧ (PyStr.lower asked ≠ PyStr.lower name →
     ∀ c, create_strategy (register_strategy name cls _strategies) asked = Returned c
          ↔ create_strategy _strategies asked = Returned c).
Proof.
  unfold create_strategy, register_strategy. split.
  - intros ->. now rewrite dict_get_set_same.
  - intros Hne c. rewrite dict_get_set_other by congruence.
    destruct (dict_get (PyStr.lower asked) _strategies); [tauto|].
    split; discriminate.
Qed.

(** X15.  Registering a name appends its lower-cased form to the supported
    types when it is new and leaves the list as it is when that form is
    already there, so a list without duplicates stays without duplicates. *)
Theorem supported_types_after_register (_strategies : Dict StrategyClass)
    (name : string) (cls : StrategyClass) :
  get_supported_types (register_strategy name cls _strategies)
  = (if list_in (PyStr.lower name) (get_supported_types _strategies)
     then get_supported_types _strategies
     else (get_supported_types _strategies ++ [PyStr.lower name])%list)
  ∧ (List.NoDup (get_supported_types _strategies) →
     List.NoDup (get_supported_types (register_strategy name cls _strategies))).
Proof.
  unfold get_supported_types, register_strategy. rewrite keys_dict_set.
  split; [reflexivity|]. intros Hnd.
  destruct (list_in (PyStr.lower name) (keys _strategies)) eqn:E; [exact Hnd|].
  apply List.NoDup_app; repeat split.
  - exact Hnd.
  - repeat constructor. intros [].
  - intros x Hx [<- | []]. apply list_in_In in Hx. congruence.
Qed.

(** X16.  The intake handler and the registry agree: [visualize] accepts
    a request exactly when [create_strategy] returns a strategy for its
    type, so a job that was accepted never fails for an unsupported
    type. *)
Theorem intake_agrees_with_registry (request : VisualizationRequest) (job_id : string)
    (now : Z) (_jobs : gmap string VisualizationJob) :
  (∃ response, fst (visualize request job_id now _jobs) = Ok response)
  ↔ (∃ strategy_class,
       create_strategy visualization_factory (req_visualization_type request)
       = Returned strategy_class).
Proof.
  destruct (list_in (PyStr.lower (req_visualization_type request))
              (get_supported_types visualization_factory)) eqn:E.
  - rewrite visualize_accepts by exact E.
    split; intros _; [now apply create_strategy_returns | eauto].
  - destruct (visualize_rejects request job_id now _jobs E) as [detail ->].
    destruct (create_strategy_raises _ _ E) as (e & -> & _).
    split; intros [x Hx]; discriminate.
Qed.

End FactoryMore.

(** ** More on the job store and the attempt loop *)

Module LifecycleFacts.
Import Main Obs Obs2 LoopFacts.

Section Loop.
Variable utcnow : nat → Z.
Variable gen : Z → Outcome VisualizationResult.
Variable job_id : string.

Ltac step :=
  cbn [attempt_loop];
  cbv beta iota zeta
      delta [stamp_and_store now emit fst snd jobs reads trace
             after_last_attempt after_retry running_job];
  rewrite <- ?app_assoc; cbn [app].

Lemma written_refl_running (k : Z) (job : VisualizationJob) (w : World) :
  written_from job (running_job utcnow k job w).
Proof. repeat split; cbn; auto; discriminate. Qed.

(** One attempt, with every field of the record it leaves: either it ends
    the loop in a final state, or it is a retried transient failure. *)
Lemma attempt_summary (k : Z) (rest : list Z) (job : VisualizationJob) (w : World) :
  (∃ final,
     attempt_loop utcnow gen job_id (k :: rest) job w
     = after_last_attempt job_id k (running_job utcnow k job w) final w
     ∧ terminal final = true
     ∧ written_from job final
     ∧ attempts final = k
     ∧ (status final = SUCCEEDED →
        ∃ result, gen k = Returned result
                  ∧ content final = Some (res_content result)
                  ∧ metadata final = res_metadata result
                  ∧ error final = error job))
  ∨ (k < max_attempts
     ∧ ∃ pending,
         attempt_loop utcnow gen job_id (k :: rest) job w
         = attempt_loop utcnow gen job_id rest pending
             (after_retry job_id k (running_job utcnow k job w) pending w)
         ∧ status pending = PENDING
         ∧ written_from job pending
         ∧ content pending = content job
         ∧ metadata pending = metadata job
         ∧ attempts pending = k).
Proof.
  step. destruct (gen k) as [result | exc].
  - left. step. eexists. split; [reflexivity|].
    repeat split; cbn; eauto; try discriminate.
  - destruct (is_ValueError exc || is_RuntimeError exc).
    { left. step. eexists. split; [reflexivity|].
      repeat split; cbn; eauto; discriminate. }
    destruct (exc_class exc);
      try (left; step; eexists; (split; [reflexivity|]);
           repeat split; cbn; eauto; discriminate).
    destruct (is_transient (status_code_of exc) && (k <? max_attempts)) eqn:Hretry.
    + right. apply andb_prop in Hretry as [_ Hk]. apply Z.ltb_lt in Hk.
      split; [exact Hk|]. step. eexists. split; [reflexivity|].
      repeat split; cbn; eauto; discriminate.
    + left. destruct (status_is (status_code_of exc) 503);
        [|destruct (status_is (status_code_of exc) 429)];
        step; eexists; (split; [reflexivity|]);
        repeat split; cbn; eauto; discriminate.
Qed.

Lemma written_from_trans (job pending j : VisualizationJob) :
  written_from job pending →
  content pending = content job → metadata pending = metadata job →
  written_from pending j → written_from job j.
Proof.
  intros ((H1 & H2 & H3 & H4) & _) Hc Hm ((G1 & G2 & G3 & G4) & Gc & Gs & Gf).
  split; [repeat split; congruence|].
  split; [|split; assumption].
  destruct Gc as [|[? ?]]; [now left | right; split; congruence].
Qed.

(** Every value the loop writes is [written_from] the record it started
    with. *)
Lemma loop_writes (todo : list Z) :
  ∀ job w,
    ∃ evs : list Event,
      trace (attempt_loop utcnow gen job_id todo job w) = (trace w ++ evs)%list
      ∧ Forall (written_from job) (snapshots evs).
Proof.
  induction todo as [|k rest IH]; intros job w.
  - exists []. cbn. rewrite app_nil_r. auto.
  - destruct (attempt_summary k rest job w)
      as [(final & -> & _ & Hw & _) | (_ & pending & -> & _ & Hw & Hc & Hm & _)].
    + eexists. unfold after_last_attempt. cbn [trace]. split; [reflexivity|].
      cbn [snapshots].
      constructor; [apply written_refl_running|]. constructor; [exact Hw|]. constructor.
    + destruct (IH pending (after_retry job_id k (running_job utcnow k job w) pending w))
        as (evs & -> & Hall).
      unfold after_retry at 1. cbn [trace]. rewrite <- app_assoc.
      eexists. split; [reflexivity|].
      rewrite snapshots_app. cbn [snapshots app].
      constructor; [apply written_refl_running|]. constructor; [exact Hw|].
      eapply Forall_impl; [exact Hall|]. intros j Hj.
      now apply (written_from_trans job pending j).
Qed.

(** When the last attempt of the list cannot be retried, the loop leaves
    the record in a final state. *)
Lemma loop_ends_terminal (todo : list Z) :
  todo ≠ [] →
  (∀ k, last todo = Some k → max_attempts <= k) →
  ∀ job w,
    ∃ final,
      jobs (attempt_loop utcnow gen job_id todo job w) !! job_id = Some final
      ∧ terminal final = true.
Proof.
  induction todo as [|k rest IH]; [congruence|]. intros _ Hlast job w.
  destruct (attempt_summary k rest job w)
    as [(final & -> & Ht & _) | (Hk & pending & -> & _)].
  - exists final. unfold after_last_attempt. cbn [jobs].
    split; [apply lookup_insert_eq | exact Ht].
  - destruct rest as [|k' rest].
    + specialize (Hlast k eq_refl). lia.
    + apply IH; [congruence|]. intros k0 Hk0. apply Hlast.
      rewrite last_cons, Hk0. reflexivity.
Qed.

End Loop.
End LifecycleFacts.

Module LifecycleProps.
Import Main Obs Obs2 LoopFacts LifecycleFacts.

(** X17.  What a poll sees of an accepted job while the first call is
    awaited.  The task [visualize] schedules runs up to its first [await]
    before any poll is served; at that point of the run (the run's events
    begin with this write, then the first call) the store holds the record
    as running with [attempts = 1].  A poll not later than one hour after
    the creation returns that record: status running, the id, the
    lower-cased type, no content, no metadata, no error, and the store is
    left as it is; a later poll raises 404 and removes the record. *)
Theorem accepted_job_is_polled_as_running (request : VisualizationRequest)
    (job_id : string) (now later : Z) (_jobs : gmap string VisualizationJob)
    (utcnow : nat → Z) (gen : Z → Outcome VisualizationResult) (r : nat) :
  VisualizationFactory.list_in (PyStr.lower (req_visualization_type request))
    LlmService.get_supported_visualization_types = true →
  let w0 := mkWorld (snd (visualize request job_id now _jobs)) r [] in
  let w1 := until_first_await utcnow job_id w0 in
  (∃ evs : list Event,
     trace (_run_visualization_job utcnow gen job_id w0)
     = (trace w1 ++ EvGenerate 1 :: evs)%list)
  ∧ (∃ running,
       jobs w1 !! job_id = Some running
       ∧ trace w1 = [EvStore job_id running]
       ∧ status running = RUNNING ∧ attempts running = 1
       ∧ created_at running = now ∧ updated_at running = utcnow r
       ∧ expires_at running = now + 3600 * 1000000)
  ∧ (later <= now + 3600 * 1000000 →
     get_visualization_job job_id later (jobs w1)
     = (Ok (mkStatusResponse job_id RUNNING (PyStr.lower (req_visualization_type request))
              None [] None),
        jobs w1))
  ∧ (now + 3600 * 1000000 < later →
     ∃ detail,
       get_visualization_job job_id later (jobs w1)
       = (HTTPException 404 detail, delete job_id (jobs w1))).
Proof.
  intros Hok. cbv zeta.
  rewrite FactoryFacts.visualize_accepts by exact Hok. cbn [snd].
  set (created := mkJob job_id PENDING (PyStr.lower (req_visualization_type request))
                    None [] None now now (now + 3600 * 1000000) 0).
  set (w0 := mkWorld (<[job_id := created]> _jobs) r []).
  assert (Hw1 : until_first_await utcnow job_id w0
                = mkWorld (<[job_id := running_job utcnow 1 created w0]> (jobs w0))
                    (S r) [EvStore job_id (running_job utcnow 1 created w0)]).
  { unfold until_first_await. cbn [jobs w0].
    rewrite lookup_insert_eq, py_range_attempts. reflexivity. }
  rewrite Hw1. cbn [jobs trace]. split; [|split; [|split]].
  - unfold _run_visualization_job. cbn [jobs w0].
    rewrite lookup_insert_eq, py_range_attempts. fold w0.
    destruct (attempt_summary utcnow gen job_id 1 [2; 3] created w0)
      as [(final & -> & _) | (_ & pending & -> & _)].
    + unfold after_last_attempt. cbn [trace w0 app]. eexists. reflexivity.
    + destruct (loop_writes utcnow gen job_id [2; 3] pending
                  (after_retry job_id 1 (running_job utcnow 1 created w0) pending w0))
        as (evs & -> & _).
      unfold after_retry. cbn [trace w0 app]. eexists. reflexivity.
  - eexists. split; [apply lookup_insert_eq|]. repeat split.
  - intros Hlater. unfold get_visualization_job. rewrite lookup_insert_eq.
    cbn [expires_at running_job set_updated_at set_attempts set_status created].
    destruct (Z.ltb_spec (now + 3600 * 1000000) later); [lia|]. reflexivity.
  - intros Hlater. unfold get_visualization_job. rewrite lookup_insert_eq.
    cbn [expires_at running_job set_updated_at set_attempts set_status created].
    destruct (Z.ltb_spec (now + 3600 * 1000000) later); [|lia]. eexists. reflexivity.
Qed.

Lemma accepted_job_is_polled_as_running_witness :
  let request := mkRequest "How does X work?" "MindMap" default_options in
  let w1 := until_first_await (fun n => Z.of_nat n) "job-1"
              (mkWorld (snd (visualize request "job-1" 0 ∅)) 5 []) in
  get_visualization_job "job-1" 3600000000 (jobs w1)
  = (Ok (mkStatusResponse "job-1" RUNNING "mindmap" None [] None), jobs w1).
Proof.
  assert (H : 3600000000 <= 0 + 3600 * 1000000) by lia.
  destruct (accepted_job_is_polled_as_running
              (mkRequest "How does X work?" "MindMap" default_options)
              "job-1" 0 3600000000 ∅ (fun n => Z.of_nat n)
              (fun _ => Raised (raise_ValueError "no answer")) 5%nat eq_refl)
    as (_ & _ & Hpoll & _).
  exact (Hpoll H).
Defined.

(** X18.  A poll changes nothing but, at most, the record it asks for: the
    records of all other ids are as before, and the record asked for is
    kept, and returned as it is, as long as the time of the poll is not
    after its [expires_at]. *)
Theorem poll_touches_only_expired_record (job_id : string) (now : Z)
    (_jobs : gmap string VisualizationJob) :
  (∀ other, other ≠ job_id →
     snd (get_visualization_job job_id now _jobs) !! other = _jobs !! other)
  ∧ (∀ job, _jobs !! job_id = Some job → now <= expires_at job →
       get_visualization_job job_id now _jobs
       = (Ok (mkStatusResponse (id job) (status job) (visualization_type job)
                (content job) (metadata job) (error job)), _jobs))
  ∧ (_jobs !! job_id = None →
     ∃ detail, get_visualization_job job_id now _jobs = (HTTPException 404 detail, _jobs)).
Proof.
  unfold get_visualization_job. repeat split.
  - intros other Hne. destruct (_jobs !! job_id) as [job|]; [|reflexivity].
    destruct (expires_at job <? now); cbn [snd]; [|reflexivity].
    now apply lookup_delete_ne.
  - intros job -> Hle. destruct (Z.ltb_spec (expires_at job) now); [lia | reflexivity].
  - intros ->. eexists. reflexivity.
Qed.

(** X19.  The background task always ends with the job in a final state:
    whatever the awaited call gives at each attempt, when the record is in
    the store at the start, the store holds it as succeeded or failed at
    the end; when it is not, the task does nothing. *)
Theorem task_ends_in_final_state (utcnow : nat → Z)
    (gen : Z → Outcome VisualizationResult) (job_id : string) (w : World) :
  match jobs w !! job_id with
  | Some _ =>
      ∃ final, jobs (_run_visualization_job utcnow gen job_id w) !! job_id = Some final
               ∧ (status final = SUCCEEDED ∨ status final = FAILED)
  | None => _run_visualization_job utcnow gen job_id w = w
  end.
Proof.
  unfold _run_visualization_job. rewrite py_range_attempts.
  destruct (jobs w !! job_id) as [job|]; [|reflexivity].
  destruct (loop_ends_terminal utcnow gen job_id [1; 2; 3]) with (job := job) (w := w)
    as (final & Hf & Ht).
  - discriminate.
  - cbn. intros k [= <-]. unfold max_attempts. lia.
  - exists final. split; [exact Hf|].
    unfold terminal in Ht. destruct (status final); try discriminate; auto.
Qed.

(** X20.  The loop assigns status, attempts, content, metadata, error and
    updated_at only: every value it writes has the id, type, created_at
    and expires_at of the record it started with; content and metadata
    are those of the start until the job succeeds; a succeeded value has a
    content and a failed one an error.  For a job that starts without
    content, as [visualize] creates it, content is present exactly in the
    succeeded values. *)
Theorem written_values_keep_the_record (utcnow : nat → Z)
    (gen : Z → Outcome VisualizationResult) (job_id : string)
    (job : VisualizationJob) (m : gmap string VisualizationJob) (r : nat) :
  let w := _run_visualization_job utcnow gen job_id (mkWorld (<[job_id := job]> m) r []) in
  Forall (written_from job) (snapshots (trace w))
  ∧ (content job = None →
     Forall (fun j => is_Some (content j) ↔ status j = SUCCEEDED) (snapshots (trace w))).
Proof.
  cbv zeta. unfold _run_visualization_job. cbn [jobs]. rewrite lookup_insert_eq.
  destruct (loop_writes utcnow gen job_id (py_range 1 (max_attempts + 1)) job
              (mkWorld (<[job_id := job]> m) r [])) as (evs & -> & Hall).
  cbn [trace app]. split; [exact Hall|].
  intros Hnone. eapply Forall_impl; [exact Hall|].
  intros j (_ & Hc & Hs & _). split; [|exact Hs].
  intros Hsome. destruct Hc as [|[Hc _]]; [assumption|].
  rewrite Hc, Hnone in Hsome. destruct Hsome as [? ?]. discriminate.
Qed.

(** X21.  Three transient failures in a row: the task calls three times,
    sleeps 1.5 s and 3 s, and leaves the job failed with [attempts = 3]
    and the message for an overloaded model when the last status code is
    503, for the rate limit when it is 429. *)
Theorem transient_failures_exhaust_the_attempts (utcnow : nat → Z)
    (gen : Z → Outcome VisualizationResult) (job_id : string)
    (job : VisualizationJob) (m : gmap string VisualizationJob) (r : nat)
    (e1 e2 e3 : Exc) :
  gen 1 = Raised e1 → gen 2 = Raised e2 → gen 3 = Raised e3 →
  transient e1 = true → transient e2 = true → transient e3 = true →
  let w := _run_visualization_job utcnow gen job_id (mkWorld (<[job_id := job]> m) r []) in
  generate_calls (trace w) = 3%nat
  ∧ sleeps (trace w) = [backoff_delay 1; backoff_delay 2]
  ∧ ∃ final,
      jobs w !! job_id = Some final
      ∧ status final = FAILED
      ∧ attempts final = 3
      ∧ error final
        = Some (if status_is (status_code_of e3) 503
                then "The Gemini model is still overloaded after multiple attempts. "
                     +:+ "Please wait a bit and try again."
                else "Gemini rate limit was hit several times in a row. "
                     +:+ "Please slow down and try again shortly.").
Proof.
  intros H1 H2 H3 T1 T2 T3. cbv zeta.
  unfold _run_visualization_job. cbn [jobs].
  rewrite lookup_insert_eq, py_range_attempts.
  set (w0 := mkWorld (<[job_id := job]> m) r []).
  destruct (attempt_is_retried utcnow gen job_id 1 [2; 3] job w0 e1 H1 T1 eq_refl)
    as (p1 & -> & _).
  set (w1 := after_retry job_id 1 (running_job utcnow 1 job w0) p1 w0).
  destruct (attempt_is_retried utcnow gen job_id 2 [3] p1 w1 e2 H2 T2 eq_refl)
    as (p2 & -> & _).
  set (w2 := after_retry job_id 2 (running_job utcnow 2 p1 w1) p2 w1).
  assert (Hmax : max_attempts <= 3) by (unfold max_attempts; lia).
  destruct (attempt_exhausts_retries utcnow gen job_id 3 [] p2 w2 e3 H3 T3 Hmax)
    as (final & -> & Hst & Herr & Hat & _).
  subst w2 w1 w0.
  unfold after_last_attempt, after_retry. cbn [jobs trace reads].
  rewrite !generate_calls_app, !sleeps_app. cbn [generate_calls sleeps app].
  split; [reflexivity|]. split; [reflexivity|].
  exists final. split; [apply lookup_insert_eq|]. auto.
Qed.

Lemma transient_failures_exhaust_the_attempts_witness :
  generate_calls
    (trace (_run_visualization_job (fun n => Z.of_nat n) (fun _ => Raised overloaded_503)
              "job-1" (mkWorld (<["job-1" := fresh_job]> ∅) 0 []))) = 3%nat
  ∧ sleeps
      (trace (_run_visualization_job (fun n => Z.of_nat n) (fun _ => Raised overloaded_503)
                "job-1" (mkWorld (<["job-1" := fresh_job]> ∅) 0 [])))
    = [backoff_delay 1; backoff_delay 2].
Proof.
  destruct (transient_failures_exhaust_the_attempts (fun n => Z.of_nat n)
              (fun _ => Raised overloaded_503) "job-1" fresh_job ∅ 0
              overloaded_503 overloaded_503 overloaded_503
              eq_refl eq_refl eq_refl eq_refl eq_refl eq_refl) as (Hc & Hs & _).
  split; [exact Hc | exact Hs].
Defined.

(** X22.  From the request to the poll: when [visualize] accepts the
    request and the call of the first attempt returns a result, a poll
    before the expiry returns the job as succeeded with the content and
    the metadata of that result, the lower-cased type, and no error; one
    call was made and none of the sleeps. *)
Theorem accepted_job_succeeds_at_first_attempt (utcnow : nat → Z)
    (gen : Z → Outcome VisualizationResult) (request : VisualizationRequest)
    (job_id : string) (now later : Z) (_jobs : gmap string VisualizationJob) (r : nat)
    (result : VisualizationResult) :
  VisualizationFactory.list_in (PyStr.lower (req_visualization_type request))
    LlmService.get_supported_visualization_types = true →
  gen 1 = Returned result →
  later <= now + 3600 * 1000000 →
  let w := _run_visualization_job utcnow gen job_id
             (mkWorld (snd (visualize request job_id now _jobs)) r []) in
  fst (get_visualization_job job_id later (jobs w))
  = Ok (mkStatusResponse job_id SUCCEEDED (PyStr.lower (req_visualization_type request))
          (Some (res_content result)) (res_metadata result) None)
  ∧ generate_calls (trace w) = 1%nat
  ∧ sleeps (trace w) = [].
Proof.
  intros Hok Hgen Hlater. cbv zeta.
  rewrite FactoryFacts.visualize_accepts by exact Hok. cbn [snd].
  unfold _run_visualization_job. cbn [jobs].
  rewrite lookup_insert_eq, py_range_attempts.
  cbn [attempt_loop]. rewrite Hgen.
  cbv beta iota zeta delta [stamp_and_store Main.now emit fst snd jobs reads trace].
  unfold get_visualization_job. rewrite lookup_insert_eq.
  cbn [expires_at set_updated_at set_status set_metadata set_content set_attempts
       id status visualization_type content metadata error created_at updated_at attempts].
  destruct (Z.ltb_spec (now + 3600 * 1000000) later); [lia|].
  repeat split.
Qed.

Lemma accepted_job_succeeds_at_first_attempt_witness :
  fst (get_visualization_job "job-1" 10
         (jobs (_run_visualization_job (fun n => Z.of_nat n)
                  (fun _ => Returned (mkResult "flowchart" "flowchart TD" []))
                  "job-1"
                  (mkWorld (snd (visualize (mkRequest "How does X work?" "Flowchart"
                                              default_options) "job-1" 0 ∅)) 0 []))))
  = Ok (mkStatusResponse "job-1" SUCCEEDED "flowchart" (Some "flowchart TD") [] None).
Proof.
  assert (H : 10 <= 0 + 3600 * 1000000) by lia.
  exact (proj1 (accepted_job_succeeds_at_first_attempt (fun n => Z.of_nat n)
                  (fun _ => Returned (mkResult "flowchart" "flowchart TD" []))
                  (mkRequest "How does X work?" "Flowchart" default_options)
                  "job-1" 0 10 ∅ 0 (mkResult "flowchart" "flowchart TD" [])
                  eq_refl eq_refl H)).
Defined.

End LifecycleProps.

(** ** The service, and how the loop reads an error *)

Module ServiceProps.
Import Main Obs Obs2 LoopFacts PyStr PyStrFacts.

Lemma lower_app (a b : string) : lower (a +:+ b) = lower a +:+ lower b.
Proof.
  induction a as [|c a IH]; [reflexivity|].
  rewrite append_cons. cbn [lower]. now rewrite IH, append_cons.
Qed.

Lemma startswith_app (p s : string) : startswith p (p +:+ s) = true.
Proof.
  induction p as [|c p IH]; [reflexivity|].
  rewrite append_cons. cbn [startswith]. now rewrite Ascii.eqb_refl.
Qed.

Lemma contains_app (needle before after : string) :
  contains needle (before +:+ needle +:+ after) = true.
Proof.
  induction before as [|c before IH].
  - change ("" +:+ needle +:+ after) with (needle +:+ after).
    destruct (needle +:+ after) eqn:E; cbn [contains];
      rewrite <- E, startswith_app; reflexivity.
  - rewrite append_cons. cbn [contains]. rewrite IH. apply orb_true_r.
Qed.

(** X23.  How the loop reads the status of a [ServerError].  A status
    code carried by the exception decides alone, whatever the text says:
    the error is retried exactly when that code is 503 or 429.  Without
    any code, a text in which [overloaded] or [unavailable] occurs, in
    any letter case, is read as 503 and retried, also when the text
    mentions 429 or the rate limit. *)
Theorem server_error_status (text : string) (response : option Response) :
  (∀ code, status_code_of (mkExc ServerError text (Some code) response) = Some code
           ∧ transient (mkExc ServerError text (Some code) response)
             = (code =? 503) || (code =? 429))
  ∧ ∀ before word after,
      lower word = "overloaded" ∨ lower word = "unavailable" →
      status_code_of (mkExc ServerError (before +:+ word +:+ after) None None) = Some 503
      ∧ transient (mkExc ServerError (before +:+ word +:+ after) None None) = true.
Proof.
  split.
  - intros code. split; reflexivity.
  - intros before word after Hword.
    assert (Hs : status_code_of (mkExc ServerError (before +:+ word +:+ after) None None)
                 = Some 503).
    { unfold status_code_of. cbn [exc_status_code exc_response exc_text].
      rewrite !lower_app.
      destruct Hword as [-> | ->]; rewrite contains_app;
        now rewrite ?orb_true_r. }
    split; [exact Hs|]. unfold transient. rewrite Hs. reflexivity.
Qed.

Section Concrete.
Variable decode : string → option (Outcome Mindmap.MindmapNode).
Variable py_str : Json.JSON → string.
Variable search_json_block : string → option string.
Variable json_loads : string → Outcome Json.JSON.

Lemma created_strategy (visualization_type : string)
    (strategy : VisualizationFactory.StrategyClass) :
  VisualizationFactory.create_strategy VisualizationFactory.visualization_factory
    visualization_type = Returned strategy →
  lower visualization_type
  = match strategy with
    | VisualizationFactory.Flowchart => "flowchart"
    | VisualizationFactory.Mindmap => "mindmap"
    end.
Proof.
  unfold VisualizationFactory.create_strategy, VisualizationFactory.visualization_factory.
  cbn [VisualizationFactory.register_strategy VisualizationFactory.dict_set].
  change (lower "flowchart") with "flowchart". change (lower "mindmap") with "mindmap".
  cbn [VisualizationFactory.dict_set String.eqb Ascii.eqb Bool.eqb
       VisualizationFactory.dict_get].
  destruct (String.eqb (lower visualization_type) "flowchart") eqn:E1.
  - intros [= <-]. now apply String.eqb_eq.
  - destruct (String.eqb (lower visualization_type) "mindmap") eqn:E2; [|discriminate].
    intros [= <-]. now apply String.eqb_eq.
Qed.

(** X24.  The result echoes the requested type: whenever
    [generate_visualization] returns, the [type] of the result is the
    lower-cased [visualization_type] that was asked for, which is also the
    type [visualize] stores in the job, and it is [flowchart] or
    [mindmap]. *)
Theorem result_type_is_requested_type (question visualization_type : string)
    (options : VisualizationOptions) (provider : ProviderOutcome)
    (result : VisualizationResult) :
  Service.generate_visualization decode py_str search_json_block json_loads
    question visualization_type options provider = Returned result →
  res_type result = lower visualization_type
  ∧ (res_type result = "flowchart" ∨ res_type result = "mindmap").
Proof.
  unfold Service.generate_visualization, LlmService.generate_visualization.
  destruct (VisualizationFactory.create_strategy _ _) as [strategy|] eqn:Hc;
    [|discriminate].
  apply created_strategy in Hc. rewrite Hc.
  destruct strategy; cbn [LlmService.strategy_generate].
  - destruct (FlowchartStrategy.generate _ _ _ _) as [r|] eqn:Hg; [|discriminate].
    intros [= <-].
    apply (FlowchartGenerateProps.flowchart_result_type
             py_str search_json_block json_loads) in Hg.
    rewrite Hg. auto.
  - destruct (MindmapStrategy.generate _ _ _ _) as [r|] eqn:Hg; [|discriminate].
    intros [= <-].
    assert (Ht : res_type r = "mindmap").
    { unfold MindmapStrategy.generate, MindmapStrategy.generate_body in Hg.
      destruct provider as [[text|]|]; [|discriminate..].
      destruct (decode text) as [[t|]|]; [|discriminate..].
      destruct (negb _); [discriminate|]. injection Hg as <-. reflexivity. }
    rewrite Ht. auto.
Qed.

(** X25.  For a type the registry does not know, [generate_visualization]
    raises the [ValueError] of the registry, prefixed, whatever the
    provider would answer: no strategy is created and the provider is not
    called.  The loop then leaves the job failed with that message after
    one call. *)
Theorem unsupported_type_fails_without_provider (question visualization_type : string)
    (options : VisualizationOptions) (provider : ProviderOutcome) :
  VisualizationFactory.list_in (lower visualization_type)
    (VisualizationFactory.get_supported_types VisualizationFactory.visualization_factory)
  = false →
  Service.generate_visualization decode py_str search_json_block json_loads
    question visualization_type options provider
  = Raised (raise_ValueError
              ("Visualization error: Unsupported visualization type: '"
               +:+ visualization_type +:+ "'. Supported types are: flowchart, mindmap."))
  ∧ ∀ utcnow job_id job (m : gmap string VisualizationJob) r,
      let w := _run_visualization_job utcnow
                 (fun _ => Service.generate_visualization decode py_str search_json_block
                             json_loads question visualization_type options provider)
                 job_id (mkWorld (<[job_id := job]> m) r []) in
      generate_calls (trace w) = 1%nat
      ∧ ∃ final,
          jobs w !! job_id = Some final
          ∧ status final = FAILED
          ∧ error final
            = Some ("Visualization error: Unsupported visualization type: '"
                    +:+ visualization_type
                    +:+ "'. Supported types are: flowchart, mindmap.").
Proof.
  intros Hno.
  assert (Hg : Service.generate_visualization decode py_str search_json_block json_loads
                 question visualization_type options provider
               = Raised (raise_ValueError
                           ("Visualization error: Unsupported visualization type: '"
                            +:+ visualization_type
                            +:+ "'. Supported types are: flowchart, mindmap."))).
  { unfold Service.generate_visualization, LlmService.generate_visualization,
      VisualizationFactory.create_strategy.
    unfold VisualizationFactory.get_supported_types in Hno.
    rewrite FactoryFacts.dict_get_keys in Hno.
    destruct (VisualizationFactory.dict_get _ _); [discriminate|].
    reflexivity. }
  split; [exact Hg|].
  intros utcnow job_id job m r. cbv zeta.
  unfold _run_visualization_job. cbn [jobs]. rewrite lookup_insert_eq, py_range_attempts.
  cbn [attempt_loop]. rewrite Hg.
  cbv beta iota zeta delta [stamp_and_store Main.now emit fst snd jobs reads trace
                            is_ValueError is_RuntimeError raise_ValueError exc_class
                            exc_text orb].
  cbn [app generate_calls]. split; [reflexivity|].
  eexists. split; [apply lookup_insert_eq|]. split; reflexivity.
Qed.

End Concrete.

Lemma server_error_status_witness :
  status_code_of (mkExc ServerError ("The model is " +:+ "OVERLOADED" +:+ " (429)") None None)
  = Some 503
  ∧ transient (mkExc ServerError ("The model is " +:+ "OVERLOADED" +:+ " (429)") None None)
    = true.
Proof.
  exact (proj2 (server_error_status "" None) "The model is " "OVERLOADED" " (429)"
               (or_introl eq_refl)).
Defined.

Lemma result_type_is_requested_type_witness :
  res_type (mkResult "flowchart"
              (join nl ("flowchart TD" :: FlowchartRender.fallback_lines)) [])
  = lower "FlowChart"
  ∧ (res_type (mkResult "flowchart"
                 (join nl ("flowchart TD" :: FlowchartRender.fallback_lines)) [])
     = "flowchart"
     ∨ res_type (mkResult "flowchart"
                   (join nl ("flowchart TD" :: FlowchartRender.fallback_lines)) [])
       = "mindmap").
Proof.
  apply (result_type_is_requested_type (fun _ => None) (fun _ => "") (fun _ => None)
           (fun _ => Returned (Json.JObj [])) "How does X work?" "FlowChart"
           default_options (Returned (Some "{}"))).
  reflexivity.
Defined.

Lemma unsupported_type_fails_without_provider_witness :
  Service.generate_visualization (fun _ => None) (fun _ => "") (fun _ => None)
    (fun _ => Returned (Json.JObj [])) "How does X work?" "PieChart" default_options
    (Returned (Some "{}"))
  = Raised (raise_ValueError
              ("Visualization error: Unsupported visualization type: '"
               +:+ "PieChart" +:+ "'. Supported types are: flowchart, mindmap.")).
Proof.
  exact (proj1 (unsupported_type_fails_without_provider (fun _ => None) (fun _ => "")
                  (fun _ => None) (fun _ => Returned (Json.JObj []))
                  "How does X work?" "PieChart" default_options (Returned (Some "{}"))
                  eq_refl)).
Defined.

End ServiceProps.
